(** * pytorch-seq2seq: the training, validation and inference drivers

    A shallow embedding of [solver.py] (class [Solver]) and of the script
    [train.py], and the properties of their checkpoint policy, early stopping,
    loss slicing, optimisation step order and inference output.

    Python floats are IEEE binary64 values; they are modelled by
    [spec_float], the specification of IEEE floats of the standard library,
    with its comparisons [SFltb], [SFleb] and [SFeqb] for the Python
    operators [<], [<=] and [==]. *)

From Stdlib Require Import String ZArith Bool Lia PeanoNat List.
From Stdlib Require Import Floats.SpecFloat.
Import ListNotations.

Set Implicit Arguments.

(** ** Python floats *)

Module PyFloat.

Definition float := spec_float.

(** Binary64. *)
Definition prec : Z := 53.
Definition emax : Z := 1024.

(** [float('inf')]. *)
Definition inf : float := S754_infinity false.
Definition nan : float := S754_nan.
(** The float [0.] and the float of an integer literal such as [5.0]. *)
Definition zero : float := S754_zero false.
Definition of_Z (z : Z) : float := binary_normalize prec emax z 0 false.

Definition lt (x y : float) : bool := SFltb x y.
Definition le (x y : float) : bool := SFleb x y.
Definition eq (x y : float) : bool := SFeqb x y.
Definition add (x y : float) : float := SFadd prec emax x y.
Definition div (x y : float) : float := SFdiv prec emax x y.

Definition is_nan (x : float) : bool :=
  match x with S754_nan => true | _ => false end.

End PyFloat.

Import PyFloat.

(** Float arithmetic is computed on closed values only. *)
Arguments PyFloat.of_Z : simpl never.
Arguments PyFloat.lt : simpl never.
Arguments PyFloat.le : simpl never.
Arguments PyFloat.eq : simpl never.
Arguments PyFloat.add : simpl never.
Arguments PyFloat.div : simpl never.

(** ** Exceptions, and the monad of stateful code that may raise *)

Inductive exn : Type :=
| ZeroDivisionError
| ValueError
| IndexError
| FileNotFoundError
| UnpicklingError.

Inductive result (A : Type) : Type :=
| Ok (a : A)
| Raise (e : exn).
Arguments Ok {A} a.
Arguments Raise {A} e.

(** A computation reads and writes a state [S]; the state survives an
    exception, as the attributes of a Python object do. *)
Definition M (S A : Type) : Type := S -> S * result A.

Definition ret {S A} (a : A) : M S A := fun s => (s, Ok a).
Definition raise {S A} (e : exn) : M S A := fun s => (s, Raise e).
Definition bind {S A B} (m : M S A) (k : A -> M S B) : M S B :=
  fun s => match m s with
           | (s', Ok a) => k a s'
           | (s', Raise e) => (s', Raise e)
           end.
Definition get {S} : M S S := fun s => (s, Ok s).
Definition modify {S} (f : S -> S) : M S unit := fun s => (f s, Ok tt).

Declare Scope monad_scope.
Delimit Scope monad_scope with monad.
Notation "x <- m ;; k" := (bind m (fun x => k))
  (at level 61, m at next level, right associativity) : monad_scope.
Notation "m ;; k" := (bind m (fun _ => k))
  (at level 61, right associativity) : monad_scope.
Open Scope monad_scope.

(** What the body of a [for] loop tells the loop: go on, or [break]. *)
Inductive loop_ctl : Type := Continue | Break.

(** [for x in xs: body], with [break]. *)
Fixpoint for_each {S X} (xs : list X) (body : X -> M S loop_ctl) : M S unit :=
  match xs with
  | [] => ret tt
  | x :: xs' =>
      c <- body x ;;
      match c with
      | Continue => for_each xs' body
      | Break => ret tt
      end
  end.

(** A [for] loop that carries local variables [acc] from one iteration to
    the next. *)
Fixpoint for_acc {S X A} (xs : list X) (acc : A)
         (body : A -> X -> M S (A * loop_ctl)) : M S A :=
  match xs with
  | [] => ret acc
  | x :: xs' =>
      r <- body acc x ;;
      match r with
      | (acc', Continue) => for_acc xs' acc' body
      | (acc', Break) => ret acc'
      end
  end.

(** [range(a, b)], for [a] not negative. *)
Definition range (a b : Z) : list nat := seq (Z.to_nat a) (Z.to_nat (b - a)).

(** [enumerate(xs)] *)
Definition enumerate {X} (xs : list X) : list (nat * X) :=
  combine (seq 0 (length xs)) xs.

(** ** Tensors *)

(** A batch of token ids, [len x batch_size], and a score tensor,
    [len x batch_size x output_dim]; the first axis is the decoding step. *)
Definition ids := list (list nat).
Definition scores := list (list (list float)).

(** [t[1:]] *)
Definition from1 {X} (t : list X) : list X := tl t.
(** [t.view(-1)] and [t.view(-1, output_dim)] of a tensor whose first two
    axes are flattened. *)
Definition view_flat {X} (t : list (list X)) : list X := concat t.

(** ** torch.nn.CrossEntropyLoss

    The criterion of PyTorch, as its documentation defines it: the loss of a
    row of scores against its target class is [nll row target]
    (minus the log of the softmax), a position whose target is
    [ignore_index] is skipped, and the losses kept are summed
    ([reduction='sum']) or averaged over the positions kept (the default,
    [reduction='mean']).  Tensors hold binary32 values; [item] is
    [loss.item()], the value as a Python float. *)

Module Torch.

Inductive reduction : Type := Mean | Sum.

Definition prec32 : Z := 24.
Definition emax32 : Z := 128.
Definition add32 (x y : float) : float := SFadd prec32 emax32 x y.
Definition div32 (x y : float) : float := SFdiv prec32 emax32 x y.
Definition of_nat32 (n : nat) : float :=
  binary_normalize prec32 emax32 (Z.of_nat n) 0 false.

Definition item (x : float) : float :=
  match x with
  | S754_finite s m e =>
      binary_normalize PyFloat.prec PyFloat.emax (cond_Zopp s (Zpos m)) e s
  | _ => x
  end.

Section Criterion.
Variable nll : list float -> nat -> float.
Variable ignore_index : nat.

(** The positions that count: those whose target is not [ignore_index]. *)
Definition kept (input : list (list float)) (target : list nat)
  : list (list float * nat) :=
  filter (fun p => negb (Nat.eqb (snd p) ignore_index)) (combine input target).

(** The sum of the losses of the positions kept.  The terms are added from
    the first position to the last; the order in which PyTorch adds them
    is its own, and no property below depends on it. *)
Definition loss_sum (input : list (list float)) (target : list nat) : float :=
  fold_left (fun acc p => add32 acc (nll (fst p) (snd p)))
            (kept input target) PyFloat.zero.

Definition CrossEntropyLoss (r : reduction)
           (input : list (list float)) (target : list nat) : float :=
  match r with
  | Sum => loss_sum input target
  | Mean => div32 (loss_sum input target)
                  (of_nat32 (length (kept input target)))
  end.
End Criterion.

End Torch.

Arguments Torch.add32 : simpl never.
Arguments Torch.div32 : simpl never.
Arguments Torch.of_nat32 : simpl never.
Arguments Torch.item : simpl never.
Arguments Torch.CrossEntropyLoss : simpl never.

(** ** The collaborators of the drivers *)

(** A torchtext [Field] with its vocabulary: [vocab.itos] is a list,
    [vocab.stoi] a dictionary with a default (the unknown token). *)
Record Field : Type := {
  itos : list string;
  stoi : string -> nat;
  pad_token : string
}.

(** [len(field.vocab)] *)
Definition vocab_len (f : Field) : nat := length (itos f).

(** Parameters, gradients and the optimizer: the tensor library. *)
Record Backend : Type := {
  Params : Type;
  Grads : Type;
  OptState : Type;
  (** the gradients of parameters just constructed: none yet *)
  no_grads : Params -> Grads;
  (** [optimizer.zero_grad()] *)
  zero_grad : Grads -> Grads;
  (** what [loss.backward()] does to the gradients held: it adds *)
  accumulate : Grads -> Grads -> Grads;
  (** [clip_grad_norm_(parameters, max_norm)] *)
  clip_grad_norm_ : Grads -> float -> Grads;
  (** [optim.Adam(parameters)] and [optimizer.step()] *)
  Adam : Params -> OptState;
  Adam_step : OptState -> Params -> Grads -> OptState * Params
}.

(** What the file system holds and what was done to it, oldest first. *)
Section Files.
Variable P : Type.

Record model_dict : Type := {
  input_dim : nat;
  output_dim : nat;
  source_vocab : Field;
  target_vocab : Field
}.

Inductive content : Type :=
  | Pickled (d : model_dict)
  | StateDict (p : P)
  | WholeModel (p : P)
  | Config (dataset : string)
  | Text (s : string).

Inductive fs_event : Type :=
  | Makedirs (dir : string)
  | WriteFile (path : string) (c : content).

Definition files := list fs_event.

(** [os.path.exists(dir)] *)
Definition dir_exists (fs : files) (dir : string) : bool :=
  existsb (fun ev => match ev with
                     | Makedirs d => String.eqb d dir
                     | WriteFile _ _ => false
                     end) fs.

(** The content of a file is what was written to it last. *)
Definition read_file (fs : files) (path : string) : option content :=
  fold_left (fun found ev => match ev with
                             | WriteFile p c =>
                                 if String.eqb p path then Some c else found
                             | Makedirs _ => found
                             end) fs None.
End Files.

Arguments Pickled {P} d.
Arguments StateDict {P} p.
Arguments WholeModel {P} p.
Arguments Config {P} dataset.
Arguments Text {P} s.
Arguments Makedirs {P} dir.
Arguments WriteFile {P} path c.

(** [os.path.join(dir, name)], for a directory that does not end in a
    slash and a relative name. *)
Definition path_join (dir name : string) : string :=
  (dir ++ "/" ++ name)%string.

(** What is done with the network and the optimizer, oldest first:
    a forward pass (in training or evaluation mode, with or without
    gradient tracking), and the four calls of an optimisation step. *)
Inductive op : Type :=
| Forward (training grad_enabled : bool)
| ZeroGrad
| Backward
| ClipGradNorm (max_norm : float)
| OptimizerStep.

(** What an epoch came to: its number (from 1), its validation loss, whether
    the model was saved in it, and the best loss after it. *)
Record epoch_record : Type := {
  ep : nat;
  vloss : float;
  persisted : bool;
  best_after : float
}.

Definition persisted_epochs (h : list epoch_record) : list nat :=
  map ep (filter persisted h).

(** ** solver.py *)

Module Solver.

(** The command line options the class reads. *)
Record Args : Type := {
  ckp_path : string;
  data_path : string;
  src_lang : string;
  trg_lang : string;
  n_samples : nat;
  batch_size : nat;
  n_epochs : Z;
  clip : float
}.

(** A training or validation batch: [batch.src] and [batch.trg].  An
    iterator is the list of the batches it yields in an epoch. *)
Record batch : Type := { src : ids; trg : ids }.

Section WithModel.
Variable B : Backend.

(** [lstm2lstm_baseline] of model2lstm: its constructor, its forward
    pass [model(src, trg)], which depends on the mode the module is in,
    the gradient of a scalar computed from that pass, and greedy
    decoding, [model.translate(src, sos_tok=...)]. *)
Variable lstm2lstm_baseline : nat -> nat -> Params B.
Variable forward : bool -> Params B -> ids -> ids -> scores.
Variable gradient : bool -> Params B -> batch -> Grads B.
Variable model_translate : Params B -> ids -> nat -> list (list nat).

(** data_preprocessing: the fields and the batches of the two
    iterators, and the batches of source sentences of a test file. *)
Variable train_data_loader :
  string -> string -> string -> nat -> nat ->
  Field * Field * list batch * list batch.
Variable test_data_loader : string -> Field -> nat -> list ids.

(** The loss of one position, see [Torch.CrossEntropyLoss]. *)
Variable nll : list float -> nat -> float.

(** The attributes of a [Solver] once [init_training] has run, the file
    system it writes to, and two records of what it did: the calls on
    the network and optimizer, and one entry per epoch decided. *)
Record solver : Type := {
  args : Args;
  training : bool;
  params : Params B;
  grads : Grads B;
  optimizer : OptState B;
  criterion : list (list float) -> list nat -> float;
  train_iterator : list batch;
  val_iterator : list batch;
  src_field : Field;
  trg_field : Field;
  fs : files (Params B);
  ops : list op;
  history : list epoch_record
}.

Definition set_training (t : bool) (s : solver) : solver :=
  {| args := args s; training := t; params := params s; grads := grads s;
     optimizer := optimizer s; criterion := criterion s;
     train_iterator := train_iterator s; val_iterator := val_iterator s;
     src_field := src_field s; trg_field := trg_field s;
     fs := fs s; ops := ops s; history := history s |}.

Definition set_grads (g : Grads B) (s : solver) : solver :=
  {| args := args s; training := training s; params := params s; grads := g;
     optimizer := optimizer s; criterion := criterion s;
     train_iterator := train_iterator s; val_iterator := val_iterator s;
     src_field := src_field s; trg_field := trg_field s;
     fs := fs s; ops := ops s; history := history s |}.

Definition set_optimized (op : OptState B * Params B) (s : solver) : solver :=
  {| args := args s; training := training s; params := snd op; grads := grads s;
     optimizer := fst op; criterion := criterion s;
     train_iterator := train_iterator s; val_iterator := val_iterator s;
     src_field := src_field s; trg_field := trg_field s;
     fs := fs s; ops := ops s; history := history s |}.

Definition log_op (o : op) (s : solver) : solver :=
  {| args := args s; training := training s; params := params s; grads := grads s;
     optimizer := optimizer s; criterion := criterion s;
     train_iterator := train_iterator s; val_iterator := val_iterator s;
     src_field := src_field s; trg_field := trg_field s;
     fs := fs s; ops := ops s ++ [o]; history := history s |}.

Definition log_fs (ev : fs_event (Params B)) (s : solver) : solver :=
  {| args := args s; training := training s; params := params s; grads := grads s;
     optimizer := optimizer s; criterion := criterion s;
     train_iterator := train_iterator s; val_iterator := val_iterator s;
     src_field := src_field s; trg_field := trg_field s;
     fs := fs s ++ [ev]; ops := ops s; history := history s |}.

Definition log_epoch (r : epoch_record) (s : solver) : solver :=
  {| args := args s; training := training s; params := params s; grads := grads s;
     optimizer := optimizer s; criterion := criterion s;
     train_iterator := train_iterator s; val_iterator := val_iterator s;
     src_field := src_field s; trg_field := trg_field s;
     fs := fs s; ops := ops s; history := history s ++ [r] |}.

(** [Solver(args).init_training()], on a file system [fs0]. *)
Definition init_training (a : Args) (fs0 : files (Params B)) : solver :=
  let fs1 := if dir_exists fs0 (ckp_path a) then fs0
             else fs0 ++ [Makedirs (ckp_path a)] in
  let '(src, trg, train_iterator, val_iterator) :=
    train_data_loader (data_path a) (src_lang a) (trg_lang a)
                      (n_samples a) (batch_size a) in
  let input_dim := vocab_len src in
  let output_dim := vocab_len trg in
  let model := lstm2lstm_baseline input_dim output_dim in
  let optimizer := Adam B model in
  let trg_pad_idx := stoi trg (pad_token trg) in
  let criterion := Torch.CrossEntropyLoss nll trg_pad_idx Torch.Mean in
  let model_dict := {| input_dim := input_dim; output_dim := output_dim;
                       source_vocab := src; target_vocab := trg |} in
  {| args := a; training := true; params := model;
     grads := no_grads B model;
     optimizer := optimizer; criterion := criterion;
     train_iterator := train_iterator; val_iterator := val_iterator;
     src_field := src; trg_field := trg;
     fs := fs1 ++ [WriteFile (path_join (ckp_path a) "model_dict.pkl")
                             (Pickled model_dict)];
     ops := []; history := [] |}.

(** The body of the loop of [train_epoch]; the value is [loss.item()]. *)
Definition train_step (b : batch) : M solver float :=
  s <- get ;;
  let src := src b in
  let trg := trg b in
  let output := forward (training s) (params s) src trg in
  modify (log_op (Forward (training s) true)) ;;
  let output := view_flat (from1 output) in
  let trg := view_flat (from1 trg) in
  modify (fun s => log_op ZeroGrad (set_grads (zero_grad B (grads s)) s)) ;;
  let loss := criterion s output trg in
  modify (fun s => log_op Backward
            (set_grads (accumulate B (grads s)
                                   (gradient (training s) (params s) b)) s)) ;;
  modify (fun s => log_op (ClipGradNorm (clip (args s)))
            (set_grads (clip_grad_norm_ B (grads s) (clip (args s))) s)) ;;
  modify (fun s => log_op OptimizerStep
            (set_optimized (Adam_step B (optimizer s) (params s) (grads s)) s)) ;;
  ret (Torch.item loss).

(** [epoch_loss / len(iterator)]: the sum is the integer 0 when there
    was no batch, and dividing it by 0 raises. *)
Definition mean_loss (epoch_loss : float) (n : nat) : M solver float :=
  match n with
  | O => raise ZeroDivisionError
  | S _ => ret (PyFloat.div epoch_loss (PyFloat.of_Z (Z.of_nat n)))
  end.

(** [train_epoch]: the module is put in training mode, every batch of the
    iterator is stepped on, and the mean of the losses is returned. *)
Definition train_epoch : M solver float :=
  modify (set_training true) ;;
  s <- get ;;
  epoch_loss <- for_acc (train_iterator s) PyFloat.zero
                  (fun epoch_loss b =>
                     loss <- train_step b ;;
                     ret (PyFloat.add epoch_loss loss, Continue)) ;;
  mean_loss epoch_loss (length (train_iterator s)).

(** [validate(iterator)]: the module is put in evaluation mode and the
    loop runs under [torch.no_grad()]. *)
Definition validate (iterator : list batch) : M solver float :=
  modify (set_training false) ;;
  epoch_loss <- for_acc iterator PyFloat.zero
                  (fun epoch_loss b =>
                     s <- get ;;
                     let src := src b in
                     let trg := trg b in
                     let output := forward (training s) (params s) src trg in
                     modify (log_op (Forward (training s) false)) ;;
                     let output := view_flat (from1 output) in
                     let trg := view_flat (from1 trg) in
                     let loss := criterion s output trg in
                     ret (PyFloat.add epoch_loss (Torch.item loss), Continue)) ;;
  mean_loss epoch_loss (length iterator).

(** The body of the loop of [train]; the locals carried over are
    [best_val_loss] and [best_val_loss_epoch]. *)
Definition train_body (best : float * nat) (epoch : nat)
  : M solver (float * nat * loop_ctl) :=
  let '(best_val_loss, best_val_loss_epoch) := best in
  train_loss <- train_epoch ;;
  s <- get ;;
  val_loss <- validate (val_iterator s) ;;
  if PyFloat.lt val_loss best_val_loss then
    modify (fun s => log_fs (WriteFile (path_join (ckp_path (args s)) "model.pth")
                                       (StateDict (params s))) s) ;;
    modify (log_epoch {| ep := epoch + 1; vloss := val_loss;
                         persisted := true; best_after := val_loss |}) ;;
    ret (val_loss, epoch, Continue)
  else
    modify (log_epoch {| ep := epoch + 1; vloss := val_loss;
                         persisted := false; best_after := best_val_loss |}) ;;
    ret (best_val_loss, best_val_loss_epoch, Continue).

(** [train]; the value is what its locals [best_val_loss] and
    [best_val_loss_epoch] hold at the end. *)
Definition train : M solver (float * nat) :=
  s <- get ;;
  for_acc (range 0 (n_epochs (args s))) (PyFloat.inf, 0%nat) train_body.

(** [pickle.load(open(path, 'rb'))] and [torch.load(path)] *)
Definition load_pickle (path : string) : M (files (Params B)) model_dict :=
  fs <- get ;;
  match read_file fs path with
  | None => raise FileNotFoundError
  | Some (Pickled d) => ret d
  | Some _ => raise UnpicklingError
  end.

Definition torch_load (path : string) : M (files (Params B)) (Params B) :=
  fs <- get ;;
  match read_file fs path with
  | None => raise FileNotFoundError
  | Some (StateDict p) => ret p
  | Some _ => raise UnpicklingError
  end.

(** [list(map(lambda tok: trg.vocab.itos[tok], x))] *)
Fixpoint to_tokens {S} (trg : Field) (x : list nat) : M S (list string) :=
  match x with
  | [] => ret []
  | tok :: x' =>
      match nth_error (itos trg) tok with
      | None => raise IndexError
      | Some w => ws <- to_tokens trg x' ;; ret (w :: ws)
      end
  end.

Fixpoint map_tokens {S} (trg : Field) (seqs : list (list nat))
  : M S (list (list string)) :=
  match seqs with
  | [] => ret []
  | x :: seqs' =>
      ws <- to_tokens trg x ;;
      rest <- map_tokens trg seqs' ;;
      ret (ws :: rest)
  end.

(** [' '.join(x)] *)
Definition detokenize (x : list string) : string := String.concat " " x.

(** What the calls [output_file.write(output_seq)] and
    [output_file.write('\n')] leave in the file. *)
Definition newline : string := String (Ascii.ascii_of_nat 10) EmptyString.
Definition written (output_seqs : list string) : string :=
  String.concat "" (map (fun output_seq => (output_seq ++ newline)%string)
                        output_seqs).

(** The decoding loop of [translate], which leaves at the end of its
    first iteration. *)
Definition decode_loop (model : Params B) (sos_tok : nat) (test_it : list ids)
  : M (files (Params B)) (list (list nat)) :=
  for_acc (enumerate test_it) []
          (fun output_seqs ib =>
             let batch_output_seqs := model_translate model (snd ib) sos_tok in
             ret (output_seqs ++ batch_output_seqs, Break)).

(** [Solver(args).translate(fh)]; the value is the list of the lines
    written, [output_seqs].  The parameters loaded replace those of the
    model just built, and the directory [data] is taken to exist. *)
Definition translate (a : Args) (fh : string)
  : M (files (Params B)) (list string) :=
  model_dict <- load_pickle (path_join (ckp_path a) "model_dict.pkl") ;;
  let test_it := test_data_loader fh (source_vocab model_dict) (batch_size a) in
  let model := lstm2lstm_baseline (input_dim model_dict) (output_dim model_dict) in
  ckp <- torch_load (path_join (ckp_path a) "model.pth") ;;
  let model := ckp in
  let sos_tok := stoi (target_vocab model_dict) "<sos>" in
  output_seqs <- decode_loop model sos_tok test_it ;;
  let trg := target_vocab model_dict in
  output_seqs <- map_tokens trg output_seqs ;;
  let output_seqs := map detokenize output_seqs in
  modify (fun fs => fs ++ [WriteFile "data/output.en" (Text (written output_seqs))]) ;;
  ret output_seqs.
End WithModel.
End Solver.

(** ** train.py *)

Module Train.

(** The options the script reads once the data is loaded. *)
Record Args : Type := {
  dataset : string;
  model_name : string;
  batch_size : nat;
  n_epochs : Z;
  patience_limit : Z;
  grad_clip : float
}.

(** A batch: [batch.src] and [batch.trg] are pairs of the padded ids and
    the lengths. *)
Record batch : Type := {
  b_src : ids * list nat;
  b_trg : ids * list nat
}.

Section WithModel.
Variable B : Backend.

(** The class of model2lstm chosen by [args.model]: its constructor,
    its teacher forced pass ([training=True]), which gives the scores,
    its decoding pass ([training=False], with the start token and the
    maximal length), which gives the ids emitted and the scores, and the
    gradient of the loss of the teacher forced pass. *)
Variable new_model : string -> nat -> nat -> Params B.
Variable forward_train : bool -> Params B -> batch -> scores.
Variable forward_infer : bool -> Params B -> batch -> nat -> Z -> ids * scores.
Variable gradient : bool -> Params B -> batch -> Grads B.

(** [model.loss(logits_seq, output_seq, criterion)] of the same class: the
    loss of the scores against the target sequence under a criterion.  The
    class is not among the sources, so the method is a parameter. *)
Variable model_loss :
  scores -> ids -> (list (list float) -> list nat -> float) -> float.

(** The loss of one position, see [Torch.CrossEntropyLoss]. *)
Variable nll : list float -> nat -> float.

(** The variables of the script, the file system, and three records of
    what the script did: the calls on the network and optimizer, one
    entry per epoch decided, and the value of [patience] after each. *)
Record script : Type := {
  args : Args;
  training : bool;
  params : Params B;
  grads : Grads B;
  optimizer : OptState B;
  criterion : list (list float) -> list nat -> float;
  target_sos_idx : nat;
  train_iterator : list batch;
  val_iterator : list batch;
  epoch : nat;
  patience : nat;
  best_val_loss : float;
  val_loss : float;
  fs : files (Params B);
  ops : list op;
  history : list epoch_record;
  patience_log : list nat
}.

Definition set_training (t : bool) (s : script) : script :=
  {| args := args s; training := t; params := params s; grads := grads s;
     optimizer := optimizer s; criterion := criterion s;
     target_sos_idx := target_sos_idx s;
     train_iterator := train_iterator s; val_iterator := val_iterator s;
     epoch := epoch s; patience := patience s;
     best_val_loss := best_val_loss s; val_loss := val_loss s;
     fs := fs s; ops := ops s; history := history s;
     patience_log := patience_log s |}.

Definition set_grads (g : Grads B) (s : script) : script :=
  {| args := args s; training := training s; params := params s; grads := g;
     optimizer := optimizer s; criterion := criterion s;
     target_sos_idx := target_sos_idx s;
     train_iterator := train_iterator s; val_iterator := val_iterator s;
     epoch := epoch s; patience := patience s;
     best_val_loss := best_val_loss s; val_loss := val_loss s;
     fs := fs s; ops := ops s; history := history s;
     patience_log := patience_log s |}.

Definition set_optimized (op : OptState B * Params B) (s : script) : script :=
  {| args := args s; training := training s; params := snd op; grads := grads s;
     optimizer := fst op; criterion := criterion s;
     target_sos_idx := target_sos_idx s;
     train_iterator := train_iterator s; val_iterator := val_iterator s;
     epoch := epoch s; patience := patience s;
     best_val_loss := best_val_loss s; val_loss := val_loss s;
     fs := fs s; ops := ops s; history := history s;
     patience_log := patience_log s |}.

Definition log_op (o : op) (s : script) : script :=
  {| args := args s; training := training s; params := params s; grads := grads s;
     optimizer := optimizer s; criterion := criterion s;
     target_sos_idx := target_sos_idx s;
     train_iterator := train_iterator s; val_iterator := val_iterator s;
     epoch := epoch s; patience := patience s;
     best_val_loss := best_val_loss s; val_loss := val_loss s;
     fs := fs s; ops := ops s ++ [o]; history := history s;
     patience_log := patience_log s |}.

Definition set_epoch (e : nat) (s : script) : script :=
  {| args := args s; training := training s; params := params s; grads := grads s;
     optimizer := optimizer s; criterion := criterion s;
     target_sos_idx := target_sos_idx s;
     train_iterator := train_iterator s; val_iterator := val_iterator s;
     epoch := e; patience := patience s;
     best_val_loss := best_val_loss s; val_loss := val_loss s;
     fs := fs s; ops := ops s; history := history s;
     patience_log := patience_log s |}.

Definition set_val_loss (v : float) (s : script) : script :=
  {| args := args s; training := training s; params := params s; grads := grads s;
     optimizer := optimizer s; criterion := criterion s;
     target_sos_idx := target_sos_idx s;
     train_iterator := train_iterator s; val_iterator := val_iterator s;
     epoch := epoch s; patience := patience s;
     best_val_loss := best_val_loss s; val_loss := v;
     fs := fs s; ops := ops s; history := history s;
     patience_log := patience_log s |}.

(** [best_val_loss = val_loss] and [torch.save(model, ...)] *)
Definition save_best (s : script) : script :=
  {| args := args s; training := training s; params := params s; grads := grads s;
     optimizer := optimizer s; criterion := criterion s;
     target_sos_idx := target_sos_idx s;
     train_iterator := train_iterator s; val_iterator := val_iterator s;
     epoch := epoch s; patience := patience s;
     best_val_loss := val_loss s; val_loss := val_loss s;
     fs := fs s ++ [WriteFile "experiments/test/model.pkl" (WholeModel (params s))];
     ops := ops s; history := history s;
     patience_log := patience_log s |}.

(** [patience += 1] *)
Definition bump_patience (s : script) : script :=
  {| args := args s; training := training s; params := params s; grads := grads s;
     optimizer := optimizer s; criterion := criterion s;
     target_sos_idx := target_sos_idx s;
     train_iterator := train_iterator s; val_iterator := val_iterator s;
     epoch := epoch s; patience := patience s + 1;
     best_val_loss := best_val_loss s; val_loss := val_loss s;
     fs := fs s; ops := ops s; history := history s;
     patience_log := patience_log s |}.

(** The entry of the epoch just decided. *)
Definition log_epoch (saved : bool) (s : script) : script :=
  {| args := args s; training := training s; params := params s; grads := grads s;
     optimizer := optimizer s; criterion := criterion s;
     target_sos_idx := target_sos_idx s;
     train_iterator := train_iterator s; val_iterator := val_iterator s;
     epoch := epoch s; patience := patience s;
     best_val_loss := best_val_loss s; val_loss := val_loss s;
     fs := fs s; ops := ops s;
     history := history s ++ [{| ep := epoch s; vloss := val_loss s;
                                 persisted := saved;
                                 best_after := best_val_loss s |}];
     patience_log := patience_log s ++ [patience s] |}.

(** The data of [datasets]: the two fields and the batches of the
    training and validation iterators. *)
Variable load_data : Args -> Field * Field * list batch * list batch.

(** The script up to the epoch loop, for [args.sample_size] left at
    [None], on a file system [fs0]. *)
Definition setup (a : Args) (fs0 : files (Params B)) : script :=
  let fs1 := if dir_exists fs0 "experiments/test" then fs0
             else fs0 ++ [Makedirs "experiments/test"] in
  let '(source, target, train_iterator, val_iterator) := load_data a in
  let fs2 := fs1 ++ [WriteFile (path_join "experiments/test" "config.pt")
                               (Config (dataset a))] in
  let model := new_model (model_name a) (vocab_len source) (vocab_len target) in
  let optimizer := Adam B model in
  let target_pad_idx := stoi target (pad_token target) in
  let target_sos_idx := stoi target "[CLS]" in
  let criterion := Torch.CrossEntropyLoss nll target_pad_idx Torch.Sum in
  {| args := a; training := true; params := model; grads := no_grads B model;
     optimizer := optimizer; criterion := criterion;
     target_sos_idx := target_sos_idx;
     train_iterator := train_iterator; val_iterator := val_iterator;
     epoch := 0;
     patience := 0;
     best_val_loss := PyFloat.inf;
     val_loss := PyFloat.zero;
     (* [epoch] and [val_loss] are not bound yet; the loop sets both
        before it reads them *)
     fs := fs2; ops := []; history := []; patience_log := [] |}.

(** [x / n] for a float [x] and an integer [n]. *)
Definition py_div (x : float) (n : nat) : M script float :=
  match n with
  | O => raise ZeroDivisionError
  | S _ => ret (PyFloat.div x (PyFloat.of_Z (Z.of_nat n)))
  end.

(** The body of the batch loop of an epoch; the locals carried over
    are [acc_loss], [total_toks] and [total_seqs]. *)
Definition train_step (acc : float * nat * nat) (b : batch)
  : M script (float * nat * nat * loop_ctl) :=
  let '(acc_loss, total_toks, total_seqs) := acc in
  let '(batch_output_seq, batch_output_len) := b_trg b in
  s <- get ;;
  let logits_seq := forward_train (training s) (params s) b in
  modify (log_op (Forward (training s) true)) ;;
  let loss := model_loss logits_seq batch_output_seq (criterion s) in
  modify (fun s => log_op ZeroGrad (set_grads (zero_grad B (grads s)) s)) ;;
  modify (fun s => log_op Backward
            (set_grads (accumulate B (grads s)
                                   (gradient (training s) (params s) b)) s)) ;;
  modify (fun s => log_op (ClipGradNorm (grad_clip (args s)))
            (set_grads (clip_grad_norm_ B (grads s) (grad_clip (args s))) s)) ;;
  modify (fun s => log_op OptimizerStep
            (set_optimized (Adam_step B (optimizer s) (params s) (grads s)) s)) ;;
  let total_toks := total_toks + list_sum batch_output_len in
  let total_seqs := total_seqs + length batch_output_len in
  let acc_loss := PyFloat.add acc_loss (Torch.item loss) in
  avg_tok_loss <- py_div acc_loss total_toks ;;
  avg_seq_loss <- py_div acc_loss total_seqs ;;
  ret (acc_loss, total_toks, total_seqs, Continue).

(** The training of an epoch. *)
Definition train_pass : M script unit :=
  modify (set_training true) ;;
  s <- get ;;
  for_acc (train_iterator s) (PyFloat.zero, 0, 0) train_step ;;
  ret tt.

(** The body of the validation loop; the locals carried over are
    [total_toks] and [total_seqs], and [val_loss] is accumulated. *)
Definition val_step (acc : nat * nat) (ib : nat * batch)
  : M script (nat * nat * loop_ctl) :=
  let '(total_toks, total_seqs) := acc in
  let '(i, b) := ib in
  let '(batch_output_seq, batch_output_len) := b_trg b in
  s <- get ;;
  let '(outputs, logits_seq) :=
    forward_infer (training s) (params s) b (target_sos_idx s)
                  (Z.of_nat (length batch_output_seq) - 1) in
  modify (log_op (Forward (training s) false)) ;;
  let loss := model_loss logits_seq batch_output_seq (criterion s) in
  modify (fun s => set_val_loss (PyFloat.add (val_loss s) (Torch.item loss)) s) ;;
  ret (total_toks + list_sum batch_output_len,
       total_seqs + length batch_output_len, Continue).

(** The validation of an epoch; [random.randint(1, 0)] raises. *)
Definition val_pass : M script (nat * nat) :=
  modify (set_training false) ;;
  modify (set_val_loss PyFloat.zero) ;;
  s <- get ;;
  match val_iterator s with
  | [] => raise ValueError
  | _ :: _ => for_acc (enumerate (val_iterator s)) (0, 0) val_step
  end.

(** [# save best model]: the decision of the epoch. *)
Definition checkpoint : M script loop_ctl :=
  s <- get ;;
  if PyFloat.le (val_loss s) (best_val_loss s) then
    modify save_best ;;
    modify (log_epoch true) ;;
    ret Continue
  else
    modify bump_patience ;;
    modify (log_epoch false) ;;
    s <- get ;;
    if (patience_limit (args s) <=? Z.of_nat (patience s))%Z then ret Break
    else ret Continue.

(** The averages printed at the end of an epoch. *)
Definition report (totals : nat * nat) : M script unit :=
  s <- get ;;
  py_div (val_loss s) (fst totals) ;;
  py_div (val_loss s) (snd totals) ;;
  ret tt.

(** The body of the epoch loop: [break] skips the report. *)
Definition epoch_body (epoch : nat) : M script loop_ctl :=
  modify (set_epoch epoch) ;;
  train_pass ;;
  totals <- val_pass ;;
  c <- checkpoint ;;
  match c with
  | Break => ret Break
  | Continue => report totals ;; ret Continue
  end.

(** [for epoch in range(1, args.n_epochs+1)] *)
Definition epoch_loop : M script unit :=
  s <- get ;;
  for_each (range 1 (n_epochs (args s) + 1)) epoch_body.

(** The script, from the creation of the directories on. *)
Definition main (a : Args) (fs0 : files (Params B)) : script * result unit :=
  epoch_loop (setup a fs0).
End WithModel.
End Train.

(** ** train.py: the sampling of the training data

    The part of the script that runs when [args.sample_size] is given: it
    reads the two sides of the training data, shuffles the pairs of lines
    and writes a training and a development sample under [args.exp_dir]. *)

Module Sampling.

(** The options the sampling reads. *)
Record Args : Type := {
  sample_size : option Z;
  split_ratio : float;
  exp_dir : string;
  train_path : string;
  dev_path : string;
  training_source_lang : string;
  training_target_lang : string
}.

(** What stops the sampling: a file to read that does not exist
    ([FileNotFoundError]); an integer too large for a float, or the
    integer of an infinite float ([OverflowError]); the integer of a float
    that is not a number ([ValueError]). *)
Inductive error : Type :=
| NoSuchFile (path : string)
| Overflow
| NotANumber.

(** [float(n)], as the product of an integer and a float takes it. *)
Definition float_of_int (n : Z) : error + float :=
  match PyFloat.of_Z n with
  | S754_infinity _ => inl Overflow
  | x => inr x
  end.

(** [int(x)]: the integer part of [x], toward zero. *)
Definition int_of_float (x : float) : error + Z :=
  match x with
  | S754_zero _ => inr 0%Z
  | S754_infinity _ => inl Overflow
  | S754_nan => inl NotANumber
  | S754_finite s m e =>
      let q := if (0 <=? e)%Z then (Z.pos m * 2 ^ e)%Z
               else (Z.pos m / 2 ^ (- e))%Z in
      inr (if s then (- q)%Z else q)
  end.

(** [int(args.sample_size*args.split_ratio)] *)
Definition split_point (n : Z) (ratio : float) : error + Z :=
  match float_of_int n with
  | inl e => inl e
  | inr x => int_of_float (SFmul PyFloat.prec PyFloat.emax x ratio)
  end.

(** The pairs [(i, j)] that [zip(range(a, b), supervised_data)] yields;
    the index is not used. *)
Definition zipped (a b : Z) (supervised_data : list (string * string))
  : list (string * string) :=
  map snd (combine (range a b) supervised_data).

Section WithData.
Variable P : Type.

(** [list(open(path, 'rt'))]: the lines of a file, [None] when there is
    no such file; and [random.shuffle]. *)
Variable read_lines : string -> option (list string).
Variable shuffle : list (string * string) -> list (string * string).

(** What the calls [fh.write] of a comprehension leave in a file. *)
Definition lines_written (lines : list string) : content P :=
  Text (String.concat "" lines).

(** The sampling; the value is the pair of [train_path] and [dev_path]
    that the loading of the data is given.  The directory [args.exp_dir] is
    taken to exist.  The first file is open when the split point is
    computed.  A file holds here what was written through its handle; the
    script closes none of the four, and the last one is still open, with
    what it has not flushed, when the data is loaded. *)
Definition sample (a : Args) (fs : files P)
  : files P * (error + (string * string)) :=
  match sample_size a with
  | None => (fs, inr (train_path a, dev_path a))
  | Some n =>
      if (n =? 0)%Z then (fs, inr (train_path a, dev_path a))
      else
        match read_lines (train_path a ++ ".de") with
        | None => (fs, inl (NoSuchFile (train_path a ++ ".de")))
        | Some supervised_data_source =>
            match read_lines (train_path a ++ ".en") with
            | None => (fs, inl (NoSuchFile (train_path a ++ ".en")))
            | Some supervised_data_target =>
                let supervised_data :=
                  shuffle (combine supervised_data_source
                                   supervised_data_target) in
                let train_source :=
                  path_join (exp_dir a)
                            ("train.sample_data." ++ training_source_lang a) in
                let train_target :=
                  path_join (exp_dir a)
                            ("train.sample_data." ++ training_target_lang a) in
                let dev_source :=
                  path_join (exp_dir a)
                            ("dev.sample_data." ++ training_source_lang a) in
                let dev_target :=
                  path_join (exp_dir a)
                            ("dev.sample_data." ++ training_target_lang a) in
                match split_point n (split_ratio a) with
                | inl e => (fs ++ [WriteFile train_source (lines_written [])],
                            inl e)
                | inr k =>
                    (fs ++ [WriteFile train_source
                              (lines_written
                                 (map fst (zipped 0 k supervised_data)));
                            WriteFile train_target
                              (lines_written
                                 (map snd (zipped 0 k supervised_data)));
                            WriteFile dev_source
                              (lines_written
                                 (map fst (zipped k n supervised_data)));
                            WriteFile dev_target
                              (lines_written
                                 (map snd (zipped k n supervised_data)))],
                     inr ((exp_dir a ++ "/train.sample_data")%string,
                          (exp_dir a ++ "/dev.sample_data")%string))
                end
            end
        end
  end.
End WithData.
End Sampling.

(** ** A small instance, for running the drivers

    The parameters of the network are a counter of the optimisation steps
    taken; each iterator yields one batch of one sentence; and the score the
    network gives in validation after [p] steps is the [p]-th number of a
    script, so that the validation losses of a run are the script. *)

Module Demo.

Definition backend : Backend :=
  {| Params := nat; Grads := nat; OptState := unit;
     no_grads := fun _ => 0;
     zero_grad := fun _ => 0;
     accumulate := fun g g' => g + g';
     clip_grad_norm_ := fun g _ => g;
     Adam := fun _ => tt;
     Adam_step := fun _ p g => (tt, p + g) |}.

Definition vocabulary : Field :=
  {| itos := ["<unk>"; "<pad>"; "<sos>"; "a"; "b"]%string;
     stoi := fun w => if String.eqb w "<pad>" then 1
                      else if String.eqb w "<sos>" then 2
                      else if String.eqb w "a" then 3
                      else if String.eqb w "b" then 4 else 0;
     pad_token := "<pad>" |}.

Definition f32 (z : Z) : float :=
  binary_normalize Torch.prec32 Torch.emax32 z 0 false.

(** The loss of a position is the first score of its row. *)
Definition nll (row : list float) (target : nat) : float := hd PyFloat.zero row.

(** A score tensor of two steps for one sentence, whose scored row is [x]. *)
Definition scored (x : float) : scores := [[[PyFloat.zero]]; [[x]]].

Definition scripted (script : list Z) (p : nat) : float :=
  f32 (nth (p - 1) script 0%Z).

Definition train_args (n limit : Z) : Train.Args :=
  {| Train.dataset := "iwslt2014"; Train.model_name := "Seq2Seq";
     Train.batch_size := 1; Train.n_epochs := n;
     Train.patience_limit := limit; Train.grad_clip := PyFloat.of_Z 5 |}.

Definition train_batch : Train.batch :=
  {| Train.b_src := ([[3]; [4]], [2]); Train.b_trg := ([[2]; [3]], [2]) |}.

Definition new_model (name : string) (n m : nat) : nat := 0.
Definition forward_train (training : bool) (p : nat) (b : Train.batch) : scores :=
  scored PyFloat.zero.
Definition forward_infer (script : list Z) (training : bool) (p : nat)
           (b : Train.batch) (sos_tok : nat) (max_length : Z) : ids * scores :=
  ([], scored (scripted script p)).
Definition gradient (training : bool) (p : nat) (b : Train.batch) : nat := 1.
Definition model_loss (logits_seq : scores) (output_seq : ids)
           (criterion : list (list float) -> list nat -> float) : float :=
  criterion (view_flat (from1 logits_seq)) (view_flat (from1 output_seq)).
Definition load_data (a : Train.Args)
  : Field * Field * list Train.batch * list Train.batch :=
  (vocabulary, vocabulary, [train_batch], [train_batch]).

(** [train.py] on the script. *)
Definition run_train (script : list Z) (n limit : Z)
  : Train.script backend * result unit :=
  @Train.main backend new_model forward_train (forward_infer script) gradient
              model_loss nll load_data (train_args n limit) [].

Definition solver_args (n : Z) : Solver.Args :=
  {| Solver.ckp_path := "ckp"; Solver.data_path := "data";
     Solver.src_lang := "de"; Solver.trg_lang := "en";
     Solver.n_samples := 1; Solver.batch_size := 1;
     Solver.n_epochs := n; Solver.clip := PyFloat.of_Z 1 |}.

Definition solver_batch : Solver.batch :=
  {| Solver.src := [[3]; [4]]; Solver.trg := [[2]; [3]] |}.

Definition lstm2lstm_baseline (n m : nat) : nat := 0.
Definition train_data_loader (data_path src_lang trg_lang : string)
           (n_samples batch_size : nat)
  : Field * Field * list Solver.batch * list Solver.batch :=
  (vocabulary, vocabulary, [solver_batch], [solver_batch]).
Definition forward (script : list Z) (training : bool) (p : nat)
           (src trg : ids) : scores :=
  scored (scripted script p).
Definition solver_gradient (training : bool) (p : nat) (b : Solver.batch) : nat := 1.

Definition solver_init (n : Z) : Solver.solver backend :=
  @Solver.init_training backend lstm2lstm_baseline train_data_loader nll
                        (solver_args n) [].

(** [Solver.train] on the script. *)
Definition run_solver (script : list Z) (n : Z)
  : Solver.solver backend * result (float * nat) :=
  @Solver.train backend (forward script) solver_gradient (solver_init n).

(** A test file of two sentences, read in batches of one sentence, and a
    decoder that echoes the source ids of each sentence of a batch. *)
Definition test_data_loader (fh : string) (source_vocab : Field)
           (batch_size : nat) : list ids :=
  [[[3]; [4]]; [[4]; [3]]].
Definition model_translate (p : nat) (src : ids) (sos_tok : nat)
  : list (list nat) :=
  [concat src].

(** [Solver.translate] after a training run of two epochs. *)
Definition run_translate : files nat * result (list string) :=
  @Solver.translate backend lstm2lstm_baseline model_translate test_data_loader
                    (solver_args 2) "test.de"
                    (Solver.fs (fst (run_solver [5; 3]%Z 2))).

(** A batch whose target is the start token and then padding only. *)
Definition padded_batch : Solver.batch :=
  {| Solver.src := [[3]; [4]]; Solver.trg := [[2]; [1]] |}.

End Demo.

(** * The vocabulary of the properties *)

(** ** train.py *)

Section TrainVocabulary.
Variable B : Backend.
Variable forward_infer :
  bool -> Params B -> Train.batch -> nat -> Z -> ids * scores.
Variable gradient : bool -> Params B -> Train.batch -> Grads B.
Variable model_loss :
  scores -> ids -> (list (list float) -> list nat -> float) -> float.

Local Abbreviation script := (Train.script B).

(** The variables the checkpoint policy reads and writes, the files and
      the records of the epochs: the passes over the batches leave them. *)
Definition policy_frame (s s' : script) : Prop :=
  Train.args s' = Train.args s /\
  Train.train_iterator s' = Train.train_iterator s /\
  Train.val_iterator s' = Train.val_iterator s /\
  Train.epoch s' = Train.epoch s /\
  Train.patience s' = Train.patience s /\
  Train.best_val_loss s' = Train.best_val_loss s /\
  Train.fs s' = Train.fs s /\
  Train.history s' = Train.history s /\
  Train.patience_log s' = Train.patience_log s.

(** The calls of one optimisation step, in the order they are made. *)
Definition step_ops (training : bool) (max_norm : float) : list op :=
  [Forward training true; ZeroGrad; Backward; ClipGradNorm max_norm;
   OptimizerStep].

(** The state a training step leaves. *)
Definition after_step (b : Train.batch) (s : script) : script :=
  let g := clip_grad_norm_ B
             (accumulate B (zero_grad B (Train.grads s))
                         (gradient (Train.training s) (Train.params s) b))
             (Train.grad_clip (Train.args s)) in
  let o := Adam_step B (Train.optimizer s) (Train.params s) g in
  {| Train.args := Train.args s; Train.training := Train.training s;
     Train.params := snd o; Train.grads := g; Train.optimizer := fst o;
     Train.criterion := Train.criterion s;
     Train.target_sos_idx := Train.target_sos_idx s;
     Train.train_iterator := Train.train_iterator s;
     Train.val_iterator := Train.val_iterator s;
     Train.epoch := Train.epoch s; Train.patience := Train.patience s;
     Train.best_val_loss := Train.best_val_loss s;
     Train.val_loss := Train.val_loss s;
     Train.fs := Train.fs s;
     Train.ops := Train.ops s
                  ++ step_ops (Train.training s) (Train.grad_clip (Train.args s));
     Train.history := Train.history s;
     Train.patience_log := Train.patience_log s |}.

(** The calls of the training batches of an epoch. *)
Definition train_ops (s : script) : list op :=
  concat (map (fun _ : Train.batch =>
                 step_ops true (Train.grad_clip (Train.args s)))
              (Train.train_iterator s)).

(** The loss of a validation batch, as [val_step] adds it to [val_loss]. *)
Definition val_batch_loss (s : script) (b : Train.batch) : float :=
  Torch.item
    (model_loss
       (snd (forward_infer (Train.training s) (Train.params s) b
                           (Train.target_sos_idx s)
                           (Z.of_nat (length (fst (Train.b_trg b))) - 1)))
       (fst (Train.b_trg b)) (Train.criterion s)).

(** The state the validation of the batches [bs] leaves. *)
Definition after_val (bs : list Train.batch) (s : script) : script :=
  {| Train.args := Train.args s; Train.training := Train.training s;
     Train.params := Train.params s; Train.grads := Train.grads s;
     Train.optimizer := Train.optimizer s;
     Train.criterion := Train.criterion s;
     Train.target_sos_idx := Train.target_sos_idx s;
     Train.train_iterator := Train.train_iterator s;
     Train.val_iterator := Train.val_iterator s;
     Train.epoch := Train.epoch s; Train.patience := Train.patience s;
     Train.best_val_loss := Train.best_val_loss s;
     Train.val_loss :=
       fold_left (fun v b => PyFloat.add v (val_batch_loss s b)) bs
                 (Train.val_loss s);
     Train.fs := Train.fs s;
     Train.ops := Train.ops s
                  ++ repeat (Forward (Train.training s) false) (length bs);
     Train.history := Train.history s;
     Train.patience_log := Train.patience_log s |}.

(** The decision of an epoch as a function of the best loss, the counter,
    the number of the epoch and its validation loss: the entry of the
    epoch, the counter after it, and whether the loop is left. *)
Definition decided (limit : Z) (best : float) (pat e : nat) (v : float)
  : epoch_record * nat * bool :=
  if PyFloat.le v best then
    ({| ep := e; vloss := v; persisted := true; best_after := v |}, pat, false)
  else
    ({| ep := e; vloss := v; persisted := false; best_after := best |},
     pat + 1, (limit <=? Z.of_nat (pat + 1))%Z).

(** The entries and counters that the validation losses [vs] of successive
    epochs lead to, up to the epoch that leaves the loop. *)
Fixpoint replay (limit : Z) (best : float) (pat e : nat) (vs : list float)
  : list (epoch_record * nat) :=
  match vs with
  | [] => []
  | v :: vs' =>
      let '(r, pat', stop) := decided limit best pat e v in
      (r, pat') :: (if stop then []
                    else replay limit (best_after r) pat' (S e) vs')
  end.

(** Whether the replay ends on the epoch that leaves the loop. *)
Fixpoint replay_stops (limit : Z) (best : float) (pat e : nat)
         (vs : list float) : bool :=
  match vs with
  | [] => false
  | v :: vs' =>
      let '(r, pat', stop) := decided limit best pat e v in
      if stop then true else replay_stops limit (best_after r) pat' (S e) vs'
  end.

(** The calls of a whole epoch: its training batches, then its validation
    batches. *)
Definition epoch_ops (s : script) : list op :=
  train_ops s ++ repeat (Forward false false) (length (Train.val_iterator s)).

(** What stays the same all along a run. *)
Definition same_setting (s s' : script) : Prop :=
  Train.args s' = Train.args s /\
  Train.train_iterator s' = Train.train_iterator s /\
  Train.val_iterator s' = Train.val_iterator s.

(** What an epoch comes to: either it raises before the decision, and no
    entry is made, or it decides on a validation loss [v]. *)
Definition undecided (s s' : script) (r : result loop_ctl) : Prop :=
  Train.history s' = Train.history s /\
  Train.patience_log s' = Train.patience_log s /\
  Train.best_val_loss s' = Train.best_val_loss s /\
  Train.patience s' = Train.patience s /\
  Train.fs s' = Train.fs s /\
  exists x, r = Raise x.

Definition decided_on (e : nat) (v : float) (s s' : script)
           (r : result loop_ctl) : Prop :=
  let d := decided (Train.patience_limit (Train.args s))
                   (Train.best_val_loss s) (Train.patience s) e v in
  Train.history s' = Train.history s ++ [fst (fst d)] /\
  Train.patience_log s' = Train.patience_log s ++ [snd (fst d)] /\
  Train.best_val_loss s' = best_after (fst (fst d)) /\
  Train.patience s' = snd (fst d) /\
  Train.fs s' =
  Train.fs s ++ (if persisted (fst (fst d))
                 then [WriteFile "experiments/test/model.pkl"
                                 (WholeModel (Train.params s'))]
                 else []) /\
  Train.ops s' = Train.ops s ++ epoch_ops s /\
  (snd d = true -> r = Ok Break) /\
  (snd d = false -> r = Ok Continue \/ exists x, r = Raise x).

(** The model files written by the epochs of [rp] that saved. *)
Definition is_model_write (ev : fs_event (Params B)) : bool :=
  match ev with
  | WriteFile path (WholeModel _) => String.eqb path "experiments/test/model.pkl"
  | _ => false
  end.
End TrainVocabulary.

(** ** solver.py *)

Section SolverVocabulary.
Variable B : Backend.
Variable forward : bool -> Params B -> ids -> ids -> scores.
Variable gradient : bool -> Params B -> Solver.batch -> Grads B.

Local Abbreviation solver := (Solver.solver B).

(** The loss of a batch, scored from the second decoding step on. *)
Definition scored_loss (criterion : list (list float) -> list nat -> float)
           (output : scores) (trg : ids) : float :=
  Torch.item (criterion (view_flat (from1 output)) (view_flat (from1 trg))).

(** The state a training step of [Solver.train_epoch] leaves. *)
Definition solver_after_step (b : Solver.batch) (s : solver) : solver :=
  let g := clip_grad_norm_ B
             (accumulate B (zero_grad B (Solver.grads s))
                         (gradient (Solver.training s) (Solver.params s) b))
             (Solver.clip (Solver.args s)) in
  let o := Adam_step B (Solver.optimizer s) (Solver.params s) g in
  {| Solver.args := Solver.args s; Solver.training := Solver.training s;
     Solver.params := snd o; Solver.grads := g; Solver.optimizer := fst o;
     Solver.criterion := Solver.criterion s;
     Solver.train_iterator := Solver.train_iterator s;
     Solver.val_iterator := Solver.val_iterator s;
     Solver.src_field := Solver.src_field s;
     Solver.trg_field := Solver.trg_field s;
     Solver.fs := Solver.fs s;
     Solver.ops := Solver.ops s
                   ++ [Forward (Solver.training s) true; ZeroGrad; Backward;
                       ClipGradNorm (Solver.clip (Solver.args s));
                       OptimizerStep];
     Solver.history := Solver.history s |}.

(** The state the training steps on the batches [bs] leave. *)
Definition solver_after_steps (bs : list Solver.batch) (s : solver) : solver :=
  fold_left (fun st b => solver_after_step b st) bs s.

(** What the training steps keep, and the calls they make. *)
Definition solver_frame (s s' : solver) : Prop :=
  Solver.args s' = Solver.args s /\
  Solver.criterion s' = Solver.criterion s /\
  Solver.train_iterator s' = Solver.train_iterator s /\
  Solver.val_iterator s' = Solver.val_iterator s /\
  Solver.fs s' = Solver.fs s /\
  Solver.history s' = Solver.history s.

(** The state the validation of the batches [it] leaves, and its value. *)
Definition solver_after_validate (it : list Solver.batch) (s : solver) : solver :=
  {| Solver.args := Solver.args s; Solver.training := Solver.training s;
     Solver.params := Solver.params s; Solver.grads := Solver.grads s;
     Solver.optimizer := Solver.optimizer s;
     Solver.criterion := Solver.criterion s;
     Solver.train_iterator := Solver.train_iterator s;
     Solver.val_iterator := Solver.val_iterator s;
     Solver.src_field := Solver.src_field s;
     Solver.trg_field := Solver.trg_field s;
     Solver.fs := Solver.fs s;
     Solver.ops := Solver.ops s
                   ++ repeat (Forward (Solver.training s) false) (length it);
     Solver.history := Solver.history s |}.

Definition validation_sum (s : solver) (it : list Solver.batch) (acc : float)
  : float :=
  fold_left (fun acc b =>
               PyFloat.add acc
                 (scored_loss (Solver.criterion s)
                              (forward (Solver.training s) (Solver.params s)
                                       (Solver.src b) (Solver.trg b))
                              (Solver.trg b)))
            it acc.

Definition validation_value (s : solver) (it : list Solver.batch)
  : result float :=
  match length it with
  | O => Raise ZeroDivisionError
  | S _ => Ok (PyFloat.div (validation_sum s it PyFloat.zero)
                           (PyFloat.of_Z (Z.of_nat (length it))))
  end.

(** The calls of a whole epoch of [Solver.train]. *)
Definition solver_epoch_ops (s : solver) : list op :=
  concat (map (fun _ : Solver.batch =>
                 [Forward true true; ZeroGrad; Backward;
                  ClipGradNorm (Solver.clip (Solver.args s)); OptimizerStep])
              (Solver.train_iterator s))
  ++ repeat (Forward false false) (length (Solver.val_iterator s)).

(** The entry of an epoch of [Solver.train] whose validation loss is [v]. *)
Definition solver_decided (best : float) (e : nat) (v : float) : epoch_record :=
  if PyFloat.lt v best
  then {| ep := e; vloss := v; persisted := true; best_after := v |}
  else {| ep := e; vloss := v; persisted := false; best_after := best |}.

Fixpoint solver_replay (best : float) (e : nat) (vs : list float)
  : list epoch_record :=
  match vs with
  | [] => []
  | v :: vs' =>
      let r := solver_decided best e v in
      r :: solver_replay (best_after r) (S e) vs'
  end.

(** What stays the same along a run of [Solver.train]. *)
Definition solver_setting (s s' : solver) : Prop :=
  Solver.args s' = Solver.args s /\
  Solver.criterion s' = Solver.criterion s /\
  Solver.train_iterator s' = Solver.train_iterator s /\
  Solver.val_iterator s' = Solver.val_iterator s.

(** The writes of the parameter file of the checkpoint directory [dir]. *)
Definition is_param_write (dir : string) (ev : fs_event (Params B)) : bool :=
  match ev with
  | WriteFile path (StateDict _) => String.eqb path (path_join dir "model.pth")
  | _ => false
  end.
End SolverVocabulary.

(** ** Both drivers *)

(** The best loss after each entry of [h], from the best loss [b] and the
    losses [seen] before it: it does not go up, it is [inf] or one of the
    losses seen so far, and it is at most each of them (a loss that is not
    a number compares with nothing). *)
Fixpoint best_tracks_min (b : float) (seen : list float)
         (h : list epoch_record) : Prop :=
  match h with
  | [] => True
  | r :: h' =>
      let seen' := seen ++ [vloss r] in
      PyFloat.le (best_after r) b = true /\
      In (best_after r) (inf :: seen') /\
      forallb (fun x => is_nan x || PyFloat.le (best_after r) x) seen' = true /\
      best_tracks_min (best_after r) seen' h'
  end.

(** No validation loss of [vs] equals the best loss before it. *)
Fixpoint no_tie (best : float) (vs : list float) : bool :=
  match vs with
  | [] => true
  | v :: vs' =>
      negb (PyFloat.eq v best)
      && no_tie (if PyFloat.lt v best then v else best) vs'
  end.

(** The gradients a training step hands to the optimizer: those of this
    batch alone, added to gradients just cleared, then clipped. *)
Definition stepped_grads (B : Backend) (held fresh : Grads B) (max_norm : float)
  : Grads B :=
  clip_grad_norm_ B (accumulate B (zero_grad B held) fresh) max_norm.

(** How many times the file [path] was written. *)
Definition count_writes (P : Type) (path : string) (fs : files P) : nat :=
  length (filter (fun ev => match ev with
                            | WriteFile p _ => String.eqb p path
                            | Makedirs _ => false
                            end) fs).

(** ** Inference *)

(** The tokens of a sequence of ids, and whether every id of the
    sequences is an index of the vocabulary. *)
Definition tokens_of (trg : Field) (x : list nat) : list string :=
  map (fun tok => nth tok (itos trg) EmptyString) x.

Definition in_vocab (trg : Field) (seqs : list (list nat)) : bool :=
  forallb (forallb (fun tok => tok <? length (itos trg))) seqs.

(** The sequences [Solver.translate] decodes: those of the first batch. *)
Definition decoded (P : Type) (model_translate : P -> ids -> nat -> list (list nat))
           (model : P) (sos_tok : nat) (test_it : list ids) : list (list nat) :=
  match test_it with
  | [] => []
  | src :: _ => model_translate model src sos_tok
  end.

(** The number of line ends of a text. *)
Fixpoint count_newlines (s : string) : nat :=
  match s with
  | EmptyString => 0
  | String c s' =>
      (if Ascii.eqb c (Ascii.ascii_of_nat 10) then 1 else 0) + count_newlines s'
  end.

(** ** The patience counter *)

(** The number of entries of [h] whose epoch did not save. *)
Definition misses (h : list epoch_record) : nat :=
  length (filter (fun r => negb (persisted r)) h).

(** ** Batches without tokens *)

(** Whether the first batch of an iterator has no target token: all its
    target lengths are 0, or it has no sentence. *)
Definition first_batch_empty (it : list Train.batch) : bool :=
  match it with
  | [] => false
  | b :: _ => list_sum (snd (Train.b_trg b)) =? 0
  end.

(** ** A small corpus, for running the sampling *)

Definition corpus_lines (side : string) : list string :=
  map (fun k => (side ++ k ++ Solver.newline)%string)
      ["1"; "2"; "3"; "4"; "5"; "6"]%string.

Definition corpus (path : string) : option (list string) :=
  if String.eqb path "corpus.de" then Some (corpus_lines "de")
  else if String.eqb path "corpus.en" then Some (corpus_lines "en")
  else None.

(** The float [0.8], the default of [--split_ratio]. *)
Definition ratio_08 : float := S754_finite false 7205759403792794 (-53).

Definition sampling_args (n : Z) : Sampling.Args :=
  {| Sampling.sample_size := Some n; Sampling.split_ratio := ratio_08;
     Sampling.exp_dir := "experiments/test";
     Sampling.train_path := "corpus"; Sampling.dev_path := "corpus.dev";
     Sampling.training_source_lang := "de";
     Sampling.training_target_lang := "en" |}.

(** ** The variables of train.py and its records *)

(** The variables [best_val_loss] and [patience] against the entries made
    since the state [s]. *)
Definition tracks (B : Backend) (s s' : Train.script B) : Prop :=
  exists h,
    Train.history s' = Train.history s ++ h /\
    Train.best_val_loss s'
    = last (map best_after h) (Train.best_val_loss s) /\
    Train.patience s' = Train.patience s + misses h.

(** * Properties *)

(** ** The order of the floats *)

Section FloatOrder.

Lemma le_lt_or_eq (x y : float) :
  PyFloat.le x y = PyFloat.lt x y || PyFloat.eq x y.
Proof.
    unfold PyFloat.le, PyFloat.lt, PyFloat.eq, SFleb, SFltb, SFeqb.
    destruct (SFcompare x y) as [[ | | ]|]; reflexivity.
Qed.

Lemma lt_not_eq (x y : float) :
  PyFloat.lt x y = true -> PyFloat.eq x y = false.
Proof.
    unfold PyFloat.lt, PyFloat.eq, SFltb, SFeqb.
    destruct (SFcompare x y) as [[ | | ]|]; congruence.
Qed.

Lemma lt_le (x y : float) : PyFloat.lt x y = true -> PyFloat.le x y = true.
Proof. intros H. rewrite le_lt_or_eq, H. reflexivity. Qed.

Lemma le_not_nan (x y : float) :
  PyFloat.le x y = true -> is_nan x = false /\ is_nan y = false.
Proof.
    unfold PyFloat.le, SFleb.
    destruct x as [ | | | ], y as [ | | | ]; simpl; intros H;
      split; solve [reflexivity | discriminate].
Qed.

Lemma le_inf (x : float) : is_nan x = false -> PyFloat.le x inf = true.
Proof. destruct x as [ | [] | | ]; simpl; intros H; solve [reflexivity | discriminate]. Qed.

Lemma le_trans (x y z : float) :
  PyFloat.le x y = true -> PyFloat.le y z = true -> PyFloat.le x z = true.
Proof.
    unfold PyFloat.le, SFleb, SFcompare.
    destruct x as [[]|[]| |[] mx ex], y as [[]|[]| |[] my ey],
             z as [[]|[]| |[] mz ez];
      try reflexivity; try discriminate;
      destruct (Z.compare_spec ex ey), (Z.compare_spec ey ez),
               (Z.compare_spec ex ez);
      try lia; try reflexivity; try discriminate; subst;
      rewrite ?Pos.compare_cont_spec; simpl;
      destruct (Pos.compare_spec mx my), (Pos.compare_spec my mz),
               (Pos.compare_spec mx mz);
      simpl; try lia; try reflexivity; try discriminate.
Qed.

Lemma le_total (x y : float) :
  is_nan x = false -> is_nan y = false ->
  PyFloat.le x y = false -> PyFloat.lt y x = true.
Proof.
    unfold PyFloat.le, PyFloat.lt, SFleb, SFltb, SFcompare.
    destruct x as [[]|[]| |[] mx ex], y as [[]|[]| |[] my ey];
      simpl; intros Hx Hy; try reflexivity; try discriminate;
      rewrite (Z.compare_antisym ex ey);
      destruct (Z.compare_spec ex ey); simpl; try reflexivity; try discriminate;
      rewrite ?Pos.compare_cont_spec; simpl;
      rewrite (Pos.compare_antisym mx my);
      destruct (Pos.compare_spec mx my); simpl; try reflexivity; try discriminate.
Qed.

Lemma lt_total (x y : float) :
  is_nan x = false -> is_nan y = false ->
  PyFloat.lt x y = false -> PyFloat.le y x = true.
Proof.
    intros Hx Hy H.
    destruct (PyFloat.le y x) eqn:E; [reflexivity|].
    apply le_total in E; congruence.
Qed.

End FloatOrder.

(** ** Loops *)

Section Loops.
Context {S X A : Type}.

(** A relation between the state before and after that every iteration
    keeps is kept by the loop. *)
Lemma for_acc_preserves (R : S -> S -> Prop)
      (body : A -> X -> M S (A * loop_ctl)) :
  (forall s, R s s) ->
  (forall s1 s2 s3, R s1 s2 -> R s2 s3 -> R s1 s3) ->
  (forall acc x s, R s (fst (body acc x s))) ->
  forall xs acc s, R s (fst (for_acc xs acc body s)).
Proof.
    intros Hrefl Htrans Hbody xs.
    induction xs as [|x xs IH]; intros acc s; simpl.
    - apply Hrefl.
    - unfold bind. specialize (Hbody acc x s).
      destruct (body acc x s) as [s1 [[acc1 [|]]|e]]; simpl in *.
      + eapply Htrans; [exact Hbody|apply IH].
      + exact Hbody.
      + exact Hbody.
Qed.

Lemma for_each_preserves (R : S -> S -> Prop) (body : X -> M S loop_ctl) :
  (forall s, R s s) ->
  (forall s1 s2 s3, R s1 s2 -> R s2 s3 -> R s1 s3) ->
  (forall x s, R s (fst (body x s))) ->
  forall xs s, R s (fst (for_each xs body s)).
Proof.
    intros Hrefl Htrans Hbody xs.
    induction xs as [|x xs IH]; intros s; simpl.
    - apply Hrefl.
    - unfold bind. specialize (Hbody x s).
      destruct (body x s) as [s1 [[|]|e]]; simpl in *.
      + eapply Htrans; [exact Hbody|apply IH].
      + exact Hbody.
      + exact Hbody.
Qed.
End Loops.

(** ** train.py: what each part of an epoch does *)

Section TrainFacts.
Variable B : Backend.
Variable new_model : string -> nat -> nat -> Params B.
Variable forward_train : bool -> Params B -> Train.batch -> scores.
Variable forward_infer :
  bool -> Params B -> Train.batch -> nat -> Z -> ids * scores.
Variable gradient : bool -> Params B -> Train.batch -> Grads B.
Variable model_loss :
  scores -> ids -> (list (list float) -> list nat -> float) -> float.
Variable nll : list float -> nat -> float.
Variable load_data :
  Train.Args -> Field * Field * list Train.batch * list Train.batch.

Local Abbreviation script := (Train.script B).
Local Abbreviation train_step := (@Train.train_step B forward_train gradient model_loss).
Local Abbreviation train_pass := (@Train.train_pass B forward_train gradient model_loss).
Local Abbreviation val_step := (@Train.val_step B forward_infer model_loss).
Local Abbreviation val_pass := (@Train.val_pass B forward_infer model_loss).
Local Abbreviation checkpoint := (@Train.checkpoint B).
Local Abbreviation report := (@Train.report B).
Local Abbreviation epoch_body :=
  (@Train.epoch_body B forward_train forward_infer gradient model_loss).
Local Abbreviation epoch_loop :=
  (@Train.epoch_loop B forward_train forward_infer gradient model_loss).
Local Abbreviation main :=
  (@Train.main B new_model forward_train forward_infer gradient model_loss nll load_data).
Local Abbreviation setup := (@Train.setup B new_model nll load_data).
Local Abbreviation after_step := (@after_step B gradient).
Local Abbreviation val_batch_loss := (@val_batch_loss B forward_infer model_loss).
Local Abbreviation after_val := (@after_val B forward_infer model_loss).
Local Abbreviation is_model_write := (@is_model_write B).
Local Abbreviation policy_frame := (@policy_frame B).
Local Abbreviation train_ops := (@train_ops B).
Local Abbreviation epoch_ops := (@epoch_ops B).
Local Abbreviation same_setting := (@same_setting B).
Local Abbreviation undecided := (@undecided B).
Local Abbreviation decided_on := (@decided_on B).

  
Lemma policy_frame_refl s : policy_frame s s.
Proof. unfold policy_frame; repeat split. Qed.

Lemma policy_frame_trans s1 s2 s3 :
  policy_frame s1 s2 -> policy_frame s2 s3 -> policy_frame s1 s3.
Proof.
    unfold policy_frame; intros H1 H2.
    decompose [and] H1; decompose [and] H2; repeat split; congruence.
Qed.

  
  
Lemma script_eta (s : script) :
  s = {| Train.args := Train.args s; Train.training := Train.training s;
         Train.params := Train.params s; Train.grads := Train.grads s;
         Train.optimizer := Train.optimizer s;
         Train.criterion := Train.criterion s;
         Train.target_sos_idx := Train.target_sos_idx s;
         Train.train_iterator := Train.train_iterator s;
         Train.val_iterator := Train.val_iterator s;
         Train.epoch := Train.epoch s; Train.patience := Train.patience s;
         Train.best_val_loss := Train.best_val_loss s;
         Train.val_loss := Train.val_loss s;
         Train.fs := Train.fs s; Train.ops := Train.ops s;
         Train.history := Train.history s;
         Train.patience_log := Train.patience_log s |}.
Proof. destruct s; reflexivity. Qed.

Lemma script_ext (s1 s2 : script) :
  Train.args s1 = Train.args s2 ->
  Train.training s1 = Train.training s2 ->
  Train.params s1 = Train.params s2 ->
  Train.grads s1 = Train.grads s2 ->
  Train.optimizer s1 = Train.optimizer s2 ->
  Train.criterion s1 = Train.criterion s2 ->
  Train.target_sos_idx s1 = Train.target_sos_idx s2 ->
  Train.train_iterator s1 = Train.train_iterator s2 ->
  Train.val_iterator s1 = Train.val_iterator s2 ->
  Train.epoch s1 = Train.epoch s2 ->
  Train.patience s1 = Train.patience s2 ->
  Train.best_val_loss s1 = Train.best_val_loss s2 ->
  Train.val_loss s1 = Train.val_loss s2 ->
  Train.fs s1 = Train.fs s2 ->
  Train.ops s1 = Train.ops s2 ->
  Train.history s1 = Train.history s2 ->
  Train.patience_log s1 = Train.patience_log s2 ->
  s1 = s2.
Proof.
  destruct s1, s2; simpl; intros; subst; reflexivity.
Qed.

Lemma train_step_state acc b s : fst (train_step acc b s) = after_step b s.
Proof.
  unfold Train.train_step.
  destruct acc as [[acc_loss total_toks] total_seqs].
  destruct (Train.b_trg b) as [batch_output_seq batch_output_len].
  unfold bind, get, modify, ret, Train.py_div, raise.
  cbv beta iota.
  destruct (total_toks + list_sum batch_output_len);
    [|destruct (total_seqs + length batch_output_len)].
  all: cbn [fst].
  all: apply script_ext.
  all: simpl.
  all: (repeat rewrite <- app_assoc; reflexivity).
Qed.

Lemma train_step_frame acc b s : policy_frame s (fst (train_step acc b s)).
Proof. rewrite train_step_state. unfold policy_frame; repeat split. Qed.
Lemma train_step_result acc b s a c :
  snd (train_step acc b s) = Ok (a, c) -> c = Continue.
Proof.
  unfold Train.train_step.
  destruct acc as [[acc_loss total_toks] total_seqs].
  destruct (Train.b_trg b) as [batch_output_seq batch_output_len].
  unfold bind, get, modify, ret, Train.py_div, raise; simpl.
  destruct (total_toks + list_sum batch_output_len);
    [|destruct (total_seqs + length batch_output_len)];
    simpl; intros H; congruence.
Qed.

Lemma train_loop_ops xs : forall acc s s' a,
  for_acc xs acc train_step s = (s', Ok a) ->
  Train.ops s' =
  Train.ops s
  ++ concat (map (fun _ : Train.batch =>
                    step_ops (Train.training s) (Train.grad_clip (Train.args s)))
                 xs).
Proof.
  induction xs as [|x xs IH]; intros acc s s' a; simpl.
  - unfold ret. intros H. inversion H; subst. rewrite app_nil_r. reflexivity.
  - unfold bind.
    pose proof (train_step_state acc x s) as Hst.
    pose proof (train_step_result acc x s) as Hres.
    destruct (train_step acc x s) as [s1 [[acc1 c]|e]]; simpl in *;
      [|discriminate].
    rewrite (Hres acc1 c eq_refl). intros H.
    apply IH in H. rewrite H. subst s1. simpl.
    rewrite <- app_assoc. reflexivity.
Qed.

Lemma train_pass_frame s : policy_frame s (fst (train_pass s)).
Proof.
  unfold Train.train_pass, bind, modify, get; simpl.
  pose proof (for_acc_preserves policy_frame train_step policy_frame_refl
                policy_frame_trans train_step_frame
                (Train.train_iterator s) (PyFloat.zero, 0, 0)
                (Train.set_training true s)) as H.
  destruct (for_acc _ _ _ _) as [s1 [a|e]]; simpl in *; exact H.
Qed.

Lemma train_pass_ops s s' u :
  train_pass s = (s', Ok u) -> Train.ops s' = Train.ops s ++ train_ops s.
Proof.
  unfold Train.train_pass, bind, modify, get; simpl.
  destruct (for_acc _ _ _ _) as [s1 [a|e]] eqn:E; [|discriminate].
  unfold ret. intros H. inversion H; subst.
  apply train_loop_ops in E. exact E.
Qed.

Lemma val_step_state acc i b s :
  exists a, val_step acc (i, b) s = (after_val [b] s, Ok (a, Continue)).
Proof.
  unfold Train.val_step. destruct acc as [total_toks total_seqs].
  destruct (Train.b_trg b) as [batch_output_seq batch_output_len] eqn:Eb.
  unfold bind, get; cbv beta iota.
  destruct (forward_infer _ _ _ _ _) as [outputs logits_seq] eqn:Ef.
  unfold modify, ret; cbv beta iota.
  eexists. f_equal.
  apply script_ext; simpl; unfold val_batch_loss;
    rewrite ?Eb; simpl; rewrite ?Ef; reflexivity.
Qed.

Lemma after_val_cons b bs s : after_val bs (after_val [b] s) = after_val (b :: bs) s.
Proof.
  apply script_ext; simpl; rewrite <- ?app_assoc; reflexivity.
Qed.

Lemma val_loop_state xs : forall acc s,
  exists a, for_acc xs acc val_step s = (after_val (map snd xs) s, Ok a).
Proof.
  induction xs as [|[i b] xs IH]; intros acc s; simpl.
  - exists acc. unfold ret. f_equal.
    apply script_ext; simpl; rewrite ?app_nil_r; reflexivity.
  - unfold bind.
    destruct (val_step_state acc i b s) as [a1 Ha1]. rewrite Ha1.
    destruct (IH a1 (after_val [b] s)) as [a Ha].
    exists a. rewrite Ha, after_val_cons. reflexivity.
Qed.

Lemma map_snd_enumerate {X} (xs : list X) : map snd (enumerate xs) = xs.
Proof.
  unfold enumerate. generalize 0.
  induction xs as [|x xs IH]; intros n; simpl; [reflexivity|].
  rewrite IH. reflexivity.
Qed.

(** The validation pass: on batches, it ends well in the state
    [after_val]; on none, it raises. *)
Lemma val_pass_state s :
  match Train.val_iterator s with
  | [] => val_pass s
          = (Train.set_val_loss PyFloat.zero (Train.set_training false s),
             Raise ValueError)
  | _ :: _ =>
      exists totals,
      val_pass s
      = (after_val (Train.val_iterator s)
                   (Train.set_val_loss PyFloat.zero (Train.set_training false s)),
         Ok totals)
  end.
Proof.
  unfold Train.val_pass, bind, modify, get; simpl.
  destruct (Train.val_iterator s) as [|b bs] eqn:E; [reflexivity|].
  destruct (val_loop_state (enumerate (b :: bs)) (0, 0)
              (Train.set_val_loss PyFloat.zero (Train.set_training false s)))
    as [a Ha].
  exists a. rewrite Ha. rewrite map_snd_enumerate. reflexivity.
Qed.

Lemma checkpoint_state s :
  checkpoint s =
  if PyFloat.le (Train.val_loss s) (Train.best_val_loss s)
  then (Train.log_epoch true (Train.save_best s), Ok Continue)
  else (Train.log_epoch false (Train.bump_patience s),
        Ok (if (Train.patience_limit (Train.args s)
                <=? Z.of_nat (Train.patience s + 1))%Z
            then Break else Continue)).
Proof.
  unfold Train.checkpoint, bind, get, modify, ret.
  destruct (PyFloat.le _ _); [reflexivity|].
  cbv beta iota. simpl Train.args. simpl Train.patience.
  destruct (Z.leb _ _); reflexivity.
Qed.

Lemma report_state totals s : fst (report totals s) = s.
Proof.
  unfold Train.report, bind, get, Train.py_div, raise, ret.
  destruct (fst totals); [reflexivity|].
  destruct (snd totals); reflexivity.
Qed.

Lemma report_result totals s :
  snd (report totals s) = Ok tt \/ exists x, snd (report totals s) = Raise x.
Proof.
  unfold Train.report, bind, get, Train.py_div, raise, ret.
  destruct (fst totals); [right; eexists; reflexivity|].
  destruct (snd totals); [right; eexists; reflexivity|left; reflexivity].
Qed.

Lemma epoch_body_cases e s :
  let s' := fst (epoch_body e s) in
  let r := snd (epoch_body e s) in
  same_setting s s' /\
  (undecided s s' r \/ exists v, decided_on e v s s' r).
Proof.
  unfold Train.epoch_body, bind, modify.
  pose proof (train_pass_frame (Train.set_epoch e s)) as Hf.
  destruct (train_pass (Train.set_epoch e s)) as [s1 [[]|x]] eqn:Et;
    unfold policy_frame in Hf; simpl in Hf;
    destruct Hf as [Ha [Hti [Hvi [He [Hpat [Hb [Hfs [Hh Hpl]]]]]]]].
  2:{ cbn [fst snd]. split; [unfold same_setting; repeat split; congruence|].
      left. unfold undecided. repeat (split; [congruence|]).
      exists x; reflexivity. }
  apply train_pass_ops in Et. simpl in Et.
  pose proof (val_pass_state s1) as Hv.
  destruct (Train.val_iterator s1) as [|b bs] eqn:Ev.
  { rewrite Hv. cbn [fst snd].
    split; [unfold same_setting; simpl; repeat split; congruence|].
    left. unfold undecided; simpl. repeat (split; [congruence|]).
    exists ValueError; reflexivity. }
  destruct Hv as [totals Hv]. rewrite Hv. clear Hv.
  rewrite checkpoint_state.
  set (s2 := after_val (b :: bs) _).
  assert (Hops : Train.ops s2 = Train.ops s ++ epoch_ops s).
  { subst s2; simpl. rewrite Et. unfold epoch_ops, train_ops; simpl.
    rewrite <- app_assoc. rewrite <- Hvi. reflexivity. }
  assert (Hh2 : Train.history s2 = Train.history s) by (subst s2; simpl; congruence).
  assert (Hp2 : Train.patience_log s2 = Train.patience_log s)
    by (subst s2; simpl; congruence).
  assert (Hfs2 : Train.fs s2 = Train.fs s) by (subst s2; simpl; congruence).
  assert (He2 : Train.epoch s2 = e) by (subst s2; simpl; congruence).
  assert (Ha2 : Train.args s2 = Train.args s) by (subst s2; simpl; congruence).
  assert (Hb2 : Train.best_val_loss s2 = Train.best_val_loss s)
    by (subst s2; simpl; congruence).
  assert (Hpat2 : Train.patience s2 = Train.patience s)
    by (subst s2; simpl; congruence).
  assert (Hti2 : Train.train_iterator s2 = Train.train_iterator s)
    by (subst s2; simpl; congruence).
  assert (Hvi2 : Train.val_iterator s2 = Train.val_iterator s)
    by (subst s2; simpl; congruence).
  clearbody s2. clear Et Ev Ha Hti Hvi He Hpat Hb Hfs Hh Hpl s1.
  rewrite Ha2, Hb2, Hpat2.
  assert (Hcase :
    forall s3 : script,
      (forall c, decided_on e (Train.val_loss s2) s s3 (Ok c) ->
                 c = Continue ->
        same_setting s s3 ->
        let p := (let (s', r) := report totals s3 in
                  match r with
                  | Ok _ => ret Continue s'
                  | Raise e0 => (s', Raise e0)
                  end) in
        same_setting s (fst p) /\
        decided_on e (Train.val_loss s2) s (fst p) (snd p))).
  { intros s3 c Hd Hc Hs. subst c.
    pose proof (report_state totals s3) as Hrs.
    pose proof (report_result totals s3) as Hrr.
    destruct (report totals s3) as [s4 r4]; simpl in Hrs, Hrr. subst s4.
    destruct Hrr as [Hr | [x Hr]]; subst r4; simpl.
    - split; [exact Hs|exact Hd].
    - split; [exact Hs|].
      unfold decided_on in *.
      destruct Hd as [H1 [H2 [H3 [H4 [H5 [H6 [H7 H8]]]]]]].
      repeat split; auto.
      + intros Hstop. specialize (H7 Hstop). discriminate.
      + intros _. right. exists x. reflexivity. }
  destruct (PyFloat.le (Train.val_loss s2) (Train.best_val_loss s)) eqn:Ele.
  - cbv beta iota.
    specialize (Hcase (Train.log_epoch true (Train.save_best s2)) Continue).
    destruct Hcase as [Hs Hd]; [| reflexivity | | ].
    + unfold decided_on, decided. rewrite Ele. simpl.
      rewrite ?Hh2, ?Hp2, ?Hfs2, ?He2, ?Hops, ?Hpat2, ?Hb2, ?app_nil_r.
      repeat split; auto; try discriminate.
    + unfold same_setting; simpl; repeat split; congruence.
    + split; [exact Hs|]. right. exists (Train.val_loss s2). exact Hd.
  - cbv beta iota.
    destruct (Z.leb _ _) eqn:El.
    + cbn [fst snd ret]. split; [unfold same_setting; simpl; repeat split; congruence|].
      right. exists (Train.val_loss s2).
      unfold decided_on, decided. rewrite Ele. simpl.
      rewrite ?Hh2, ?Hp2, ?Hfs2, ?He2, ?Hops, ?Hpat2, ?Hb2, ?El, ?app_nil_r.
      repeat split; auto; try discriminate.
    + specialize (Hcase (Train.log_epoch false (Train.bump_patience s2)) Continue).
      destruct Hcase as [Hs Hd]; [| reflexivity | | ].
      * unfold decided_on, decided. rewrite Ele. simpl.
        rewrite ?Hh2, ?Hp2, ?Hfs2, ?He2, ?Hops, ?Hpat2, ?Hb2, ?El, ?app_nil_r.
        repeat split; auto; try discriminate.
      * unfold same_setting; simpl; repeat split; congruence.
      * split; [exact Hs|]. right. exists (Train.val_loss s2). exact Hd.
Qed.

Lemma same_setting_trans s1 s2 s3 :
  same_setting s1 s2 -> same_setting s2 s3 -> same_setting s1 s3.
Proof.
  unfold same_setting. intros [H1 [H2 H3]] [H4 [H5 H6]].
  repeat split; congruence.
Qed.

Lemma same_setting_ops s s' : same_setting s s' -> epoch_ops s' = epoch_ops s.
Proof.
  unfold same_setting, epoch_ops, train_ops. intros [Ha [Ht Hv]].
  rewrite Ha, Ht, Hv. reflexivity.
Qed.

(** A run of the loop is the replay of the validation losses it met. *)
Lemma epoch_loop_replay n : forall a s,
  let s' := fst (for_each (seq a n) epoch_body s) in
  let r := snd (for_each (seq a n) epoch_body s) in
  same_setting s s' /\
  exists vs,
    let rp := replay (Train.patience_limit (Train.args s))
                     (Train.best_val_loss s) (Train.patience s) a vs in
    length rp = length vs /\
    length vs <= n /\
    Train.history s' = Train.history s ++ map fst rp /\
    Train.patience_log s' = Train.patience_log s ++ map snd rp /\
    (exists ws, Train.fs s' = Train.fs s ++ ws /\
                forallb is_model_write ws = true /\
                length ws = length (filter persisted (map fst rp))) /\
    (r = Ok tt ->
     Train.ops s' = Train.ops s ++ concat (repeat (epoch_ops s) (length vs))) /\
    (replay_stops (Train.patience_limit (Train.args s))
                  (Train.best_val_loss s) (Train.patience s) a vs = true ->
     r = Ok tt).
Proof.
  induction n as [|n IH]; intros a s; simpl.
  - split; [unfold same_setting; auto|].
    exists []; simpl. rewrite !app_nil_r. repeat split; auto; try discriminate.
    exists []; simpl. rewrite app_nil_r. auto.
  - unfold bind.
    pose proof (epoch_body_cases a s) as [Hset Hcase].
    destruct (epoch_body a s) as [s1 r1]; simpl in Hset, Hcase.
    destruct Hcase as [Hu | [v Hd]].
    + destruct Hu as [Hh [Hp [Hb [Hpat [Hfs [x Hx]]]]]]. subst r1. simpl.
      split; [exact Hset|].
      exists []; simpl. rewrite !app_nil_r.
      repeat split; auto; try lia; try discriminate.
      exists []; simpl. rewrite app_nil_r. auto.
    + unfold decided_on in Hd.
      destruct (decided (Train.patience_limit (Train.args s))
                        (Train.best_val_loss s) (Train.patience s) a v)
        as [[rec pat'] stop] eqn:Ed.
      simpl in Hd.
      destruct Hd as [Hh [Hp [Hb [Hpat [Hfs [Hops [Hstop Hgo]]]]]]].
      assert (Hw : exists ws1, Train.fs s1 = Train.fs s ++ ws1 /\
                     forallb is_model_write ws1 = true /\
                     length ws1 = length (filter persisted [rec])).
      { rewrite Hfs. simpl. destruct (persisted rec).
        - eexists; repeat split; reflexivity.
        - exists []; repeat split; reflexivity. }
      destruct Hw as [ws1 [Hws1 [Hall1 Hlen1]]].
      destruct stop.
      * rewrite (Hstop eq_refl). simpl.
        split; [exact Hset|].
        exists [v]; simpl. rewrite Ed. simpl.
        repeat split; auto; try lia.
        -- exists ws1. auto.
        -- intros _. rewrite Hops, app_nil_r. reflexivity.
      * destruct (Hgo eq_refl) as [Hr | [x Hr]]; subst r1; simpl.
        -- specialize (IH (S a) s1). simpl in IH.
           destruct (for_each (seq (S a) n) epoch_body s1) as [s2 r2].
           simpl in IH. destruct IH as [Hset2 [vs IHv]].
           split.
           { eapply same_setting_trans; eassumption. }
           exists (v :: vs). simpl. rewrite Ed. simpl.
           destruct Hset as [Ha [Hti Hvi]].
           rewrite Ha, Hb, Hpat in IHv.
           destruct IHv as [Hl [Hle [Hh2 [Hp2 [[ws [Hws [Hall Hlen]]]
                                                  [Hops2 Hstop2]]]]]].
           repeat split.
           ++ simpl. rewrite Hl. reflexivity.
           ++ lia.
           ++ rewrite Hh2, Hh, <- app_assoc. reflexivity.
           ++ rewrite Hp2, Hp, <- app_assoc. reflexivity.
           ++ exists (ws1 ++ ws). rewrite Hws, Hws1, <- app_assoc.
              repeat split.
              ** rewrite forallb_app, Hall1, Hall. reflexivity.
              ** rewrite length_app, Hlen1, Hlen. simpl.
                 destruct (persisted rec); reflexivity.
           ++ intros Hr. rewrite (Hops2 Hr), Hops.
              rewrite (@same_setting_ops s s1) by (unfold same_setting; auto).
              rewrite <- app_assoc. reflexivity.
           ++ exact Hstop2.
        -- split; [exact Hset|].
           exists [v]; simpl. rewrite Ed. simpl.
           repeat split; auto; try lia; try discriminate.
           exists ws1. auto.
Qed.

Lemma replay_vloss limit : forall vs best pat e,
  map vloss (map fst (replay limit best pat e vs))
  = firstn (length (replay limit best pat e vs)) vs.
Proof.
  induction vs as [|v vs IH]; intros best pat e; simpl; [reflexivity|].
  unfold decided. destruct (PyFloat.le v best); simpl.
  - rewrite IH. reflexivity.
  - destruct (Z.leb _ _); simpl; [reflexivity|].
    rewrite IH. reflexivity.
Qed.

Lemma replay_losses limit vs best pat e :
  length (replay limit best pat e vs) = length vs ->
  map vloss (map fst (replay limit best pat e vs)) = vs.
Proof.
  intros H. rewrite replay_vloss, H. apply firstn_all.
Qed.

Lemma setup_fields a fs0 :
  Train.args (setup a fs0) = a /\
  Train.patience (setup a fs0) = 0 /\
  Train.best_val_loss (setup a fs0) = inf /\
  Train.history (setup a fs0) = [] /\
  Train.patience_log (setup a fs0) = [] /\
  Train.ops (setup a fs0) = [].
Proof.
  unfold Train.setup.
  destruct (load_data a) as [[[source target] train_iterator] val_iterator].
  simpl. repeat split.
Qed.

(** A run of the script is the replay, from the best loss [inf] and the
    counter 0, of the validation losses of its epochs. *)
Lemma main_replay a fs0 :
  let s' := fst (main a fs0) in
  let vs := map vloss (Train.history s') in
  let rp := replay (Train.patience_limit a) inf 0 1 vs in
  Train.history s' = map fst rp /\
  Train.patience_log s' = map snd rp /\
  length rp = length vs /\
  (length vs <= Z.to_nat (Train.n_epochs a))%nat /\
  (snd (main a fs0) = Ok tt ->
   Train.ops s' = concat (repeat (epoch_ops (setup a fs0)) (length vs))) /\
  (replay_stops (Train.patience_limit a) inf 0 1 vs = true ->
   snd (main a fs0) = Ok tt).
Proof.
  unfold Train.main, Train.epoch_loop, bind, get, range.
  destruct (setup_fields a fs0) as [Ha [Hp [Hb [Hh [Hpl Ho]]]]].
  rewrite Ha.
  replace (Z.to_nat (Train.n_epochs a + 1 - 1)) with (Z.to_nat (Train.n_epochs a))
    by (f_equal; lia).
  change (Z.to_nat 1) with 1.
  pose proof (epoch_loop_replay (Z.to_nat (Train.n_epochs a)) 1 (setup a fs0))
    as [_ [vs H]].
  simpl in H. rewrite Ha, Hp, Hb, Hh, Hpl, Ho in H. simpl in H.
  destruct H as [Hl [Hle [Hhist [Hplog [_ [Hops Hstop]]]]]].
  simpl.
  assert (Hvs : map vloss (Train.history
                  (fst (for_each (seq 1 (Z.to_nat (Train.n_epochs a)))
                                 epoch_body (setup a fs0)))) = vs).
  { rewrite Hhist. apply replay_losses. exact Hl. }
  rewrite Hvs. repeat split; assumption.
Qed.

(** C3.  With the patience limit 2, a run of [train.py] whose first three
    validation losses are 5.0, 6.0 and 7.0 ends, without an exception, after
    its third epoch: there are three epochs, the counter goes 0, 1, 2, and
    what was done with the network is three whole epochs, each with all its
    training batches and all its validation batches, so that the loop is
    left between epochs only. *)
Theorem C3_early_stopping a fs0 :
  Train.patience_limit a = 2%Z ->
  firstn 3 (map vloss (Train.history (fst (main a fs0))))
  = map PyFloat.of_Z [5; 6; 7]%Z ->
  snd (main a fs0) = Ok tt /\
  map ep (Train.history (fst (main a fs0))) = [1; 2; 3] /\
  Train.patience_log (fst (main a fs0)) = [0; 1; 2] /\
  Train.ops (fst (main a fs0)) = concat (repeat (epoch_ops (setup a fs0)) 3).
Proof.
  intros Hlimit Hrun.
  pose proof (main_replay a fs0) as Hm. cbv zeta in Hm.
  rewrite Hlimit in Hm.
  remember (map vloss (Train.history (fst (main a fs0)))) as vs eqn:Hvs.
  destruct vs as [|v1 [|v2 [|v3 rest]]]; simpl in Hrun; try discriminate.
  inversion Hrun; subst v1 v2 v3. clear Hrun.
  simpl in Hm.
  destruct Hm as [Hh [Hpl [Hlen [_ [Hops Hstop]]]]].
  assert (rest = []) by (destruct rest; [reflexivity|discriminate]).
  subst rest.
  specialize (Hstop eq_refl). specialize (Hops Hstop).
  rewrite Hh, Hpl, Hops. simpl. repeat split; [exact Hstop].
Qed.
End TrainFacts.

(** C1, as the specification states it, fails on the instance: the run has
    the validation losses 5.0, 3.0, 4.0 and 2.0 and saves at the epochs 1, 2
    and 4, and its patience counter ends on 1, not on 0. *)
Lemma C1_patience_not_reset :
  let s := fst (Demo.run_train [5; 3; 4; 2]%Z 4 10) in
  map vloss (Train.history s) = map PyFloat.of_Z [5; 3; 4; 2]%Z /\
  persisted_epochs (Train.history s) = [1; 2; 4] /\
  Train.patience_log s <> [0; 0; 1; 0].
Proof.
  vm_compute. repeat split; discriminate.
Qed.

Lemma C3_early_stopping_witness :
  let run := Demo.run_train [5; 6; 7; 1]%Z 10 2 in
  snd run = Ok tt /\
  map ep (Train.history (fst run)) = [1; 2; 3] /\
  Train.patience_log (fst run) = [0; 1; 2].
Proof.
  cbv zeta. unfold Demo.run_train.
  destruct (@C3_early_stopping Demo.backend Demo.new_model
              Demo.forward_train (Demo.forward_infer [5; 6; 7; 1]%Z)
              Demo.gradient Demo.model_loss Demo.nll Demo.load_data
              (Demo.train_args 10 2) [])
    as [H1 [H2 [H3 _]]].
  - reflexivity.
  - vm_compute; reflexivity.
  - repeat split; assumption.
Defined.

(** ** solver.py: what each part of an epoch does *)

Section SolverFacts.
Variable B : Backend.
Variable lstm2lstm_baseline : nat -> nat -> Params B.
Variable forward : bool -> Params B -> ids -> ids -> scores.
Variable gradient : bool -> Params B -> Solver.batch -> Grads B.
Variable train_data_loader :
  string -> string -> string -> nat -> nat ->
  Field * Field * list Solver.batch * list Solver.batch.
Variable nll : list float -> nat -> float.

Local Abbreviation solver := (Solver.solver B).
Local Abbreviation train_step := (@Solver.train_step B forward gradient).
Local Abbreviation train_epoch := (@Solver.train_epoch B forward gradient).
Local Abbreviation validate := (@Solver.validate B forward).
Local Abbreviation train_body := (@Solver.train_body B forward gradient).
Local Abbreviation train := (@Solver.train B forward gradient).
Local Abbreviation init_training :=
  (@Solver.init_training B lstm2lstm_baseline train_data_loader nll).
Local Abbreviation solver_after_step := (@solver_after_step B gradient).
Local Abbreviation solver_after_steps := (@solver_after_steps B gradient).
Local Abbreviation validation_sum := (@validation_sum B forward).
Local Abbreviation validation_value := (@validation_value B forward).
Local Abbreviation is_param_write := (@is_param_write B).
Local Abbreviation solver_frame := (@solver_frame B).
Local Abbreviation solver_after_validate := (@solver_after_validate B).
Local Abbreviation solver_epoch_ops := (@solver_epoch_ops B).
Local Abbreviation solver_setting := (@solver_setting B).

Lemma solver_ext (s1 s2 : solver) :
  Solver.args s1 = Solver.args s2 ->
  Solver.training s1 = Solver.training s2 ->
  Solver.params s1 = Solver.params s2 ->
  Solver.grads s1 = Solver.grads s2 ->
  Solver.optimizer s1 = Solver.optimizer s2 ->
  Solver.criterion s1 = Solver.criterion s2 ->
  Solver.train_iterator s1 = Solver.train_iterator s2 ->
  Solver.val_iterator s1 = Solver.val_iterator s2 ->
  Solver.src_field s1 = Solver.src_field s2 ->
  Solver.trg_field s1 = Solver.trg_field s2 ->
  Solver.fs s1 = Solver.fs s2 ->
  Solver.ops s1 = Solver.ops s2 ->
  Solver.history s1 = Solver.history s2 ->
  s1 = s2.
Proof.
  destruct s1, s2; simpl; intros; subst; reflexivity.
Qed.

Lemma solver_train_step b s :
  train_step b s
  = (solver_after_step b s,
     Ok (scored_loss (Solver.criterion s)
                     (forward (Solver.training s) (Solver.params s)
                              (Solver.src b) (Solver.trg b))
                     (Solver.trg b))).
Proof.
  unfold Solver.train_step, bind, get, modify, ret. cbv beta iota zeta.
  f_equal.
  apply solver_ext; simpl; rewrite <- ?app_assoc; reflexivity.
Qed.

Lemma solver_train_loop bs : forall acc s,
  exists a,
    for_acc bs acc
            (fun epoch_loss b =>
               loss <- train_step b ;;
               ret (PyFloat.add epoch_loss loss, Continue)) s
    = (solver_after_steps bs s, Ok a).
Proof.
  induction bs as [|b bs IH]; intros acc s; simpl.
  - exists acc. reflexivity.
  - unfold bind at 1. unfold bind at 1. rewrite solver_train_step.
    unfold ret at 1. apply IH.
Qed.

Lemma solver_after_steps_frame bs : forall s,
  solver_frame s (solver_after_steps bs s) /\
  Solver.training (solver_after_steps bs s) = Solver.training s /\
  Solver.ops (solver_after_steps bs s)
  = Solver.ops s
    ++ concat (map (fun _ : Solver.batch =>
                      [Forward (Solver.training s) true; ZeroGrad; Backward;
                       ClipGradNorm (Solver.clip (Solver.args s));
                       OptimizerStep]) bs).
Proof.
  induction bs as [|b bs IH]; intros s; simpl.
  - unfold solver_frame. rewrite app_nil_r. repeat split.
  - destruct (IH (solver_after_step b s)) as [[Ha [Hc [Ht [Hv [Hf Hh]]]]] [Htr Ho]].
    unfold solver_after_steps in *. simpl in *.
    unfold solver_frame. rewrite Ho, <- app_assoc.
    repeat split; assumption.
Qed.

Lemma solver_train_epoch s :
  exists r,
    train_epoch s
    = (solver_after_steps (Solver.train_iterator s) (Solver.set_training true s), r)
    /\ match Solver.train_iterator s with
       | [] => r = Raise ZeroDivisionError
       | _ :: _ => exists l, r = Ok l
       end.
Proof.
  unfold Solver.train_epoch.
  unfold bind at 1, modify at 1. unfold bind at 1, get at 1.
  change (Solver.train_iterator (Solver.set_training true s))
    with (Solver.train_iterator s).
  destruct (solver_train_loop (Solver.train_iterator s) PyFloat.zero
                              (Solver.set_training true s)) as [a Ha].
  unfold bind at 1. rewrite Ha.
  unfold Solver.mean_loss.
  destruct (Solver.train_iterator s) as [|b bs]; simpl.
  - eexists; split; reflexivity.
  - eexists; split; [reflexivity|]. eexists; reflexivity.
Qed.

Lemma solver_after_validate_cons b it s :
  solver_after_validate it (Solver.log_op (Forward (Solver.training s) false) s)
  = solver_after_validate (b :: it) s.
Proof.
  apply solver_ext; simpl; rewrite <- ?app_assoc; reflexivity.
Qed.

Lemma solver_validate_loop it : forall acc s,
  for_acc it acc
          (fun epoch_loss b =>
             s <- get ;;
             let src := Solver.src b in
             let trg := Solver.trg b in
             let output := forward (Solver.training s) (Solver.params s) src trg in
             modify (Solver.log_op (Forward (Solver.training s) false)) ;;
             let output := view_flat (from1 output) in
             let trg := view_flat (from1 trg) in
             let loss := Solver.criterion s output trg in
             ret (PyFloat.add epoch_loss (Torch.item loss), Continue)) s
  = (solver_after_validate it s, Ok (validation_sum s it acc)).
Proof.
  induction it as [|b it IH]; intros acc s.
  - simpl. unfold ret. f_equal.
    apply solver_ext; simpl; rewrite ?app_nil_r; reflexivity.
  - cbn [for_acc]. unfold bind at 1. unfold bind at 1, get at 1.
    cbv zeta. unfold bind at 1, modify at 1. unfold ret at 1.
    rewrite IH. rewrite (solver_after_validate_cons b). reflexivity.
Qed.

Lemma solver_validate it s :
  validate it s
  = (solver_after_validate it (Solver.set_training false s),
     validation_value (Solver.set_training false s) it).
Proof.
  unfold Solver.validate.
  unfold bind at 1, modify at 1. unfold bind at 1.
  rewrite solver_validate_loop.
  unfold Solver.mean_loss, validation_value.
  destruct (length it); reflexivity.
Qed.

Lemma solver_frame_trans s1 s2 s3 :
  solver_frame s1 s2 -> solver_frame s2 s3 -> solver_frame s1 s3.
Proof.
  unfold solver_frame.
  intros [H1 [H2 [H3 [H4 [H5 H6]]]]] [G1 [G2 [G3 [G4 [G5 G6]]]]].
  repeat split; congruence.
Qed.

Lemma solver_train_body best be epoch s :
  exists s' res,
  train_body (best, be) epoch s = (s', res) /\
  solver_setting s s' /\
  match Solver.train_iterator s, Solver.val_iterator s with
  | _ :: _, _ :: _ =>
      exists v,
      let r := solver_decided best (epoch + 1) v in
      Solver.history s' = Solver.history s ++ [r] /\
      Solver.fs s'
      = Solver.fs s
        ++ (if persisted r
            then [WriteFile (path_join (Solver.ckp_path (Solver.args s)) "model.pth")
                            (StateDict (Solver.params s'))]
            else []) /\
      Solver.ops s' = Solver.ops s ++ solver_epoch_ops s /\
      res = Ok (best_after r, if persisted r then epoch else be, Continue)
  | _, _ =>
      res = Raise ZeroDivisionError /\
      Solver.history s' = Solver.history s /\
      Solver.fs s' = Solver.fs s
  end.
Proof.
  unfold Solver.train_body. cbv zeta.
  destruct (solver_train_epoch s) as [r1 [He Hr1]].
  unfold bind at 1. rewrite He.
  destruct (solver_after_steps_frame (Solver.train_iterator s)
                                     (Solver.set_training true s))
    as [[Ha [Hc [Ht [Hv [Hf Hh]]]]] [Htr Ho]].
  simpl in Ha, Hc, Ht, Hv, Hf, Hh, Htr, Ho.
  set (s1 := solver_after_steps (Solver.train_iterator s)
                                (Solver.set_training true s)) in *.
  clearbody s1. clear He.
  destruct (Solver.train_iterator s) as [|tb tbs] eqn:Eti.
  { subst r1. eexists; eexists; split; [reflexivity|].
    unfold solver_setting. repeat split; congruence. }
  destruct Hr1 as [l Hl]. subst r1.
  unfold bind at 1, get at 1. unfold bind at 1.
  rewrite solver_validate. rewrite Hv.
  unfold validation_value.
  destruct (Solver.val_iterator s) as [|vb vbs] eqn:Evi.
  { cbn [length]. eexists; eexists; split; [reflexivity|].
    unfold solver_setting; simpl. repeat split; congruence. }
  cbn [length].
  set (v := PyFloat.div _ _). clearbody v.
  set (s2 := solver_after_validate (vb :: vbs) (Solver.set_training false s1)).
  assert (Hs2 : solver_setting s s2 /\ Solver.history s2 = Solver.history s /\
                Solver.fs s2 = Solver.fs s /\
                Solver.ops s2 = Solver.ops s ++ solver_epoch_ops s).
  { subst s2. unfold solver_setting, solver_epoch_ops. simpl.
    rewrite Ho, Ha, Eti, Evi, <- app_assoc. simpl.
    repeat split; congruence. }
  clearbody s2. destruct Hs2 as [[Ha2 [Hc2 [Ht2 Hv2]]] [Hh2 [Hf2 Ho2]]].
  unfold solver_decided.
  destruct (PyFloat.lt v best) eqn:Elt.
  - unfold bind, modify, ret.
    eexists; eexists; split; [reflexivity|].
    split; [unfold solver_setting; simpl; repeat split; assumption|].
    exists v. rewrite Elt. simpl.
    rewrite Hh2, Hf2, Ho2, Ha2. repeat split.
  - unfold bind, modify, ret.
    eexists; eexists; split; [reflexivity|].
    split; [unfold solver_setting; simpl; repeat split; assumption|].
    exists v. rewrite Elt. simpl.
    rewrite Hh2, Hf2, Ho2, app_nil_r. repeat split.
Qed.

Lemma solver_setting_trans s1 s2 s3 :
  solver_setting s1 s2 -> solver_setting s2 s3 -> solver_setting s1 s3.
Proof.
  unfold solver_setting. intros [H1 [H2 [H3 H4]]] [G1 [G2 [G3 G4]]].
  repeat split; congruence.
Qed.

Lemma solver_setting_ops s s' :
  solver_setting s s' -> solver_epoch_ops s' = solver_epoch_ops s.
Proof.
  unfold solver_setting, solver_epoch_ops. intros [Ha [_ [Ht Hv]]].
  rewrite Ha, Ht, Hv. reflexivity.
Qed.

(** A run of the loop of [Solver.train] on batches: every epoch of the
    range is run, and the entries are the replay of the validation losses. *)
Lemma solver_loop_replay n : forall a best be s,
  Solver.train_iterator s <> [] ->
  Solver.val_iterator s <> [] ->
  exists s' res vs,
    for_acc (seq a n) (best, be) train_body s = (s', Ok res) /\
    solver_setting s s' /\
    length vs = n /\
    Solver.history s' = Solver.history s ++ solver_replay best (a + 1) vs /\
    (exists ws, Solver.fs s' = Solver.fs s ++ ws /\
                forallb (is_param_write (Solver.ckp_path (Solver.args s))) ws
                = true /\
                length ws = length (filter persisted
                                           (solver_replay best (a + 1) vs))) /\
    Solver.ops s' = Solver.ops s ++ concat (repeat (solver_epoch_ops s) n).
Proof.
  induction n as [|n IH]; intros a best be s Ht Hv.
  - exists s, (best, be), []. simpl. unfold ret.
    rewrite !app_nil_r. repeat split.
    exists []. rewrite app_nil_r. repeat split.
  - destruct (solver_train_body best be a s) as [s1 [res1 [Hb [Hset Hcase]]]].
    destruct (Solver.train_iterator s) as [|tb tbs] eqn:Eti; [congruence|].
    destruct (Solver.val_iterator s) as [|vb vbs] eqn:Evi; [congruence|].
    destruct Hcase as [v Hcase]. cbv zeta in Hcase.
    destruct Hcase as [Hh [Hf [Ho Hres]]].
    set (r := solver_decided best (a + 1) v) in *.
    assert (Ht1 : Solver.train_iterator s1 <> []).
    { destruct Hset as [_ [_ [H _]]]. rewrite H, Eti. discriminate. }
    assert (Hv1 : Solver.val_iterator s1 <> []).
    { destruct Hset as [_ [_ [_ H]]]. rewrite H, Evi. discriminate. }
    destruct (IH (S a) (best_after r) (if persisted r then a else be) s1 Ht1 Hv1)
      as [s2 [res2 [vs [Hloop [Hset2 [Hlen [Hh2 [[ws [Hws [Hall Hwl]]] Ho2]]]]]]]].
    exists s2, res2, (v :: vs).
    split.
    { cbn [seq for_acc]. unfold bind at 1. rewrite Hb, Hres. exact Hloop. }
    split; [eapply solver_setting_trans; eassumption|].
    split; [simpl; congruence|].
    split.
    { rewrite Hh2, Hh, <- app_assoc. reflexivity. }
    split.
    { assert (Ha : Solver.args s1 = Solver.args s) by (destruct Hset; assumption).
      rewrite Ha in Hall.
      rewrite Hws, Hf, <- app_assoc. eexists. split; [reflexivity|].
      rewrite forallb_app, Hall, length_app, Hwl.
      cbn [solver_replay filter]. fold r.
      destruct (persisted r); simpl.
      - unfold path_join. rewrite String.eqb_refl. split; reflexivity.
      - split; reflexivity. }
    rewrite Ho2, Ho, (solver_setting_ops Hset), <- app_assoc.
    reflexivity.
Qed.

(** Without batches to train on, or to validate on, the first epoch
    raises. *)
Lemma solver_loop_raises n a best be s :
  Solver.train_iterator s = [] \/ Solver.val_iterator s = [] ->
  exists s',
    for_acc (seq a (S n)) (best, be) train_body s = (s', Raise ZeroDivisionError)
    /\ Solver.history s' = Solver.history s
    /\ Solver.fs s' = Solver.fs s.
Proof.
  intros He.
  destruct (solver_train_body best be a s) as [s1 [res1 [Hb [Hset Hcase]]]].
  exists s1. cbn [seq for_acc]. unfold bind at 1. rewrite Hb.
  destruct (Solver.train_iterator s) as [|tb tbs].
  - destruct Hcase as [Hr [Hh Hf]]. subst res1. auto.
  - destruct (Solver.val_iterator s) as [|vb vbs].
    + destruct Hcase as [Hr [Hh Hf]]. subst res1. auto.
    + destruct He; discriminate.
Qed.

Lemma solver_replay_ep : forall vs best e,
  map ep (solver_replay best e vs) = seq e (length vs).
Proof.
  induction vs as [|v vs IH]; intros best e; simpl; [reflexivity|].
  rewrite IH. unfold solver_decided. destruct (PyFloat.lt v best); reflexivity.
Qed.

Lemma solver_replay_vloss : forall vs best e,
  map vloss (solver_replay best e vs) = vs.
Proof.
  induction vs as [|v vs IH]; intros best e; simpl; [reflexivity|].
  rewrite IH. unfold solver_decided. destruct (PyFloat.lt v best); reflexivity.
Qed.

Lemma solver_train_unfold s :
  train s
  = for_acc (seq 0 (Z.to_nat (Solver.n_epochs (Solver.args s))))
            (inf, 0) train_body s.
Proof.
  unfold Solver.train, bind, get, range.
  rewrite Z.sub_0_r. reflexivity.
Qed.

(** C10.  [Solver.train] has no patience counter and never leaves its loop:
    on iterators that yield batches, whatever the validation losses are, the
    run ends without an exception, its entries are those of the epochs
    1 to [n_epochs], one each, and what was done with the network is
    [n_epochs] whole epochs.  (On an iterator without batches the first
    epoch raises [ZeroDivisionError], the only way out of the loop.) *)
Theorem C10_solver_runs_all_epochs s :
  let n := Z.to_nat (Solver.n_epochs (Solver.args s)) in
  let s' := fst (train s) in
  match Solver.train_iterator s, Solver.val_iterator s with
  | _ :: _, _ :: _ =>
      exists vs,
        length vs = n /\
        (exists res, snd (train s) = Ok res) /\
        Solver.history s' = Solver.history s ++ solver_replay inf 1 vs /\
        map ep (solver_replay inf 1 vs) = seq 1 n /\
        Solver.ops s' = Solver.ops s ++ concat (repeat (solver_epoch_ops s) n)
  | _, _ =>
      match n with
      | O => snd (train s) = Ok (inf, 0)
      | S _ => snd (train s) = Raise ZeroDivisionError
      end /\ Solver.history s' = Solver.history s
  end.
Proof.
  cbv zeta. rewrite solver_train_unfold.
  set (n := Z.to_nat (Solver.n_epochs (Solver.args s))). clearbody n.
  assert (Hempty :
    Solver.train_iterator s = [] \/ Solver.val_iterator s = [] ->
    match n with
    | O => snd (for_acc (seq 0 n) (inf, 0) train_body s) = Ok (inf, 0)
    | S _ => snd (for_acc (seq 0 n) (inf, 0) train_body s)
             = Raise ZeroDivisionError
    end /\
    Solver.history (fst (for_acc (seq 0 n) (inf, 0) train_body s))
    = Solver.history s).
  { intros He. destruct n as [|n].
    - simpl. split; reflexivity.
    - destruct (solver_loop_raises n 0 inf 0 s He) as [s1 [Hl [Hh _]]].
      rewrite Hl. simpl. split; [reflexivity|exact Hh]. }
  destruct (Solver.train_iterator s) as [|tb tbs] eqn:Eti;
    [apply Hempty; left; reflexivity|].
  destruct (Solver.val_iterator s) as [|vb vbs] eqn:Evi;
    [apply Hempty; right; reflexivity|].
  clear Hempty.
  destruct (solver_loop_replay n 0 inf 0 s) as
      [s1 [res [vs [Hl [_ [Hlen [Hh [_ Ho]]]]]]]];
    [rewrite Eti; discriminate | rewrite Evi; discriminate |].
  rewrite Hl. simpl fst. simpl snd. simpl in Hh.
  exists vs. repeat split; try assumption.
  - exists res. reflexivity.
  - rewrite solver_replay_ep, Hlen. reflexivity.
Qed.

(** In every case the entries of a run of [Solver.train] are the replay,
    from the best loss [inf], of the validation losses met, and the files
    written are parameter files, one for each entry that saved. *)
Lemma solver_train_history s :
  exists vs,
    Solver.history (fst (train s))
    = Solver.history s ++ solver_replay inf 1 vs /\
    exists ws,
      Solver.fs (fst (train s)) = Solver.fs s ++ ws /\
      forallb (is_param_write (Solver.ckp_path (Solver.args s))) ws = true /\
      length ws = length (filter persisted (solver_replay inf 1 vs)).
Proof.
  rewrite solver_train_unfold.
  set (n := Z.to_nat (Solver.n_epochs (Solver.args s))). clearbody n.
  assert (Hempty :
    Solver.train_iterator s = [] \/ Solver.val_iterator s = [] ->
    Solver.history (fst (for_acc (seq 0 n) (inf, 0) train_body s))
    = Solver.history s /\
    Solver.fs (fst (for_acc (seq 0 n) (inf, 0) train_body s)) = Solver.fs s).
  { intros He. destruct n as [|n].
    - simpl. split; reflexivity.
    - destruct (solver_loop_raises n 0 inf 0 s He) as [s1 [Hl [Hh Hf]]].
      rewrite Hl. simpl. split; assumption. }
  assert (Hnone :
    Solver.train_iterator s = [] \/ Solver.val_iterator s = [] ->
    exists vs,
      Solver.history (fst (for_acc (seq 0 n) (inf, 0) train_body s))
      = Solver.history s ++ solver_replay inf 1 vs /\
      exists ws,
        Solver.fs (fst (for_acc (seq 0 n) (inf, 0) train_body s))
        = Solver.fs s ++ ws /\
        forallb (is_param_write (Solver.ckp_path (Solver.args s))) ws = true /\
        length ws = length (filter persisted (solver_replay inf 1 vs))).
  { intros He. destruct (Hempty He) as [Hh Hf].
    exists []. simpl. rewrite app_nil_r. split; [exact Hh|].
    exists []. rewrite app_nil_r. repeat split. exact Hf. }
  destruct (Solver.train_iterator s) as [|tb tbs] eqn:Eti;
    [apply Hnone; left; reflexivity|].
  destruct (Solver.val_iterator s) as [|vb vbs] eqn:Evi;
    [apply Hnone; right; reflexivity|].
  destruct (solver_loop_replay n 0 inf 0 s) as
      [s1 [res [vs [Hl [_ [Hlen [Hh [Hw _]]]]]]]];
    [rewrite Eti; discriminate | rewrite Evi; discriminate |].
  rewrite Hl. simpl fst. simpl in Hh, Hw.
  exists vs. split; assumption.
Qed.

Lemma init_training_fields a fs0 :
  Solver.args (init_training a fs0) = a /\
  Solver.ops (init_training a fs0) = [] /\
  Solver.history (init_training a fs0) = [] /\
  exists d,
    Solver.fs (init_training a fs0)
    = (if dir_exists fs0 (Solver.ckp_path a) then fs0
       else fs0 ++ [Makedirs (Solver.ckp_path a)])
      ++ [WriteFile (path_join (Solver.ckp_path a) "model_dict.pkl") (Pickled d)].
Proof.
  unfold Solver.init_training.
  destruct (train_data_loader _ _ _ _ _) as [[[src trg] train_iterator] val_iterator].
  simpl. repeat split. eexists. reflexivity.
Qed.
End SolverFacts.

(** ** The two checkpoint policies *)

Section Policies.

Lemma le_refl (x : float) : is_nan x = false -> PyFloat.le x x = true.
Proof.
  intros H. destruct (PyFloat.le x x) eqn:E; [reflexivity|].
  pose proof (lt_le _ _ (le_total _ _ H H E)) as H1. congruence.
Qed.

Lemma lower_bound_step (b v : float) (seen : list float) :
  forallb (fun x => is_nan x || PyFloat.le b x) seen = true ->
  PyFloat.le v b = true ->
  forallb (fun x => is_nan x || PyFloat.le v x) (seen ++ [v]) = true.
Proof.
  intros Hall Hle. rewrite forallb_app. apply andb_true_intro. split.
  - rewrite forallb_forall in *. intros x Hx. specialize (Hall x Hx).
    apply orb_true_iff in Hall. apply orb_true_iff.
    destruct Hall as [Hn | Hb]; [left; exact Hn|right].
    eapply le_trans; eassumption.
  - simpl. destruct (le_not_nan _ _ Hle) as [Hv _].
    rewrite (le_refl _ Hv), orb_true_r. reflexivity.
Qed.

Lemma lower_bound_keep (b v : float) (seen : list float) :
  forallb (fun x => is_nan x || PyFloat.le b x) seen = true ->
  is_nan b = false ->
  PyFloat.le v b = false \/ PyFloat.lt v b = false ->
  forallb (fun x => is_nan x || PyFloat.le b x) (seen ++ [v]) = true.
Proof.
  intros Hall Hb Hno. rewrite forallb_app, Hall. simpl.
  destruct (is_nan v) eqn:Hv; [reflexivity|]. simpl.
  destruct Hno as [Hno | Hno].
  - rewrite (lt_le _ _ (le_total _ _ Hv Hb Hno)). reflexivity.
  - rewrite (lt_total _ _ Hv Hb Hno). reflexivity.
Qed.

Lemma in_seen_more (b v : float) (seen : list float) :
  In b (inf :: seen) -> In b (inf :: seen ++ [v]).
Proof.
  simpl. intros [H | H]; [left; exact H|right].
  apply in_or_app. left. exact H.
Qed.

Lemma in_seen_last (v : float) (seen : list float) :
  In v (inf :: seen ++ [v]).
Proof. simpl. right. apply in_or_app. right. left. reflexivity. Qed.

Lemma replay_tracks limit : forall vs b p e seen,
  is_nan b = false ->
  In b (inf :: seen) ->
  forallb (fun x => is_nan x || PyFloat.le b x) seen = true ->
  best_tracks_min b seen (map fst (replay limit b p e vs)).
Proof.
  induction vs as [|v vs IH]; intros b p e seen Hb Hin Hall; simpl;
    [exact I|].
  unfold decided. destruct (PyFloat.le v b) eqn:E; simpl.
  - destruct (le_not_nan _ _ E) as [Hv _].
    pose proof (@lower_bound_step b v seen Hall E) as Hall'.
    repeat split; try assumption; try apply in_seen_last.
    apply IH; try assumption. apply in_seen_last.
  - pose proof (@lower_bound_keep b v seen Hall Hb (or_introl E)) as Hall'.
    pose proof (@in_seen_more b v seen Hin) as Hin'.
    destruct (Z.leb _ _); simpl.
    + repeat split; try assumption. apply le_refl; assumption.
    + repeat split; try assumption; [apply le_refl; assumption|].
      apply IH; assumption.
Qed.

Lemma solver_replay_tracks : forall vs b e seen,
  is_nan b = false ->
  In b (inf :: seen) ->
  forallb (fun x => is_nan x || PyFloat.le b x) seen = true ->
  best_tracks_min b seen (solver_replay b e vs).
Proof.
  induction vs as [|v vs IH]; intros b e seen Hb Hin Hall; simpl;
    [exact I|].
  unfold solver_decided. destruct (PyFloat.lt v b) eqn:E; simpl.
  - pose proof (lt_le _ _ E) as Ele.
    destruct (le_not_nan _ _ Ele) as [Hv _].
    pose proof (@lower_bound_step b v seen Hall Ele) as Hall'.
    repeat split; try assumption; try apply in_seen_last.
    apply IH; try assumption. apply in_seen_last.
  - pose proof (@lower_bound_keep b v seen Hall Hb (or_intror E)) as Hall'.
    pose proof (@in_seen_more b v seen Hin) as Hin'.
    repeat split; try assumption; [apply le_refl; assumption|].
    apply IH; assumption.
Qed.

(** Without ties the entries of [train.py] are the first entries of
    [Solver.train] on the same losses. *)
Lemma replay_no_tie limit : forall vs b p e,
  no_tie b vs = true ->
  map fst (replay limit b p e vs)
  = firstn (length (replay limit b p e vs)) (solver_replay b e vs).
Proof.
  induction vs as [|v vs IH]; intros b p e Hno; simpl; [reflexivity|].
  simpl in Hno. apply andb_true_iff in Hno. destruct Hno as [Hne Hno].
  apply negb_true_iff in Hne.
  unfold decided, solver_decided.
  rewrite le_lt_or_eq, Hne, orb_false_r.
  destruct (PyFloat.lt v b) eqn:E; simpl.
  - f_equal. apply IH. exact Hno.
  - destruct (Z.leb _ _); simpl; [reflexivity|].
    f_equal. apply IH. exact Hno.
Qed.

Lemma firstn_solver_replay : forall k vs b e,
  firstn k (solver_replay b e vs) = solver_replay b e (firstn k vs).
Proof.
  induction k as [|k IH]; intros vs b e; [reflexivity|].
  destruct vs as [|v vs]; simpl; [reflexivity|].
  rewrite IH. reflexivity.
Qed.

Lemma solver_replay_length vs b e : length (solver_replay b e vs) = length vs.
Proof.
  rewrite <- (length_map ep), solver_replay_ep. apply length_seq.
Qed.

Lemma is_nan_inf : is_nan inf = false.
Proof. reflexivity. Qed.

End Policies.

(** On a tie the two drivers part: with the validation losses 5.0 and 5.0,
    [Solver.train] saves in the first epoch only, [train.py] in both. *)
Lemma policies_part_on_a_tie :
  persisted_epochs (Solver.history (fst (Demo.run_solver [5; 5]%Z 2))) = [1] /\
  persisted_epochs (Train.history (fst (Demo.run_train [5; 5]%Z 2 10))) = [1; 2].
Proof. vm_compute. split; reflexivity. Qed.

(** ** Validation and the optimisation step, in both drivers *)

Section Passes.
Variable BS : Backend.
Variable forward : bool -> Params BS -> ids -> ids -> scores.
Variable solver_gradient : bool -> Params BS -> Solver.batch -> Grads BS.

Variable BT : Backend.
Variable forward_train : bool -> Params BT -> Train.batch -> scores.
Variable forward_infer :
  bool -> Params BT -> Train.batch -> nat -> Z -> ids * scores.
Variable gradient : bool -> Params BT -> Train.batch -> Grads BT.
Variable model_loss :
  scores -> ids -> (list (list float) -> list nat -> float) -> float.

Local Abbreviation validate_S := (@Solver.validate BS forward).
Local Abbreviation step_S := (@Solver.train_step BS forward solver_gradient).
Local Abbreviation val_pass_T := (@Train.val_pass BT forward_infer model_loss).
Local Abbreviation step_T := (@Train.train_step BT forward_train gradient model_loss).

Lemma script_step_loss acc b t r :
  snd (step_T acc b t) = Ok r ->
  fst (fst (fst r))
  = PyFloat.add (fst (fst acc))
      (Torch.item (model_loss (forward_train (Train.training t)
                                                   (Train.params t) b)
                                    (fst (Train.b_trg b))
                                    (Train.criterion t))).
Proof.
  unfold Train.train_step.
  destruct acc as [[acc_loss total_toks] total_seqs].
  destruct (Train.b_trg b) as [batch_output_seq batch_output_len].
  unfold bind, get, modify, ret, Train.py_div, raise. cbv beta iota.
  destruct (total_toks + list_sum batch_output_len);
    [|destruct (total_seqs + length batch_output_len)];
    cbn [snd]; intros H; inversion H; reflexivity.
Qed.

Lemma script_val_pass_state t :
  fst (val_pass_T t)
  = after_val forward_infer model_loss (Train.val_iterator t)
              (Train.set_val_loss PyFloat.zero (Train.set_training false t)).
Proof.
  pose proof (val_pass_state forward_infer model_loss t) as H.
  destruct (Train.val_iterator t) as [|b bs].
  - rewrite H. cbn [fst]. apply script_ext; simpl; rewrite ?app_nil_r; reflexivity.
  - destruct H as [totals H]. rewrite H. reflexivity.
Qed.

(** C6.  Validation updates nothing: [Solver.validate] and the validation
    pass of [train.py] leave the parameters, the gradients and the state of
    the optimizer as they were, and every forward pass they make is in
    evaluation mode with gradients disabled.  The validation loss is the
    loss the training step computes, the criterion on the scores and the
    targets from the second decoding step on, summed over the batches (and
    divided by their number in [Solver.validate]). *)
Theorem C6_validation_is_read_only (s : Solver.solver BS)
        (it : list Solver.batch) (t : Train.script BT) :
  let s' := fst (validate_S it s) in
  let t' := fst (val_pass_T t) in
  (Solver.params s' = Solver.params s /\
   Solver.grads s' = Solver.grads s /\
   Solver.optimizer s' = Solver.optimizer s /\
   Solver.ops s' = Solver.ops s ++ repeat (Forward false false) (length it) /\
   snd (validate_S it s)
   = match it with
     | [] => Raise ZeroDivisionError
     | _ :: _ =>
         Ok (PyFloat.div
               (fold_left
                  (fun acc b =>
                     PyFloat.add acc
                       (scored_loss (Solver.criterion s)
                                    (forward false (Solver.params s)
                                             (Solver.src b) (Solver.trg b))
                                    (Solver.trg b)))
                  it PyFloat.zero)
               (PyFloat.of_Z (Z.of_nat (length it))))
     end /\
   forall b,
     snd (step_S b s)
     = Ok (scored_loss (Solver.criterion s)
                       (forward (Solver.training s) (Solver.params s)
                                (Solver.src b) (Solver.trg b))
                       (Solver.trg b))) /\
  (Train.params t' = Train.params t /\
   Train.grads t' = Train.grads t /\
   Train.optimizer t' = Train.optimizer t /\
   Train.ops t'
   = Train.ops t ++ repeat (Forward false false) (length (Train.val_iterator t)) /\
   Train.val_loss t'
   = fold_left
       (fun v b =>
          PyFloat.add v
            (Torch.item
               (model_loss
                  (snd (forward_infer false (Train.params t) b
                                      (Train.target_sos_idx t)
                                      (Z.of_nat (length (fst (Train.b_trg b))) - 1)))
                  (fst (Train.b_trg b)) (Train.criterion t))))
       (Train.val_iterator t) PyFloat.zero /\
   forall acc b r,
     snd (step_T acc b t) = Ok r ->
     fst (fst (fst r))
     = PyFloat.add (fst (fst acc))
         (Torch.item (model_loss (forward_train (Train.training t)
                                                      (Train.params t) b)
                                       (fst (Train.b_trg b))
                                       (Train.criterion t)))).
Proof.
  cbv zeta. split.
  - rewrite solver_validate. cbn [fst snd]. simpl.
    repeat split.
    unfold validation_value. destruct it as [|b it]; reflexivity.
  - rewrite script_val_pass_state. simpl.
    repeat split. intros acc b r. apply script_step_loss.
Qed.

(** C7.  A training step of either driver makes its calls in one order:
    the forward pass, then [zero_grad], then [backward], then the clipping
    of the gradient norm, then the step of the optimizer.  So the gradients
    the optimizer consumes are those of the batch, added to cleared ones,
    and clipped to the threshold.  In [Solver.train_epoch] the loss is the
    criterion on [output[1:]] and [trg[1:]]: it does not depend on the first
    decoding step of the scores or of the target. *)
Theorem C7_training_step_order (s : Solver.solver BS) (b : Solver.batch)
        (t : Train.script BT) (acc : float * nat * nat) (tb : Train.batch) :
  let s' := fst (step_S b s) in
  let t' := fst (step_T acc tb t) in
  let gs := stepped_grads BS (Solver.grads s)
                          (solver_gradient (Solver.training s) (Solver.params s) b)
                          (Solver.clip (Solver.args s)) in
  let gt := stepped_grads BT (Train.grads t)
                          (gradient (Train.training t) (Train.params t) tb)
                          (Train.grad_clip (Train.args t)) in
  (Solver.ops s'
   = Solver.ops s ++ [Forward (Solver.training s) true; ZeroGrad; Backward;
                      ClipGradNorm (Solver.clip (Solver.args s));
                      OptimizerStep] /\
   Solver.grads s' = gs /\
   (Solver.optimizer s', Solver.params s')
   = Adam_step BS (Solver.optimizer s) (Solver.params s) gs) /\
  (Train.ops t'
   = Train.ops t ++ [Forward (Train.training t) true; ZeroGrad; Backward;
                     ClipGradNorm (Train.grad_clip (Train.args t));
                     OptimizerStep] /\
   Train.grads t' = gt /\
   (Train.optimizer t', Train.params t')
   = Adam_step BT (Train.optimizer t) (Train.params t) gt) /\
  snd (step_S b s)
  = Ok (Torch.item
          (Solver.criterion s
             (concat (tl (forward (Solver.training s) (Solver.params s)
                                  (Solver.src b) (Solver.trg b))))
             (concat (tl (Solver.trg b))))) /\
  (forall criterion output output' trg trg',
      tl output = tl output' -> tl trg = tl trg' ->
      scored_loss criterion output trg = scored_loss criterion output' trg').
Proof.
  cbv zeta. rewrite solver_train_step, train_step_state.
  unfold stepped_grads. cbn [fst snd]. simpl.
  repeat split.
  - destruct (Adam_step BS _ _ _); reflexivity.
  - destruct (Adam_step BT _ _ _); reflexivity.
  - intros criterion output output' trg trg' Ho Ht.
    unfold scored_loss, from1. rewrite Ho, Ht. reflexivity.
Qed.
End Passes.

(** ** The checkpoint store *)

Section CheckpointStore.
Variable BS : Backend.
Variable lstm2lstm_baseline : nat -> nat -> Params BS.
Variable forward : bool -> Params BS -> ids -> ids -> scores.
Variable solver_gradient : bool -> Params BS -> Solver.batch -> Grads BS.
Variable train_data_loader :
  string -> string -> string -> nat -> nat ->
  Field * Field * list Solver.batch * list Solver.batch.

Variable BT : Backend.
Variable new_model : string -> nat -> nat -> Params BT.
Variable load_data :
  Train.Args -> Field * Field * list Train.batch * list Train.batch.

Variable nll : list float -> nat -> float.

Local Abbreviation train_S := (@Solver.train BS forward solver_gradient).
Local Abbreviation init_S :=
  (@Solver.init_training BS lstm2lstm_baseline train_data_loader nll).
Local Abbreviation setup_T := (@Train.setup BT new_model nll load_data).


Lemma append_eqb_prefix (d x y : string) :
  String.eqb (d ++ x) (d ++ y) = String.eqb x y.
Proof.
  induction d as [|c d IH]; simpl; [reflexivity|].
  rewrite Ascii.eqb_refl. exact IH.
Qed.

Lemma param_path_is_not_metadata (dir : string) :
  String.eqb (path_join dir "model.pth") (path_join dir "model_dict.pkl") = false.
Proof.
  unfold path_join. rewrite append_eqb_prefix. reflexivity.
Qed.


End CheckpointStore.

(** ** Inference *)

Section Inference.
Variable B : Backend.
Variable model_translate : Params B -> ids -> nat -> list (list nat).

Local Abbreviation decode_loop := (@Solver.decode_loop B model_translate).

(** C2 fails on the code.  The decoding loop of [Solver.translate] ends
    with [break]: whatever the test set is, the sequences decoded are those
    of its first batch.  On a test file of two sentences read in batches of
    one, a single line is written, not two. *)
Theorem C2_translate_decodes_first_batch_only (model : Params B) (sos_tok : nat)
        (test_it : list ids) (fs : files (Params B)) :
  decode_loop model sos_tok test_it fs
  = (fs, Ok match test_it with
            | [] => []
            | src :: _ => model_translate model src sos_tok
            end) /\
  length (Demo.test_data_loader "test.de" Demo.vocabulary 1) = 2 /\
  snd Demo.run_translate = Ok ["a b"%string] /\
  last (fst Demo.run_translate) (Makedirs "")
  = WriteFile "data/output.en" (Text ("a b" ++ Solver.newline)).
Proof.
  split.
  - unfold Solver.decode_loop, enumerate.
    destruct test_it as [|src rest]; reflexivity.
  - vm_compute. repeat split.
Qed.
End Inference.

(** ** The criterion and padding *)

Section Padding.
Variable nll : list float -> nat -> float.

Lemma kept_all_padding pad : forall (input : list (list float)) (target : list nat),
  Forall (Logic.eq pad) target -> Torch.kept pad input target = [].
Proof.
  unfold Torch.kept.
  induction input as [|row input IH]; intros target Hall; [reflexivity|].
  destruct target as [|t target]; [reflexivity|].
  inversion Hall; subst. simpl. rewrite Nat.eqb_refl. simpl.
  apply IH. assumption.
Qed.

Lemma combine_append (X Y : Type) : forall (l1 : list X) (l1' : list Y) l2 l2',
  length l1 = length l1' ->
  combine (l1 ++ l2) (l1' ++ l2') = combine l1 l1' ++ combine l2 l2'.
Proof.
  induction l1 as [|x l1 IH]; intros [|y l1'] l2 l2' H; simpl in *;
    try discriminate; [reflexivity|].
  rewrite IH by congruence. reflexivity.
Qed.

Lemma kept_skips_padding pad (pre post : list (list float)) row
      (tpre tpost : list nat) :
  length pre = length tpre ->
  Torch.kept pad (pre ++ row :: post) (tpre ++ pad :: tpost)
  = Torch.kept pad (pre ++ post) (tpre ++ tpost).
Proof.
  intros Hlen. unfold Torch.kept.
  rewrite !combine_append by assumption.
  rewrite !filter_app. simpl. rewrite Nat.eqb_refl. reflexivity.
Qed.

Variable BS : Backend.
Variable lstm2lstm_baseline : nat -> nat -> Params BS.
Variable train_data_loader :
  string -> string -> string -> nat -> nat ->
  Field * Field * list Solver.batch * list Solver.batch.
Variable BT : Backend.
Variable new_model : string -> nat -> nat -> Params BT.
Variable load_data :
  Train.Args -> Field * Field * list Train.batch * list Train.batch.

Local Abbreviation init_S :=
  (@Solver.init_training BS lstm2lstm_baseline train_data_loader nll).
Local Abbreviation setup_T := (@Train.setup BT new_model nll load_data).

Lemma solver_criterion a fs0 :
  Solver.criterion (init_S a fs0)
  = Torch.CrossEntropyLoss nll
      (stoi (Solver.trg_field (init_S a fs0))
            (pad_token (Solver.trg_field (init_S a fs0))))
      Torch.Mean.
Proof.
  unfold Solver.init_training.
  destruct (train_data_loader _ _ _ _ _) as [[[src trg] ti] vi]. reflexivity.
Qed.

Lemma script_criterion a fs0 :
  Train.criterion (setup_T a fs0)
  = Torch.CrossEntropyLoss nll
      (stoi (snd (fst (fst (load_data a))))
            (pad_token (snd (fst (fst (load_data a))))))
      Torch.Sum.
Proof.
  unfold Train.setup.
  destruct (load_data a) as [[[source target] ti] vi]. reflexivity.
Qed.

Lemma kept_row_of_padding pad (pre post : list (list float)) row row'
      (tpre tpost : list nat) :
  length pre = length tpre ->
  Torch.kept pad (pre ++ row :: post) (tpre ++ pad :: tpost)
  = Torch.kept pad (pre ++ row' :: post) (tpre ++ pad :: tpost).
Proof.
  intros Hlen.
  rewrite !(kept_skips_padding pad pre post _ tpre tpost Hlen). reflexivity.
Qed.

(** C5, as amended.  The criterion of either driver leaves out the
    positions whose target is the padding token: the scores the network
    gives at such a position do not enter the loss, which is the same
    whatever they are.  On targets that are all padding the summed
    criterion of [train.py] gives the loss zero, whatever the scores are,
    and the averaged criterion of [Solver] gives a loss that is not a
    number, the mean of no position. *)
Theorem C5_padding_is_left_out (a : Train.Args) (fs0 : files (Params BT))
        (a' : Solver.Args) (fs0' : files (Params BS)) :
  let pad_T := stoi (snd (fst (fst (load_data a))))
                    (pad_token (snd (fst (fst (load_data a))))) in
  let s := init_S a' fs0' in
  let pad_S := stoi (Solver.trg_field s) (pad_token (Solver.trg_field s)) in
  (forall (input : list (list float)) (target : list nat),
      Forall (Logic.eq pad_T) target ->
      Torch.item (Train.criterion (setup_T a fs0) input target)
      = PyFloat.zero) /\
  (forall (output : scores) (trg : ids),
      Forall (Logic.eq pad_S) (view_flat (from1 trg)) ->
      scored_loss (Solver.criterion s) output trg = PyFloat.nan) /\
  (forall (pre post : list (list float)) (row row' : list float)
          (tpre tpost : list nat),
      length pre = length tpre ->
      Train.criterion (setup_T a fs0) (pre ++ row :: post)
                      (tpre ++ pad_T :: tpost)
      = Train.criterion (setup_T a fs0) (pre ++ row' :: post)
                        (tpre ++ pad_T :: tpost) /\
      Solver.criterion s (pre ++ row :: post) (tpre ++ pad_S :: tpost)
      = Solver.criterion s (pre ++ row' :: post) (tpre ++ pad_S :: tpost)).
Proof.
  cbv zeta. split; [|split].
  - intros input target HT.
    rewrite script_criterion. unfold Torch.CrossEntropyLoss, Torch.loss_sum.
    rewrite (kept_all_padding _ HT). reflexivity.
  - intros output trg HS.
    unfold scored_loss. rewrite solver_criterion.
    unfold Torch.CrossEntropyLoss, Torch.loss_sum.
    rewrite (kept_all_padding _ HS). reflexivity.
  - intros pre post row row' tpre tpost Hlen.
    rewrite script_criterion, solver_criterion.
    unfold Torch.CrossEntropyLoss, Torch.loss_sum.
    rewrite !(kept_row_of_padding _ pre post row row' tpre tpost Hlen).
    split; reflexivity.
Qed.
End Padding.

(** C5, as the specification states it, fails on [Solver]: on a batch whose
    target is the start token followed by padding, the loss of the training
    step is not a number, and so is not zero. *)
Lemma C5_solver_loss_of_padding_is_nan :
  let loss := snd (@Solver.train_step Demo.backend (Demo.forward [7%Z])
                                      Demo.solver_gradient Demo.padded_batch
                                      (Demo.solver_init 1)) in
  Forall (Logic.eq 1) (view_flat (from1 (Solver.trg Demo.padded_batch))) /\
  stoi Demo.vocabulary (pad_token Demo.vocabulary) = 1 /\
  loss = Ok PyFloat.nan /\
  loss <> Ok PyFloat.zero.
Proof.
  vm_compute. repeat split; try discriminate.
  repeat constructor.
Qed.

Lemma C5_padding_is_left_out_witness :
  let input := [[Demo.f32 3]; [Demo.f32 4]] in
  let s := Demo.solver_init 1 in
  let t := @Train.setup Demo.backend Demo.new_model Demo.nll
                        Demo.load_data (Demo.train_args 1 1) [] in
  Torch.item (Train.criterion t input [1; 1]) = PyFloat.zero /\
  scored_loss (Solver.criterion s) (Demo.scored (Demo.f32 7))
              (Solver.trg Demo.padded_batch) = PyFloat.nan /\
  Train.criterion t [[Demo.f32 3]; [Demo.f32 4]] [3; 1]
  = Train.criterion t [[Demo.f32 3]; [Demo.f32 9]] [3; 1] /\
  Train.criterion t [[Demo.f32 3]; [Demo.f32 4]] [3; 1] = Demo.f32 3.
Proof.
  cbv zeta. unfold Demo.solver_init.
  destruct (@C5_padding_is_left_out
              Demo.nll Demo.backend Demo.lstm2lstm_baseline
              Demo.train_data_loader Demo.backend Demo.new_model
              Demo.load_data (Demo.train_args 1 1) [] (Demo.solver_args 1) [])
    as [H1 [H2 H3]].
  split; [|split; [|split]].
  - apply H1. simpl. repeat constructor.
  - apply H2. simpl. repeat constructor.
  - apply (H3 [[Demo.f32 3]] [] [Demo.f32 4] [Demo.f32 9] [3] []).
    reflexivity.
  - vm_compute. reflexivity.
Defined.

(** * More of the drivers *)

(** ** The files *)

Section FileFacts.
Variable P : Type.

Lemma read_file_app (fs ws : files P) (path : string) :
  read_file (fs ++ ws) path
  = match read_file ws path with
    | Some c => Some c
    | None => read_file fs path
    end.
Proof.
  unfold read_file. rewrite fold_left_app.
  generalize (fold_left
                (fun found ev =>
                   match ev with
                   | Makedirs _ => found
                   | WriteFile p c => if String.eqb p path then Some c else found
                   end) fs None).
  induction ws as [|ev ws IH] using rev_ind; intros found.
  - destruct found; reflexivity.
  - rewrite !fold_left_app. simpl.
    destruct ev as [d|p c].
    + apply IH.
    + destruct (String.eqb p path); [reflexivity|apply IH].
Qed.

Lemma read_file_written (fs : files P) (path : string) (c : content P) :
  read_file (fs ++ [WriteFile path c]) path = Some c.
Proof.
  rewrite read_file_app. unfold read_file. simpl.
  rewrite String.eqb_refl. reflexivity.
Qed.
End FileFacts.

(** ** [Solver.translate] *)

Section Translate.
Variable B : Backend.
Variable lstm2lstm_baseline : nat -> nat -> Params B.
Variable model_translate : Params B -> ids -> nat -> list (list nat).
Variable test_data_loader : string -> Field -> nat -> list ids.

Local Abbreviation translate :=
  (@Solver.translate B lstm2lstm_baseline model_translate test_data_loader).
Local Abbreviation decode_loop := (@Solver.decode_loop B model_translate).
Local Abbreviation load_pickle := (@Solver.load_pickle B).
Local Abbreviation torch_load := (@Solver.torch_load B).

Lemma decode_loop_decoded model sos_tok test_it (fs : files (Params B)) :
  decode_loop model sos_tok test_it fs
  = (fs, Ok (decoded model_translate model sos_tok test_it)).
Proof.
  unfold Solver.decode_loop, enumerate, decoded.
  destruct test_it as [|src rest]; reflexivity.
Qed.

Lemma to_tokens_result (S : Type) trg : forall (x : list nat) (s : S),
  Solver.to_tokens trg x s
  = (s, if forallb (fun tok => tok <? length (itos trg)) x
        then Ok (tokens_of trg x) else Raise IndexError).
Proof.
  induction x as [|tok x IH]; intros s; simpl; [reflexivity|].
  destruct (Nat.ltb_spec tok (length (itos trg))) as [Hlt | Hge].
  - destruct (nth_error (itos trg) tok) as [w|] eqn:E.
    + unfold bind. rewrite IH. simpl.
      destruct (forallb _ x); [|reflexivity].
      unfold ret. rewrite (nth_error_nth _ _ _ E). reflexivity.
    + apply nth_error_None in E. lia.
  - destruct (nth_error (itos trg) tok) as [w|] eqn:E; [|reflexivity].
    assert (tok < length (itos trg)) by (apply nth_error_Some; congruence).
    lia.
Qed.

Lemma map_tokens_result (S : Type) trg : forall (seqs : list (list nat)) (s : S),
  Solver.map_tokens trg seqs s
  = (s, if in_vocab trg seqs then Ok (map (tokens_of trg) seqs)
        else Raise IndexError).
Proof.
  unfold in_vocab.
  induction seqs as [|x seqs IH]; intros s; simpl; [reflexivity|].
  unfold bind. rewrite to_tokens_result.
  destruct (forallb _ x); simpl; [|reflexivity].
  rewrite IH. destruct (forallb _ seqs); reflexivity.
Qed.

(** What [translate] comes to, file by file and token by token. *)
Lemma translate_cases (a : Solver.Args) (fh : string) (fs : files (Params B)) :
  translate a fh fs
  = match read_file fs (path_join (Solver.ckp_path a) "model_dict.pkl") with
    | None => (fs, Raise FileNotFoundError)
    | Some (Pickled d) =>
        match read_file fs (path_join (Solver.ckp_path a) "model.pth") with
        | None => (fs, Raise FileNotFoundError)
        | Some (StateDict p) =>
            let seqs :=
              decoded model_translate p (stoi (target_vocab d) "<sos>")
                      (test_data_loader fh (source_vocab d) (Solver.batch_size a)) in
            if in_vocab (target_vocab d) seqs then
              let lines := map Solver.detokenize
                               (map (tokens_of (target_vocab d)) seqs) in
              (fs ++ [WriteFile "data/output.en" (Text (Solver.written lines))],
               Ok lines)
            else (fs, Raise IndexError)
        | Some _ => (fs, Raise UnpicklingError)
        end
    | Some _ => (fs, Raise UnpicklingError)
    end.
Proof.
  unfold Solver.translate, Solver.load_pickle, Solver.torch_load.
  unfold bind at 1. unfold bind at 1, get at 1.
  destruct (read_file fs (path_join (Solver.ckp_path a) "model_dict.pkl"))
    as [[d|p|p|c|t]|]; try reflexivity.
  unfold ret at 1. cbv zeta.
  unfold bind at 1. unfold bind at 1, get at 1.
  destruct (read_file fs (path_join (Solver.ckp_path a) "model.pth"))
    as [[d'|p|p|c|t]|]; try reflexivity.
  unfold ret at 1.
  unfold bind at 1. rewrite decode_loop_decoded.
  unfold bind at 1. rewrite map_tokens_result.
  destruct (in_vocab _ _); reflexivity.
Qed.

(** X2.  Without the metadata bundle, or with it but without the
    parameter file, [translate] raises [FileNotFoundError]. *)
Theorem translate_needs_both_files (a : Solver.Args) (fh : string)
        (fs : files (Params B)) :
  read_file fs (path_join (Solver.ckp_path a) "model_dict.pkl") = None \/
  ((exists d, read_file fs (path_join (Solver.ckp_path a) "model_dict.pkl")
              = Some (Pickled d)) /\
   read_file fs (path_join (Solver.ckp_path a) "model.pth") = None) ->
  translate a fh fs = (fs, Raise FileNotFoundError).
Proof.
  intros H. rewrite translate_cases.
  destruct H as [H | [[d Hd] H]].
  - rewrite H. reflexivity.
  - rewrite Hd, H. reflexivity.
Qed.

(** X3.  The conversion of the decoded ids to words, the step of
    [translate] between the decoding and the joining of the words: when
    every id is an index of the target vocabulary, each sequence becomes
    the words at its ids, in order, one list for each sequence; when some
    id is not, [IndexError] is raised, in whichever sequence the id is, and
    no word list is produced, not even for the sequences before it.  The
    state is left as it was. *)
Theorem ids_become_words_or_index_error (S : Type) (trg : Field)
        (seqs : list (list nat)) (s : S) :
  Solver.map_tokens trg seqs s
  = (s, if forallb (forallb (fun tok => tok <? length (itos trg))) seqs
        then Ok (map (map (fun tok => nth tok (itos trg) EmptyString)) seqs)
        else Raise IndexError).
Proof.
  apply map_tokens_result.
Qed.
End Translate.

Section OutputText.

Lemma count_newlines_app (s1 s2 : string) :
  count_newlines (s1 ++ s2) = count_newlines s1 + count_newlines s2.
Proof.
  induction s1 as [|c s1 IH]; simpl; [reflexivity|].
  rewrite IH. lia.
Qed.

Lemma count_newlines_concat_space : forall (ws : list string),
  Forall (fun w => count_newlines w = 0) ws ->
  count_newlines (String.concat " " ws) = 0.
Proof.
  induction ws as [|w ws IH]; intros H; [reflexivity|].
  inversion H as [|w' ws' Hw Hws]; subst.
  destruct ws as [|w2 ws]; simpl; [exact Hw|].
  rewrite count_newlines_app, Hw. simpl.
  apply (IH Hws).
Qed.

Lemma count_newlines_concat_empty : forall (ls : list string),
  count_newlines (String.concat "" ls) = list_sum (map count_newlines ls).
Proof.
  induction ls as [|l ls IH]; [reflexivity|].
  destruct ls as [|l2 ls].
  - simpl. lia.
  - change (String.concat "" (l :: l2 :: ls))
      with (l ++ "" ++ String.concat "" (l2 :: ls))%string.
    rewrite !count_newlines_app, IH. simpl. lia.
Qed.

(** X4.  The text [translate] writes has exactly one line end for each
    line, provided no token of the vocabulary used holds a line end. *)
Theorem written_has_one_line_end_per_line (toks : list (list string)) :
  Forall (Forall (fun w => count_newlines w = 0)) toks ->
  count_newlines (Solver.written (map Solver.detokenize toks)) = length toks.
Proof.
  unfold Solver.written. rewrite count_newlines_concat_empty.
  induction toks as [|x toks IH]; intros H; [reflexivity|].
  inversion H as [|x' toks' Hx Htoks]; subst.
  simpl. rewrite count_newlines_app. unfold Solver.detokenize at 1.
  rewrite (count_newlines_concat_space Hx), (IH Htoks). reflexivity.
Qed.
End OutputText.

(** ** From [Solver.train] to [Solver.translate] *)

Section TrainThenTranslate.
Variable B : Backend.
Variable lstm2lstm_baseline : nat -> nat -> Params B.
Variable forward : bool -> Params B -> ids -> ids -> scores.
Variable gradient : bool -> Params B -> Solver.batch -> Grads B.
Variable model_translate : Params B -> ids -> nat -> list (list nat).
Variable train_data_loader :
  string -> string -> string -> nat -> nat ->
  Field * Field * list Solver.batch * list Solver.batch.
Variable test_data_loader : string -> Field -> nat -> list ids.
Variable nll : list float -> nat -> float.

Local Abbreviation train := (@Solver.train B forward gradient).
Local Abbreviation train_body := (@Solver.train_body B forward gradient).
Local Abbreviation init_training :=
  (@Solver.init_training B lstm2lstm_baseline train_data_loader nll).
Local Abbreviation translate :=
  (@Solver.translate B lstm2lstm_baseline model_translate test_data_loader).
Local Abbreviation is_param_write := (@is_param_write B).

Lemma init_training_metadata a fs0 :
  let s0 := init_training a fs0 in
  exists pre,
    Solver.fs s0
    = pre ++ [WriteFile (path_join (Solver.ckp_path a) "model_dict.pkl")
                (Pickled {| input_dim := vocab_len (Solver.src_field s0);
                            output_dim := vocab_len (Solver.trg_field s0);
                            source_vocab := Solver.src_field s0;
                            target_vocab := Solver.trg_field s0 |})] /\
    (forall path, read_file pre path = read_file fs0 path).
Proof.
  cbv zeta. unfold Solver.init_training.
  destruct (train_data_loader _ _ _ _ _) as [[[src trg] ti] vi]. simpl.
  eexists. split; [reflexivity|].
  intros path. destruct (dir_exists fs0 (Solver.ckp_path a)); [reflexivity|].
  rewrite read_file_app. reflexivity.
Qed.

Lemma param_writes_read dir (ws : files (Params B)) :
  forallb (is_param_write dir) ws = true ->
  read_file ws (path_join dir "model_dict.pkl") = None /\
  match ws with
  | [] => read_file ws (path_join dir "model.pth") = None
  | _ :: _ => exists p, read_file ws (path_join dir "model.pth")
                        = Some (StateDict p)
  end.
Proof.
  induction ws as [|ev ws IH] using rev_ind; intros H.
  - split; reflexivity.
  - rewrite forallb_app in H. apply andb_true_iff in H.
    destruct H as [Hws Hev]. simpl in Hev. rewrite andb_true_r in Hev.
    destruct ev as [d|path c]; [discriminate|].
    destruct c as [d|p|p|c|t]; try discriminate.
    apply String.eqb_eq in Hev. subst path.
    destruct (IH Hws) as [Hmeta _].
    split.
    + rewrite read_file_app. unfold read_file at 1. simpl.
      rewrite param_path_is_not_metadata. exact Hmeta.
    + destruct (ws ++ [WriteFile (path_join dir "model.pth") (StateDict p)])
        as [|e l] eqn:E.
      * destruct ws; discriminate.
      * rewrite <- E. exists p. apply read_file_written.
Qed.

(** X5.  The bundle that [translate] unpickles after a run of
    [init_training] and [train] is the one [init_training] pickled: the two
    vocabularies the model was trained with, and their sizes.  Nothing that
    [train] writes replaces it. *)
Theorem training_keeps_the_vocabularies (a : Solver.Args)
        (fs0 : files (Params B)) :
  let s0 := init_training a fs0 in
  let s1 := fst (train s0) in
  Solver.load_pickle B (path_join (Solver.ckp_path a) "model_dict.pkl")
                     (Solver.fs s1)
  = (Solver.fs s1,
     Ok {| input_dim := length (itos (Solver.src_field s0));
           output_dim := length (itos (Solver.trg_field s0));
           source_vocab := Solver.src_field s0;
           target_vocab := Solver.trg_field s0 |}).
Proof.
  cbv zeta.
  destruct (init_training_metadata a fs0) as [pre [Hfs _]].
  destruct (@solver_train_history B forward gradient (init_training a fs0))
    as [vs [_ [ws [Hws [Hall _]]]]].
  destruct (@init_training_fields B lstm2lstm_baseline train_data_loader nll
                                  a fs0) as [Ha _].
  rewrite Ha in Hall.
  destruct (param_writes_read _ _ Hall) as [Hmeta _].
  unfold Solver.load_pickle, bind, get.
  rewrite Hws, read_file_app, Hmeta, Hfs, read_file_written.
  reflexivity.
Qed.

Lemma no_saving_entry (h : list epoch_record) :
  persisted_epochs h = [] -> filter persisted h = [].
Proof.
  unfold persisted_epochs. destruct (filter persisted h); [reflexivity|discriminate].
Qed.

(** X6.  A run of [init_training] and [train] in which no epoch improved
    writes no parameter file: unless one was there before, [translate] then
    raises [FileNotFoundError]. *)
Theorem no_improvement_no_checkpoint (a : Solver.Args) (fs0 : files (Params B))
        (fh : string) :
  let s1 := fst (train (init_training a fs0)) in
  persisted_epochs (Solver.history s1) = [] ->
  read_file fs0 (path_join (Solver.ckp_path a) "model.pth") = None ->
  translate a fh (Solver.fs s1) = (Solver.fs s1, Raise FileNotFoundError).
Proof.
  cbv zeta. intros Hnone Hold.
  destruct (init_training_metadata a fs0) as [pre [Hfs Hpre]].
  destruct (@solver_train_history B forward gradient (init_training a fs0))
    as [vs [Hh [ws [Hws [Hall Hlen]]]]].
  destruct (@init_training_fields B lstm2lstm_baseline train_data_loader nll
                                  a fs0) as [Ha [_ [Hnil _]]].
  rewrite Hnil in Hh. simpl in Hh. rewrite Hh in Hnone.
  rewrite (no_saving_entry _ Hnone) in Hlen.
  destruct ws; [|discriminate]. rewrite app_nil_r in Hws.
  rewrite translate_cases, Hws, Hfs, read_file_written.
  rewrite read_file_app. unfold read_file at 1. simpl.
  rewrite String.eqb_sym, param_path_is_not_metadata, Hpre, Hold.
  reflexivity.
Qed.

(** X7.  A run of [init_training] and [train] in which some epoch improved
    leaves a parameter file that [torch.load] reads: the load of the
    parameters in [translate] does not fail. *)
Theorem improvement_leaves_a_checkpoint (a : Solver.Args)
        (fs0 : files (Params B)) :
  let s1 := fst (train (init_training a fs0)) in
  persisted_epochs (Solver.history s1) <> [] ->
  exists p,
    Solver.torch_load B (path_join (Solver.ckp_path a) "model.pth")
                      (Solver.fs s1)
    = (Solver.fs s1, Ok p).
Proof.
  cbv zeta. intros Hsome.
  destruct (@solver_train_history B forward gradient (init_training a fs0))
    as [vs [Hh [ws [Hws [Hall Hlen]]]]].
  destruct (@init_training_fields B lstm2lstm_baseline train_data_loader nll
                                  a fs0) as [Ha [_ [Hnil _]]].
  rewrite Hnil in Hh. simpl in Hh. rewrite Hh in Hsome.
  rewrite Ha in Hall.
  destruct (param_writes_read _ _ Hall) as [_ Hckp].
  destruct ws as [|w ws].
  { exfalso. apply Hsome. unfold persisted_epochs.
    destruct (filter persisted (solver_replay inf 1 vs)); [reflexivity|discriminate]. }
  destruct Hckp as [p Hp].
  exists p. unfold Solver.torch_load, bind, get.
  rewrite Hws, read_file_app, Hp. reflexivity.
Qed.
End TrainThenTranslate.

(** ** The parameter file and the last epoch *)

Section SolverCheckpoint.
Variable B : Backend.
Variable forward : bool -> Params B -> ids -> ids -> scores.
Variable gradient : bool -> Params B -> Solver.batch -> Grads B.

Local Abbreviation train_body := (@Solver.train_body B forward gradient).
Local Abbreviation train := (@Solver.train B forward gradient).

Lemma last_entry (A : Type) (l h h' : list A) (r r' : A) :
  l ++ h ++ [r] = l ++ h' ++ [r'] -> r = r'.
Proof.
  intros H. apply app_inv_head in H.
  apply app_inj_tail in H. apply H.
Qed.

Lemma no_entry (A : Type) (l h : list A) (r : A) : l <> l ++ h ++ [r].
Proof.
  intros H. apply (f_equal (@length A)) in H.
  rewrite !length_app in H. simpl in H. lia.
Qed.

Lemma solver_loop_last n : forall a best be s s' res,
  for_acc (seq a n) (best, be) train_body s = (s', res) ->
  forall h r,
    Solver.history s' = Solver.history s ++ h ++ [r] ->
    persisted r = true ->
    read_file (Solver.fs s')
              (path_join (Solver.ckp_path (Solver.args s)) "model.pth")
    = Some (StateDict (Solver.params s')).
Proof.
  induction n as [|n IH]; intros a best be s s' res Hl h r Hh Hp.
  - simpl in Hl. unfold ret in Hl. inversion Hl; subst s'.
    exfalso. eapply no_entry; exact Hh.
  - destruct (solver_train_body forward gradient best be a s)
      as [s1 [res1 [Hb [Hset Hcase]]]].
    cbn [seq for_acc] in Hl. unfold bind at 1 in Hl. rewrite Hb in Hl.
    destruct (Solver.train_iterator s) as [|tb tbs] eqn:Eti.
    { destruct Hcase as [Hr [Hh1 _]]. subst res1. inversion Hl; subst s'.
      rewrite Hh1 in Hh. exfalso. eapply no_entry; exact Hh. }
    destruct (Solver.val_iterator s) as [|vb vbs] eqn:Evi.
    { destruct Hcase as [Hr [Hh1 _]]. subst res1. inversion Hl; subst s'.
      rewrite Hh1 in Hh. exfalso. eapply no_entry; exact Hh. }
    destruct Hcase as [v Hcase]. cbv zeta in Hcase.
    destruct Hcase as [Hh1 [Hf1 [_ Hres]]].
    set (r1 := solver_decided best (a + 1) v) in *.
    subst res1.
    assert (Ha : Solver.args s1 = Solver.args s) by (destruct Hset; assumption).
    destruct n as [|m].
    + simpl in Hl. unfold ret in Hl. inversion Hl; subst s'.
      rewrite Hh1 in Hh.
      assert (Hr : r1 = r).
      { apply (@last_entry _ (Solver.history s) [] h). exact Hh. }
      rewrite Hf1, Hr, Hp. apply read_file_written.
    + assert (Ht1 : Solver.train_iterator s1 <> []).
      { destruct Hset as [_ [_ [H _]]]. rewrite H, Eti. discriminate. }
      assert (Hv1 : Solver.val_iterator s1 <> []).
      { destruct Hset as [_ [_ [_ H]]]. rewrite H, Evi. discriminate. }
      destruct (@solver_loop_replay B forward gradient (S m) (S a)
                                    (best_after r1)
                                    (if persisted r1 then a else be) s1 Ht1 Hv1)
        as [s2 [res2 [vs [Hloop [_ [Hlen [Hh2 _]]]]]]].
      rewrite Hloop in Hl. inversion Hl; subst s' res.
      assert (Hne : solver_replay (best_after r1) (S a + 1) vs <> []).
      { intros E. apply (f_equal (@length _)) in E.
        rewrite solver_replay_length, Hlen in E. discriminate. }
      destruct (exists_last Hne) as [h' [r' Hr']].
      rewrite <- Ha.
      apply (IH (S a) (best_after r1) (if persisted r1 then a else be)
                s1 s2 (Ok res2) Hloop h' r); [|exact Hp].
      rewrite Hh2, Hr'. f_equal. f_equal. f_equal.
      rewrite Hh2, Hr', Hh1, <- app_assoc in Hh.
      symmetry.
      apply (@last_entry _ (Solver.history s) h ([r1] ++ h')).
      rewrite <- app_assoc. symmetry. exact Hh.
Qed.

(** X8.  When the last epoch of a run of [Solver.train] improved the
    validation loss, the parameter file holds the parameters the network
    has at the end of the run: [torch.load] gives them back. *)
Theorem last_epoch_checkpoint_is_final (s : Solver.solver B)
        (h : list epoch_record) (r : epoch_record) :
  let s1 := fst (train s) in
  Solver.history s1 = Solver.history s ++ h ++ [r] ->
  persisted r = true ->
  Solver.torch_load B (path_join (Solver.ckp_path (Solver.args s)) "model.pth")
                    (Solver.fs s1)
  = (Solver.fs s1, Ok (Solver.params s1)).
Proof.
  cbv zeta. intros Hh Hp.
  unfold Solver.torch_load, bind, get.
  rewrite (@solver_loop_last (Z.to_nat (Solver.n_epochs (Solver.args s)))
                             0 inf 0 s (fst (train s)) (snd (train s))
                             ltac:(rewrite <- solver_train_unfold;
                                   apply surjective_pairing)
                             h r Hh Hp).
  reflexivity.
Qed.
End SolverCheckpoint.

(** ** train.py: the patience counter and the end of a run *)

Section TrainRuns.
Variable B : Backend.
Variable new_model : string -> nat -> nat -> Params B.
Variable forward_train : bool -> Params B -> Train.batch -> scores.
Variable forward_infer :
  bool -> Params B -> Train.batch -> nat -> Z -> ids * scores.
Variable gradient : bool -> Params B -> Train.batch -> Grads B.
Variable model_loss :
  scores -> ids -> (list (list float) -> list nat -> float) -> float.
Variable nll : list float -> nat -> float.
Variable load_data :
  Train.Args -> Field * Field * list Train.batch * list Train.batch.

Local Abbreviation script := (Train.script B).
Local Abbreviation epoch_body :=
  (@Train.epoch_body B forward_train forward_infer gradient model_loss).
Local Abbreviation main :=
  (@Train.main B new_model forward_train forward_infer gradient model_loss nll
               load_data).
Local Abbreviation setup := (@Train.setup B new_model nll load_data).

Lemma misses_cons (r : epoch_record) (h : list epoch_record) :
  misses (r :: h) = (if persisted r then 0 else 1) + misses h.
Proof.
  unfold misses. simpl. destruct (persisted r); reflexivity.
Qed.

Lemma counter_shift (pat : nat) (r : epoch_record)
      (rest : list (epoch_record * nat)) :
  map snd rest
  = map (fun k => (pat + (if persisted r then 0 else 1))
                  + misses (firstn (S k) (map fst rest)))
        (seq 0 (length rest)) ->
  (pat + (if persisted r then 0 else 1)) :: map snd rest
  = map (fun k => pat + misses (firstn (S k) (r :: map fst rest)))
        (seq 0 (S (length rest))).
Proof.
  intros IH. cbn [seq map].
  rewrite <- seq_shift, map_map. f_equal.
  - cbn [firstn]. rewrite misses_cons. unfold misses. simpl. lia.
  - rewrite IH. apply map_ext. intros k.
    change (firstn (S (S k)) (r :: map fst rest))
      with (r :: firstn (S k) (map fst rest)).
    rewrite misses_cons. lia.
Qed.

Lemma replay_counter limit : forall vs best pat e,
  map snd (replay limit best pat e vs)
  = map (fun k =>
           pat + misses (firstn (S k) (map fst (replay limit best pat e vs))))
        (seq 0 (length (replay limit best pat e vs))).
Proof.
  induction vs as [|v vs IH]; intros best pat e; [reflexivity|].
  cbn [replay]. unfold decided.
  destruct (PyFloat.le v best).
  - cbn [map length fst snd best_after].
    rewrite <- counter_shift; cbn [persisted].
    + rewrite Nat.add_0_r. reflexivity.
    + rewrite Nat.add_0_r. apply IH.
  - destruct (Z.leb limit (Z.of_nat (pat + 1))).
    + reflexivity.
    + cbn [map length fst snd best_after].
      rewrite <- counter_shift; cbn [persisted].
      * reflexivity.
      * apply IH.
Qed.

Lemma main_counter a fs0 :
  let s' := fst (main a fs0) in
  Train.patience_log s'
  = map (fun k => misses (firstn (S k) (Train.history s')))
        (seq 0 (length (Train.history s'))).
Proof.
  cbv zeta.
  pose proof (@main_replay B new_model forward_train forward_infer gradient
                           model_loss nll load_data a fs0) as Hm.
  cbv zeta in Hm. destruct Hm as [Hh [Hpl _]].
  rewrite Hpl, replay_counter.
  set (rp := replay _ _ _ _ _) in *.
  rewrite <- (length_map fst rp), <- Hh.
  reflexivity.
Qed.

(** A loop that ends without an exception ran all its epochs, or was left
    by an epoch that did not save and found the counter at the limit. *)
Lemma epoch_loop_ends n : forall a s,
  let s' := fst (for_each (seq a n) epoch_body s) in
  snd (for_each (seq a n) epoch_body s) = Ok tt ->
  length (Train.history s') = length (Train.history s) + n \/
  exists h r pl p,
    Train.history s' = h ++ [r] /\
    Train.patience_log s' = pl ++ [p] /\
    persisted r = false /\
    (Train.patience_limit (Train.args s) <= Z.of_nat p)%Z.
Proof.
  induction n as [|n IH]; intros a s; simpl.
  - intros _. left. lia.
  - unfold bind.
    pose proof (@epoch_body_cases B forward_train forward_infer gradient
                                  model_loss a s) as [Hset Hcase].
    destruct (epoch_body a s) as [s1 r1]; simpl in Hset, Hcase.
    destruct Hcase as [Hu | [v Hd]].
    + destruct Hu as [_ [_ [_ [_ [_ [x Hx]]]]]]. subst r1. simpl.
      discriminate.
    + unfold decided_on in Hd.
      destruct (decided (Train.patience_limit (Train.args s))
                        (Train.best_val_loss s) (Train.patience s) a v)
        as [[rec pat'] stop] eqn:Ed.
      simpl in Hd.
      destruct Hd as [Hh [Hp [_ [_ [_ [_ [Hstop Hgo]]]]]]].
      destruct stop.
      * rewrite (Hstop eq_refl). simpl. intros _. right.
        exists (Train.history s), rec, (Train.patience_log s), pat'.
        unfold decided in Ed.
        destruct (PyFloat.le v (Train.best_val_loss s)); inversion Ed.
        subst. simpl. repeat split; try assumption.
        apply Z.leb_le. assumption.
      * destruct (Hgo eq_refl) as [Hr | [x Hr]]; subst r1; simpl;
          [|discriminate].
        specialize (IH (S a) s1). simpl in IH.
        destruct (for_each (seq (S a) n) epoch_body s1) as [s2 r2].
        simpl in IH |- *. intros Hok.
        destruct (IH Hok) as [Hlen | Hout].
        -- left. rewrite Hlen, Hh, length_app. simpl. lia.
        -- right. destruct Hset as [Ha _]. rewrite <- Ha. exact Hout.
Qed.

Lemma main_ends a fs0 :
  let s' := fst (main a fs0) in
  snd (main a fs0) = Ok tt ->
  length (Train.history s') = Z.to_nat (Train.n_epochs a) \/
  exists h r,
    Train.history s' = h ++ [r] /\
    persisted r = false /\
    (Train.patience_limit a <= Z.of_nat (misses (Train.history s')))%Z.
Proof.
  cbv zeta. intros Hok.
  pose proof (main_counter a fs0) as Hc. cbv zeta in Hc.
  revert Hok Hc.
  unfold Train.main, Train.epoch_loop, bind, get, range.
  destruct (@setup_fields B new_model nll load_data a fs0)
    as [Ha [_ [_ [Hh _]]]].
  rewrite Ha.
  replace (Z.to_nat (Train.n_epochs a + 1 - 1)) with (Z.to_nat (Train.n_epochs a))
    by (f_equal; lia).
  change (Z.to_nat 1) with 1.
  intros Hok Hc.
  destruct (epoch_loop_ends (Z.to_nat (Train.n_epochs a)) 1 (setup a fs0) Hok)
    as [Hlen | [h [r [pl [p [Hh1 [Hp1 [Hr Hle]]]]]]]].
  - left. rewrite Hlen, Hh. reflexivity.
  - right. exists h, r. repeat split; try assumption.
    rewrite Ha in Hle.
    assert (Hp : p = misses (Train.history
                   (fst (for_each (seq 1 (Z.to_nat (Train.n_epochs a)))
                                  epoch_body (setup a fs0))))).
    { rewrite Hp1, Hh1 in Hc. rewrite Hh1.
      rewrite length_app in Hc. simpl length in Hc.
      rewrite Nat.add_1_r in Hc.
      rewrite seq_S, map_app in Hc. cbn [map Nat.add] in Hc.
      apply app_inj_tail in Hc. destruct Hc as [_ Hc]. rewrite Hc.
      rewrite firstn_all2; [reflexivity|].
      rewrite length_app. simpl. lia. }
    rewrite <- Hp. exact Hle.
Qed.

(** X10.  A run of [train.py] that ends without an exception either ran
    its [n_epochs] epochs, or was left by an epoch that did not save, with
    as many epochs that did not save as the patience allows. *)
Theorem run_ends_after_all_epochs_or_out_of_patience
        (a : Train.Args) (fs0 : files (Params B)) :
  let s' := fst (main a fs0) in
  snd (main a fs0) = Ok tt ->
  length (Train.history s') = Z.to_nat (Train.n_epochs a) \/
  exists h r,
    Train.history s' = h ++ [r] /\
    persisted r = false /\
    (Train.patience_limit a <= Z.of_nat (misses (Train.history s')))%Z.
Proof.
  exact (main_ends a fs0).
Qed.

Lemma misses_le (h : list epoch_record) : misses h <= length h.
Proof.
  unfold misses. apply filter_length_le.
Qed.

(** X11.  With a patience of at least the number of epochs, as with the
    defaults of the two options, the patience does not shorten a run: one
    that ends without an exception has decided all its [n_epochs]
    epochs. *)
Theorem patience_of_all_epochs_never_shortens
        (a : Train.Args) (fs0 : files (Params B)) :
  (Train.n_epochs a <= Train.patience_limit a)%Z ->
  snd (main a fs0) = Ok tt ->
  length (Train.history (fst (main a fs0))) = Z.to_nat (Train.n_epochs a).
Proof.
  intros Hle Hok.
  destruct (main_ends a fs0 Hok) as [Hlen | [h [r [_ [_ Hout]]]]];
    [exact Hlen|].
  pose proof (@main_replay B new_model forward_train forward_infer gradient
                           model_loss nll load_data a fs0) as Hm.
  cbv zeta in Hm. destruct Hm as [_ [_ [_ [Hn _]]]].
  rewrite length_map in Hn.
  pose proof (misses_le (Train.history (fst (main a fs0)))) as Hm.
  lia.
Qed.
End TrainRuns.

(** ** train.py: batches without tokens, and no validation batch *)

Section TrainEdges.
Variable B : Backend.
Variable new_model : string -> nat -> nat -> Params B.
Variable forward_train : bool -> Params B -> Train.batch -> scores.
Variable forward_infer :
  bool -> Params B -> Train.batch -> nat -> Z -> ids * scores.
Variable gradient : bool -> Params B -> Train.batch -> Grads B.
Variable model_loss :
  scores -> ids -> (list (list float) -> list nat -> float) -> float.
Variable nll : list float -> nat -> float.
Variable load_data :
  Train.Args -> Field * Field * list Train.batch * list Train.batch.

Local Abbreviation script := (Train.script B).
Local Abbreviation train_step :=
  (@Train.train_step B forward_train gradient model_loss).
Local Abbreviation train_pass :=
  (@Train.train_pass B forward_train gradient model_loss).
Local Abbreviation val_pass := (@Train.val_pass B forward_infer model_loss).
Local Abbreviation epoch_body :=
  (@Train.epoch_body B forward_train forward_infer gradient model_loss).
Local Abbreviation main :=
  (@Train.main B new_model forward_train forward_infer gradient model_loss nll
               load_data).
Local Abbreviation setup := (@Train.setup B new_model nll load_data).
Local Abbreviation after_step := (@after_step B gradient).

Lemma train_step_value al tt ts b s :
  snd (train_step (al, tt, ts) b s)
  = match tt + list_sum (snd (Train.b_trg b)) with
    | O => Raise ZeroDivisionError
    | S _ =>
        match ts + length (snd (Train.b_trg b)) with
        | O => Raise ZeroDivisionError
        | S _ =>
            Ok (PyFloat.add al
                  (Torch.item
                     (model_loss (forward_train (Train.training s)
                                                (Train.params s) b)
                                 (fst (Train.b_trg b)) (Train.criterion s))),
                tt + list_sum (snd (Train.b_trg b)),
                ts + length (snd (Train.b_trg b)), Continue)
        end
    end.
Proof.
  unfold Train.train_step.
  destruct (Train.b_trg b) as [batch_output_seq batch_output_len].
  unfold bind, get, modify, ret, Train.py_div, raise.
  cbv beta iota. cbn [fst snd].
  destruct (tt + list_sum batch_output_len);
    [reflexivity|destruct (ts + length batch_output_len); reflexivity].
Qed.

Lemma train_step_pair acc b s :
  train_step acc b s = (after_step b s, snd (train_step acc b s)).
Proof.
  rewrite <- (@train_step_state B forward_train gradient model_loss acc b s).
  apply surjective_pairing.
Qed.

(** Once a token and a sentence were counted, no batch raises. *)
Lemma train_loop_goes_on xs : forall al tt ts s,
  0 < tt -> 0 < ts ->
  exists a, snd (for_acc xs (al, tt, ts) train_step s) = Ok a.
Proof.
  induction xs as [|b bs IH]; intros al tt ts s Ht Hs.
  - eexists. reflexivity.
  - cbn [for_acc]. unfold bind at 1.
    rewrite (train_step_pair (al, tt, ts) b s), train_step_value.
    destruct (tt + list_sum (snd (Train.b_trg b))) as [|n] eqn:En; [lia|].
    destruct (ts + length (snd (Train.b_trg b))) as [|m] eqn:Em; [lia|].
    apply IH; lia.
Qed.

Lemma list_sum_length (l : list nat) : 0 < list_sum l -> 0 < length l.
Proof.
  destruct l; simpl; lia.
Qed.

Lemma train_pass_unfold s :
  train_pass s
  = (fst (for_acc (Train.train_iterator s) (PyFloat.zero, 0, 0) train_step
                  (Train.set_training true s)),
     match snd (for_acc (Train.train_iterator s) (PyFloat.zero, 0, 0)
                        train_step (Train.set_training true s)) with
     | Ok _ => Ok tt
     | Raise e => Raise e
     end).
Proof.
  unfold Train.train_pass, bind, modify, get, ret.
  change (Train.train_iterator (Train.set_training true s))
    with (Train.train_iterator s).
  destruct (for_acc _ _ _ _) as [s1 [r|e]]; reflexivity.
Qed.

Lemma train_pass_value s :
  match Train.train_iterator s with
  | [] => train_pass s = (Train.set_training true s, Ok tt)
  | b :: _ =>
      if list_sum (snd (Train.b_trg b)) =? 0
      then train_pass s
           = (after_step b (Train.set_training true s), Raise ZeroDivisionError)
      else snd (train_pass s) = Ok tt
  end.
Proof.
  rewrite train_pass_unfold.
  destruct (Train.train_iterator s) as [|b bs].
  - reflexivity.
  - cbn [for_acc]. unfold bind.
    rewrite train_step_pair, train_step_value.
    cbn [Nat.add].
    destruct (list_sum (snd (Train.b_trg b))) as [|n] eqn:En.
    + reflexivity.
    + cbn [Nat.eqb].
      pose proof (list_sum_length (snd (Train.b_trg b))) as Hl.
      destruct (length (snd (Train.b_trg b))) as [|m]; [lia|].
      match goal with
      | |- context [for_acc bs (?al, ?tt, ?ts) _ ?s1] =>
          destruct (train_loop_goes_on bs al s1 (tt:=tt) (ts:=ts)) as [a Ha];
            [lia|lia|]
      end.
      cbn [snd]. rewrite Ha. reflexivity.
Qed.

(** X12.  Only the first batch of an epoch can make the training of
    [train.py] fail: when it holds no target token, the average per token
    raises [ZeroDivisionError], after the optimisation step on that batch
    was taken; otherwise the pass over the batches ends without an
    exception. *)
Theorem training_fails_on_an_empty_first_batch_only (s : Train.script B) :
  match Train.train_iterator s with
  | [] => train_pass s = (Train.set_training true s, Ok tt)
  | b :: _ =>
      if list_sum (snd (Train.b_trg b)) =? 0
      then train_pass s
           = (after_step b (Train.set_training true s), Raise ZeroDivisionError)
      else snd (train_pass s) = Ok tt
  end.
Proof.
  exact (train_pass_value s).
Qed.

Lemma train_pass_ok s :
  first_batch_empty (Train.train_iterator s) = false ->
  snd (train_pass s) = Ok tt.
Proof.
  intros H. pose proof (train_pass_value s) as Hv.
  destruct (Train.train_iterator s) as [|b bs].
  - rewrite Hv. reflexivity.
  - simpl in H. rewrite H in Hv. exact Hv.
Qed.

Lemma epoch_without_validation e s :
  Train.val_iterator s = [] ->
  first_batch_empty (Train.train_iterator s) = false ->
  exists s',
    epoch_body e s = (s', Raise ValueError) /\
    Train.history s' = Train.history s /\
    Train.fs s' = Train.fs s /\
    Train.ops s' = Train.ops s ++ train_ops s.
Proof.
  intros Hv Ht.
  unfold Train.epoch_body.
  unfold bind at 1, modify at 1. unfold bind at 1.
  pose proof (@train_pass_frame B forward_train gradient model_loss
                                (Train.set_epoch e s)) as Hf.
  pose proof (train_pass_ok (Train.set_epoch e s) Ht) as Hok.
  destruct (train_pass (Train.set_epoch e s)) as [s1 r1] eqn:Et.
  simpl in Hok. subst r1.
  unfold policy_frame in Hf. simpl in Hf.
  destruct Hf as [Ha [Hti [Hvi [He [Hpat [Hb [Hfs [Hh Hpl]]]]]]]].
  apply (@train_pass_ops B forward_train gradient model_loss) in Et.
  simpl in Et.
  unfold bind at 1.
  pose proof (@val_pass_state B forward_infer model_loss s1) as Hval.
  rewrite Hvi, Hv in Hval. rewrite Hval.
  eexists. split; [reflexivity|].
  simpl. repeat split; assumption.
Qed.

(** X13.  Without a validation batch, the first epoch of [train.py] trains
    on all its batches and then raises [ValueError], from the draw of the
    batch to print: no epoch is decided and no model is saved. *)
Theorem no_validation_batch_stops_the_first_epoch
        (a : Train.Args) (fs0 : files (Params B)) :
  Train.val_iterator (setup a fs0) = [] ->
  first_batch_empty (Train.train_iterator (setup a fs0)) = false ->
  (1 <= Train.n_epochs a)%Z ->
  snd (main a fs0) = Raise ValueError /\
  Train.history (fst (main a fs0)) = [] /\
  Train.fs (fst (main a fs0)) = Train.fs (setup a fs0) /\
  Train.ops (fst (main a fs0)) = train_ops (setup a fs0).
Proof.
  intros Hv Ht Hn.
  unfold Train.main, Train.epoch_loop, bind, get, range.
  destruct (@setup_fields B new_model nll load_data a fs0)
    as [Ha [_ [_ [Hh [_ Ho]]]]].
  rewrite Ha.
  replace (Z.to_nat (Train.n_epochs a + 1 - 1)) with (Z.to_nat (Train.n_epochs a))
    by (f_equal; lia).
  change (Z.to_nat 1) with 1.
  destruct (Z.to_nat (Train.n_epochs a)) as [|n] eqn:En; [lia|].
  destruct (epoch_without_validation 1 (setup a fs0) Hv Ht)
    as [s1 [Hr [Hh1 [Hf1 Ho1]]]].
  assert (Hrun : for_each (seq 1 (S n)) epoch_body (setup a fs0)
                 = (s1, Raise ValueError)).
  { cbn [seq for_each]. unfold bind. rewrite Hr. reflexivity. }
  rewrite Hrun. cbn [fst snd].
  rewrite Hh1, Hf1, Ho1, Hh, Ho. repeat split.
Qed.

Lemma filter_persisted_length (h : list epoch_record) :
  length (persisted_epochs h) = length (filter persisted h).
Proof.
  unfold persisted_epochs. apply length_map.
Qed.

End TrainEdges.

(** ** train.py: the samples *)

Section SamplingFacts.
Variable P : Type.
Variable read_lines : string -> option (list string).
Variable shuffle : list (string * string) -> list (string * string).

Local Abbreviation sample := (@Sampling.sample P read_lines shuffle).

Lemma combine_seq_firstn (X : Type) : forall (n start : nat) (data : list X),
  map snd (combine (seq start n) data) = firstn n data.
Proof.
  induction n as [|n IH]; intros start data; [reflexivity|].
  destruct data as [|x data]; [reflexivity|].
  simpl. rewrite IH. reflexivity.
Qed.

(** Pairing the data with a range takes the data from its start, whatever
    the range starts at. *)
Lemma zipped_firstn (a b : Z) (data : list (string * string)) :
  Sampling.zipped a b data = firstn (Z.to_nat (b - a)) data.
Proof.
  unfold Sampling.zipped, range. apply combine_seq_firstn.
Qed.

Lemma sample_value (a : Sampling.Args) (fs : files P) (n k : Z)
      (src tgt : list string) :
  Sampling.sample_size a = Some n ->
  n <> 0%Z ->
  read_lines (Sampling.train_path a ++ ".de") = Some src ->
  read_lines (Sampling.train_path a ++ ".en") = Some tgt ->
  Sampling.split_point n (Sampling.split_ratio a) = inr k ->
  let data := shuffle (combine src tgt) in
  let train := firstn (Z.to_nat k) data in
  let dev := firstn (Z.to_nat (n - k)) data in
  let file := fun name lang : string =>
                path_join (Sampling.exp_dir a) (name ++ lang) in
  sample a fs
  = (fs ++ [WriteFile (file "train.sample_data."%string
                            (Sampling.training_source_lang a))
                      (Sampling.lines_written P (map fst train));
            WriteFile (file "train.sample_data."%string
                            (Sampling.training_target_lang a))
                      (Sampling.lines_written P (map snd train));
            WriteFile (file "dev.sample_data."%string
                            (Sampling.training_source_lang a))
                      (Sampling.lines_written P (map fst dev));
            WriteFile (file "dev.sample_data."%string
                            (Sampling.training_target_lang a))
                      (Sampling.lines_written P (map snd dev))],
     inr ((Sampling.exp_dir a ++ "/train.sample_data")%string,
          (Sampling.exp_dir a ++ "/dev.sample_data")%string)).
Proof.
  intros Hn Hn0 Hs Ht Hk. cbv zeta.
  unfold Sampling.sample. rewrite Hn.
  destruct (Z.eqb_spec n 0) as [E|_]; [contradiction|].
  rewrite Hs, Ht, Hk. cbv zeta.
  rewrite !zipped_firstn, Z.sub_0_r. reflexivity.
Qed.

Lemma firstn_prefix (X : Type) (m k : nat) (data : list X) :
  m <= k -> exists rest, firstn k data = firstn m data ++ rest.
Proof.
  intros Hle. exists (skipn m (firstn k data)).
  rewrite <- (firstn_skipn m (firstn k data)) at 1.
  rewrite firstn_firstn, Nat.min_l by exact Hle. reflexivity.
Qed.

(** X15.  The pairs of a sample are taken from the start of the shuffled
    pairs whatever the range starts at: [zip(range(a, b), supervised_data)]
    yields the first [b - a] pairs.  So the development pairs, taken with
    [range(k, sample_size)], are the first [sample_size - k] pairs, not the
    pairs that follow the [k] training pairs; when there are at most [k] of
    them they are an initial part of the training pairs. *)
Theorem samples_are_taken_from_the_start
        (a b : Z) (supervised_data : list (string * string)) :
  Sampling.zipped a b supervised_data
  = firstn (Z.to_nat (b - a)) supervised_data /\
  (forall n k : Z,
      (n - k <= k)%Z ->
      exists rest,
        Sampling.zipped 0 k supervised_data
        = Sampling.zipped k n supervised_data ++ rest).
Proof.
  split; [apply zipped_firstn|].
  intros n k Hle. rewrite !zipped_firstn, Z.sub_0_r.
  apply firstn_prefix. lia.
Qed.

Lemma concat_empty_app (l1 l2 : list string) :
  String.concat "" (l1 ++ l2)
  = (String.concat "" l1 ++ String.concat "" l2)%string.
Proof.
  induction l1 as [|x l1 IH]; [reflexivity|].
  destruct l1 as [|y l1].
  - simpl. destruct l2 as [|z l2]; simpl.
    + clear. induction x as [|c x IHx]; simpl; [reflexivity|].
      rewrite <- IHx. reflexivity.
    + reflexivity.
  - change (String.concat "" ((x :: y :: l1) ++ l2))
      with (x ++ "" ++ String.concat "" ((y :: l1) ++ l2))%string.
    change (String.concat "" (x :: y :: l1))
      with (x ++ "" ++ String.concat "" (y :: l1))%string.
    rewrite IH. simpl.
    clear. induction x as [|c x IHx]; simpl; [reflexivity|].
    rewrite IHx. reflexivity.
Qed.

Lemma text_prefix (X : Type) (f : X -> string) (m k : nat) (data : list X) :
  m <= k ->
  exists rest,
    String.concat "" (map f (firstn k data))
    = (String.concat "" (map f (firstn m data)) ++ rest)%string.
Proof.
  intros Hle. destruct (firstn_prefix data Hle) as [rest Hr].
  exists (String.concat "" (map f rest)).
  rewrite Hr, map_app. apply concat_empty_app.
Qed.

Lemma sample_path_differs (dir x y : string) :
  String.eqb (path_join dir ("train.sample_data." ++ x))
             (path_join dir ("dev.sample_data." ++ y)) = false.
Proof.
  unfold path_join. rewrite append_eqb_prefix. reflexivity.
Qed.

Lemma sample_path_same (dir name x y : string) :
  String.eqb (path_join dir (name ++ x)) (path_join dir (name ++ y))
  = String.eqb x y.
Proof.
  unfold path_join. rewrite append_eqb_prefix. simpl.
  apply append_eqb_prefix.
Qed.

Lemma read_four (p1 p2 p3 p4 q : string) (c1 c2 c3 c4 : content P) :
  read_file [WriteFile p1 c1; WriteFile p2 c2; WriteFile p3 c3;
             WriteFile p4 c4] q
  = if String.eqb p4 q then Some c4
    else if String.eqb p3 q then Some c3
    else if String.eqb p2 q then Some c2
    else if String.eqb p1 q then Some c1 else None.
Proof.
  unfold read_file. simpl.
  destruct (String.eqb p4 q), (String.eqb p3 q), (String.eqb p2 q),
    (String.eqb p1 q); reflexivity.
Qed.

Lemma read_samples (a : Sampling.Args) (fs : files P)
      (c1 c2 c3 c4 : content P) (lang : string) :
  let file := fun name l : string =>
                path_join (Sampling.exp_dir a) (name ++ l) in
  let sl := Sampling.training_source_lang a in
  let tl := Sampling.training_target_lang a in
  let fs' := fs ++ [WriteFile (file "train.sample_data."%string sl) c1;
                    WriteFile (file "train.sample_data."%string tl) c2;
                    WriteFile (file "dev.sample_data."%string sl) c3;
                    WriteFile (file "dev.sample_data."%string tl) c4] in
  lang = sl \/ lang = tl ->
  (read_file fs' (file "train.sample_data."%string lang) = Some c1 /\
   read_file fs' (file "dev.sample_data."%string lang) = Some c3) \/
  (read_file fs' (file "train.sample_data."%string lang) = Some c2 /\
   read_file fs' (file "dev.sample_data."%string lang) = Some c4).
Proof.
  cbv zeta. intros Hlang.
  rewrite !read_file_app, !read_four.
  rewrite !sample_path_same.
  rewrite (String.eqb_sym (path_join _ ("dev.sample_data." ++ _))
                          (path_join _ ("train.sample_data." ++ _))).
  rewrite (String.eqb_sym (path_join _ ("dev.sample_data." ++ _))
                          (path_join _ ("train.sample_data." ++ _))).
  rewrite !sample_path_differs.
  destruct (String.eqb (Sampling.training_target_lang a) lang) eqn:Et.
  - right. split; reflexivity.
  - destruct Hlang as [H|H]; subst lang.
    + rewrite String.eqb_refl. left. split; reflexivity.
    + rewrite String.eqb_refl in Et. discriminate.
Qed.

(** X16.  When the split leaves the development sample no larger than the
    training sample (as a ratio of 0.8 does), the development sample holds
    no pair that the training sample does not hold: in each language, the
    development file written is an initial part of the training file. *)
Theorem dev_sample_starts_the_train_sample
        (a : Sampling.Args) (fs : files P) (n k : Z) (src tgt : list string)
        (lang : string) :
  Sampling.sample_size a = Some n ->
  n <> 0%Z ->
  read_lines (Sampling.train_path a ++ ".de") = Some src ->
  read_lines (Sampling.train_path a ++ ".en") = Some tgt ->
  Sampling.split_point n (Sampling.split_ratio a) = inr k ->
  (n - k <= k)%Z ->
  lang = Sampling.training_source_lang a \/
  lang = Sampling.training_target_lang a ->
  exists dev rest,
    read_file (fst (sample a fs))
              (path_join (Sampling.exp_dir a) ("dev.sample_data." ++ lang))
    = Some (Text dev) /\
    read_file (fst (sample a fs))
              (path_join (Sampling.exp_dir a) ("train.sample_data." ++ lang))
    = Some (Text (dev ++ rest)).
Proof.
  intros Hn Hn0 Hs Ht Hk Hle Hlang.
  rewrite (@sample_value a fs n k src tgt Hn Hn0 Hs Ht Hk).
  cbv zeta. cbn [fst].
  assert (Hm : Z.to_nat (n - k) <= Z.to_nat k) by lia.
  unfold Sampling.lines_written.
  match goal with
  | |- context [fs ++ [WriteFile _ ?c1; WriteFile _ ?c2;
                       WriteFile _ ?c3; WriteFile _ ?c4]] =>
      destruct (@read_samples a fs c1 c2 c3 c4 lang Hlang)
        as [[H1 H3]|[H2 H4]]
  end.
  - destruct (text_prefix (@fst string string)
                          (shuffle (combine src tgt)) Hm) as [rest Hr].
    eexists. exists rest. rewrite H1, H3, Hr. split; reflexivity.
  - destruct (text_prefix (@snd string string)
                          (shuffle (combine src tgt)) Hm) as [rest Hr].
    eexists. exists rest. rewrite H2, H4, Hr. split; reflexivity.
Qed.

End SamplingFacts.

(** ** The properties above on the scripted runs *)

Lemma translate_needs_both_files_witness :
  @Solver.translate Demo.backend Demo.lstm2lstm_baseline Demo.model_translate
                    Demo.test_data_loader (Demo.solver_args 2) "test.de" []
  = ([], Raise FileNotFoundError).
Proof.
  apply (@translate_needs_both_files
           Demo.backend Demo.lstm2lstm_baseline Demo.model_translate
           Demo.test_data_loader (Demo.solver_args 2) "test.de" []).
  left. reflexivity.
Defined.

Lemma written_has_one_line_end_per_line_witness :
  count_newlines
    (Solver.written (map Solver.detokenize [["a"; "b"]; ["c"]]%string))
  = 2.
Proof.
  apply (@written_has_one_line_end_per_line [["a"; "b"]; ["c"]]%string).
  repeat constructor.
Defined.

(** A data set whose validation targets are padding only: the loss of
    every epoch is NaN, which is below no best loss. *)
Lemma no_improvement_no_checkpoint_witness :
  let loader := fun (_ _ _ : string) (_ _ : nat) =>
                  (Demo.vocabulary, Demo.vocabulary,
                   [Demo.solver_batch], [Demo.padded_batch]) in
  let s1 := fst (@Solver.train
                   Demo.backend (Demo.forward [5; 3]%Z) Demo.solver_gradient
                   (@Solver.init_training Demo.backend Demo.lstm2lstm_baseline
                                          loader Demo.nll
                                          (Demo.solver_args 2) [])) in
  length (Solver.history s1) = 2 /\
  persisted_epochs (Solver.history s1) = [] /\
  @Solver.translate Demo.backend Demo.lstm2lstm_baseline Demo.model_translate
                    Demo.test_data_loader (Demo.solver_args 2) "test.de"
                    (Solver.fs s1)
  = (Solver.fs s1, Raise FileNotFoundError).
Proof.
  cbv zeta.
  split; [vm_compute; reflexivity|].
  split; [vm_compute; reflexivity|].
  apply (@no_improvement_no_checkpoint
           Demo.backend Demo.lstm2lstm_baseline (Demo.forward [5; 3]%Z)
           Demo.solver_gradient Demo.model_translate
           (fun (_ _ _ : string) (_ _ : nat) =>
              (Demo.vocabulary, Demo.vocabulary,
               [Demo.solver_batch], [Demo.padded_batch]))
           Demo.test_data_loader Demo.nll (Demo.solver_args 2) [] "test.de").
  - vm_compute; reflexivity.
  - reflexivity.
Defined.

Lemma improvement_leaves_a_checkpoint_witness :
  let s1 := fst (Demo.run_solver [5; 3]%Z 2) in
  persisted_epochs (Solver.history s1) = [1; 2] /\
  exists p,
    Solver.torch_load Demo.backend (path_join "ckp" "model.pth") (Solver.fs s1)
    = (Solver.fs s1, Ok p).
Proof.
  cbv zeta. split; [vm_compute; reflexivity|].
  apply (@improvement_leaves_a_checkpoint
           Demo.backend Demo.lstm2lstm_baseline (Demo.forward [5; 3]%Z)
           Demo.solver_gradient Demo.train_data_loader Demo.nll
           (Demo.solver_args 2) []).
  vm_compute. discriminate.
Defined.

Lemma last_epoch_checkpoint_is_final_witness :
  let s1 := fst (Demo.run_solver [5; 3]%Z 2) in
  map persisted (Solver.history s1) = [true; true] /\
  Solver.torch_load Demo.backend (path_join "ckp" "model.pth") (Solver.fs s1)
  = (Solver.fs s1, Ok (Solver.params s1)).
Proof.
  cbv zeta. split; [vm_compute; reflexivity|].
  apply (@last_epoch_checkpoint_is_final
           Demo.backend (Demo.forward [5; 3]%Z) Demo.solver_gradient
           (Demo.solver_init 2)
           (removelast (Solver.history (fst (Demo.run_solver [5; 3]%Z 2))))
           (last (Solver.history (fst (Demo.run_solver [5; 3]%Z 2)))
                 {| ep := 0; vloss := inf; persisted := false;
                    best_after := inf |})).
  - vm_compute; reflexivity.
  - vm_compute; reflexivity.
Defined.

Lemma run_ends_after_all_epochs_or_out_of_patience_witness :
  let run := Demo.run_train [5; 6; 7; 1]%Z 10 2 in
  snd run = Ok tt /\
  (length (Train.history (fst run)) = 10 \/
   exists h r,
     Train.history (fst run) = h ++ [r] /\
     persisted r = false /\
     (2 <= Z.of_nat (misses (Train.history (fst run))))%Z).
Proof.
  cbv zeta. split; [vm_compute; reflexivity|].
  apply (@run_ends_after_all_epochs_or_out_of_patience
           Demo.backend Demo.new_model Demo.forward_train
           (Demo.forward_infer [5; 6; 7; 1]%Z) Demo.gradient Demo.model_loss
           Demo.nll Demo.load_data (Demo.train_args 10 2) []).
  vm_compute; reflexivity.
Defined.

Lemma patience_of_all_epochs_never_shortens_witness :
  let run := Demo.run_train [5; 6; 7; 8]%Z 4 4 in
  snd run = Ok tt /\
  Train.patience_log (fst run) = [0; 1; 2; 3] /\
  length (Train.history (fst run)) = 4.
Proof.
  cbv zeta. split; [vm_compute; reflexivity|].
  split; [vm_compute; reflexivity|].
  apply (@patience_of_all_epochs_never_shortens
           Demo.backend Demo.new_model Demo.forward_train
           (Demo.forward_infer [5; 6; 7; 8]%Z) Demo.gradient Demo.model_loss
           Demo.nll Demo.load_data (Demo.train_args 4 4) []).
  - vm_compute; discriminate.
  - vm_compute; reflexivity.
Defined.

(** A data set without a validation batch. *)
Lemma no_validation_batch_stops_the_first_epoch_witness :
  let loader := fun _ : Train.Args =>
                  (Demo.vocabulary, Demo.vocabulary,
                   [Demo.train_batch], @nil Train.batch) in
  let run := @Train.main Demo.backend Demo.new_model Demo.forward_train
                         (Demo.forward_infer [5; 3]%Z) Demo.gradient
                         Demo.model_loss Demo.nll loader
                         (Demo.train_args 3 10) [] in
  snd run = Raise ValueError /\
  Train.history (fst run) = [] /\
  length (Train.ops (fst run)) = 5.
Proof.
  cbv zeta.
  destruct (@no_validation_batch_stops_the_first_epoch
              Demo.backend Demo.new_model Demo.forward_train
              (Demo.forward_infer [5; 3]%Z) Demo.gradient Demo.model_loss
              Demo.nll
              (fun _ : Train.Args =>
                 (Demo.vocabulary, Demo.vocabulary,
                  [Demo.train_batch], @nil Train.batch))
              (Demo.train_args 3 10) [])
    as [H1 [H2 [_ H4]]].
  - reflexivity.
  - reflexivity.
  - vm_compute; discriminate.
  - split; [exact H1|]. split; [exact H2|]. rewrite H4. reflexivity.
Defined.

(** The pairs that [range(4, 5)] takes of six pairs: the first one. *)
Lemma samples_are_taken_from_the_start_witness :
  let data := combine (corpus_lines "de") (corpus_lines "en") in
  Sampling.zipped 4 5 data = firstn 1 data /\
  exists rest, Sampling.zipped 0 4 data = Sampling.zipped 4 5 data ++ rest.
Proof.
  cbv zeta.
  destruct (@samples_are_taken_from_the_start
              4 5 (combine (corpus_lines "de") (corpus_lines "en")))
    as [H1 H2].
  split; [exact H1|]. apply H2. lia.
Defined.

Lemma dev_sample_starts_the_train_sample_witness :
  let fs' := fst (@Sampling.sample nat corpus (@rev (string * string))
                                   (sampling_args 5) []) in
  exists dev rest,
    read_file fs' (path_join "experiments/test" "dev.sample_data.de")
    = Some (Text dev) /\
    read_file fs' (path_join "experiments/test" "train.sample_data.de")
    = Some (Text (dev ++ rest)).
Proof.
  cbv zeta.
  apply (@dev_sample_starts_the_train_sample
           nat corpus (@rev (string * string)) (sampling_args 5) [] 5 4
           (corpus_lines "de") (corpus_lines "en") "de").
  - reflexivity.
  - discriminate.
  - reflexivity.
  - reflexivity.
  - vm_compute; reflexivity.
  - vm_compute; discriminate.
  - left. reflexivity.
Defined.

(** ** train.py: an epoch, on the variables of the script *)

Section TrainEpoch.
Variable B : Backend.
Variable new_model : string -> nat -> nat -> Params B.
Variable forward_train : bool -> Params B -> Train.batch -> scores.
Variable forward_infer :
  bool -> Params B -> Train.batch -> nat -> Z -> ids * scores.
Variable gradient : bool -> Params B -> Train.batch -> Grads B.
Variable model_loss :
  scores -> ids -> (list (list float) -> list nat -> float) -> float.
Variable nll : list float -> nat -> float.
Variable load_data :
  Train.Args -> Field * Field * list Train.batch * list Train.batch.

Local Abbreviation script := (Train.script B).
Local Abbreviation train_pass :=
  (@Train.train_pass B forward_train gradient model_loss).
Local Abbreviation val_pass := (@Train.val_pass B forward_infer model_loss).
Local Abbreviation checkpoint := (@Train.checkpoint B).
Local Abbreviation epoch_body :=
  (@Train.epoch_body B forward_train forward_infer gradient model_loss).
Local Abbreviation main :=
  (@Train.main B new_model forward_train forward_infer gradient model_loss nll
               load_data).
Local Abbreviation setup := (@Train.setup B new_model nll load_data).

(** An epoch with validation batches, whose training does not fail, comes
    to the decision: what it leaves is what [checkpoint] leaves of the
    state [s2] after the validation, and the report changes nothing. *)
Lemma epoch_body_decision e s :
  Train.val_iterator s <> [] ->
  first_batch_empty (Train.train_iterator s) = false ->
  exists s2,
    fst (epoch_body e s) = fst (checkpoint s2) /\
    s2 = fst (val_pass (fst (train_pass (Train.set_epoch e s)))) /\
    Train.args s2 = Train.args s /\
    Train.epoch s2 = e /\
    Train.best_val_loss s2 = Train.best_val_loss s /\
    Train.patience s2 = Train.patience s /\
    Train.fs s2 = Train.fs s /\
    Train.history s2 = Train.history s /\
    Train.patience_log s2 = Train.patience_log s /\
    Train.ops s2 = Train.ops s ++ epoch_ops s.
Proof.
  intros Hv Ht.
  unfold Train.epoch_body.
  unfold bind at 1, modify at 1. unfold bind at 1.
  pose proof (train_pass_frame forward_train gradient model_loss
                               (Train.set_epoch e s)) as Hf.
  pose proof (train_pass_ok forward_train gradient model_loss
                            (Train.set_epoch e s) Ht) as Hok.
  destruct (train_pass (Train.set_epoch e s)) as [s1 r1] eqn:Et.
  simpl in Hok. subst r1. cbn [fst].
  unfold policy_frame in Hf. simpl in Hf.
  destruct Hf as [Ha [Hti [Hvi [He [Hpat [Hb [Hfs [Hh Hpl]]]]]]]].
  apply (train_pass_ops forward_train gradient model_loss) in Et.
  simpl in Et.
  unfold bind at 1.
  pose proof (val_pass_state forward_infer model_loss s1) as Hval.
  destruct (Train.val_iterator s1) as [|b bs] eqn:Ev; [congruence|].
  destruct Hval as [totals Hval]. rewrite Hval. cbn [fst].
  set (s2 := after_val forward_infer model_loss (b :: bs) _).
  exists s2. split.
  - unfold bind at 1.
    destruct (checkpoint s2) as [s3 [c|x]] eqn:Ec; cbn [fst];
      [|reflexivity].
    destruct c; [|reflexivity].
    unfold bind at 1.
    pose proof (report_state totals s3) as Hrs.
    destruct (Train.report totals s3) as [s4 [u|x]]; simpl in Hrs; subst s4;
      reflexivity.
  - split; [reflexivity|].
    unfold epoch_ops, train_ops. rewrite <- Hvi.
    subst s2; simpl. rewrite Et. unfold train_ops; simpl.
    rewrite <- app_assoc.
    repeat split; congruence.
Qed.

(** What an epoch that comes to the decision does to the variables of the
    script, to the files and to the two records, in terms of the
    validation loss [v] it has computed. *)
Lemma epoch_body_step e s :
  Train.val_iterator s <> [] ->
  first_batch_empty (Train.train_iterator s) = false ->
  let s' := fst (epoch_body e s) in
  let v := Train.val_loss s' in
  let saves := PyFloat.le v (Train.best_val_loss s) in
  v = Train.val_loss (fst (val_pass (fst (train_pass (Train.set_epoch e s)))))
  /\ Train.best_val_loss s' = (if saves then v else Train.best_val_loss s)
  /\ Train.patience s'
     = (if saves then Train.patience s else Train.patience s + 1)
  /\ Train.fs s'
     = Train.fs s
       ++ (if saves
           then [WriteFile "experiments/test/model.pkl"
                           (WholeModel (Train.params s'))]
           else [])
  /\ Train.history s'
     = Train.history s
       ++ [{| ep := e; vloss := v; persisted := saves;
              best_after := Train.best_val_loss s' |}]
  /\ Train.patience_log s' = Train.patience_log s ++ [Train.patience s']
  /\ Train.ops s' = Train.ops s ++ epoch_ops s.
Proof.
  intros Hv Ht.
  destruct (epoch_body_decision e s Hv Ht)
    as [s2 [Hs' [Hs2 [Ha [He [Hb [Hp [Hf [Hh [Hpl Ho]]]]]]]]]].
  cbv zeta. rewrite Hs', <- Hs2. clear Hs' Hs2.
  rewrite checkpoint_state, Hb.
  destruct (PyFloat.le (Train.val_loss s2) (Train.best_val_loss s)) eqn:Ele;
    cbn [fst]; simpl;
    rewrite Ele, ?Hp, ?Hf, ?Hh, ?Hpl, ?Ho, ?He, ?Hb, ?app_nil_r;
    repeat split; reflexivity.
Qed.

Lemma last_cons_default (A : Type) (l : list A) : forall (x d : A),
  last (x :: l) d = last l x.
Proof.
  induction l as [|y l IH]; intros x d; [reflexivity|].
  change (last (x :: y :: l) d) with (last (y :: l) d).
  rewrite (IH y d), (IH y x). reflexivity.
Qed.

Lemma last_app_default (A : Type) (l1 l2 : list A) : forall d : A,
  last (l1 ++ l2) d = last l2 (last l1 d).
Proof.
  induction l1 as [|x l1 IH]; intros d; [reflexivity|].
  rewrite <- app_comm_cons, !last_cons_default. apply IH.
Qed.

Lemma misses_app (h1 h2 : list epoch_record) :
  misses (h1 ++ h2) = misses h1 + misses h2.
Proof.
  unfold misses. rewrite filter_app, length_app. reflexivity.
Qed.

Local Abbreviation tracks := (@tracks B).

Lemma tracks_refl s : tracks s s.
Proof.
  exists []. rewrite app_nil_r. unfold misses. simpl.
  repeat split. lia.
Qed.

Lemma tracks_trans s1 s2 s3 : tracks s1 s2 -> tracks s2 s3 -> tracks s1 s3.
Proof.
  intros [h1 [H1 [B1 P1]]] [h2 [H2 [B2 P2]]].
  exists (h1 ++ h2).
  rewrite H2, H1, B2, B1, P2, P1, map_app, last_app_default, misses_app,
    <- app_assoc.
  repeat split. lia.
Qed.

Lemma epoch_body_tracks e s : tracks s (fst (epoch_body e s)).
Proof.
  pose proof (@epoch_body_cases B forward_train forward_infer gradient
                                model_loss e s) as [_ Hcase].
  cbv zeta in Hcase.
  destruct Hcase as [Hu | [v Hd]].
  - destruct Hu as [Hh [_ [Hb [Hp _]]]].
    exists []. rewrite app_nil_r. unfold misses. simpl.
    repeat split; try assumption. lia.
  - unfold decided_on in Hd. cbv zeta in Hd.
    destruct Hd as [Hh [_ [Hb [Hp _]]]].
    eexists. split; [exact Hh|].
    rewrite Hb, Hp. unfold decided, misses.
    destruct (PyFloat.le v (Train.best_val_loss s)); simpl;
      split; try reflexivity; lia.
Qed.

Lemma main_tracks a fs0 :
  let s' := fst (main a fs0) in
  Train.best_val_loss s' = last (map best_after (Train.history s')) inf /\
  Train.patience s' = misses (Train.history s').
Proof.
  cbv zeta.
  unfold Train.main, Train.epoch_loop, bind, get.
  destruct (@setup_fields B new_model nll load_data a fs0)
    as [_ [Hp [Hb [Hh _]]]].
  destruct (for_each_preserves tracks epoch_body tracks_refl tracks_trans
                               epoch_body_tracks
                               (range 1 (Train.n_epochs
                                           (Train.args (setup a fs0)) + 1))
                               (setup a fs0))
    as [h [H1 [H2 H3]]].
  rewrite H1, H2, H3, Hh, Hb, Hp. simpl. split; reflexivity.
Qed.
End TrainEpoch.

(** ** solver.py: an epoch, and what [train] holds at the end *)

Section SolverEpoch.
Variable B : Backend.
Variable forward : bool -> Params B -> ids -> ids -> scores.
Variable gradient : bool -> Params B -> Solver.batch -> Grads B.

Local Abbreviation train_epoch := (@Solver.train_epoch B forward gradient).
Local Abbreviation validate := (@Solver.validate B forward).
Local Abbreviation train_body := (@Solver.train_body B forward gradient).
Local Abbreviation train := (@Solver.train B forward gradient).

(** An epoch of [Solver.train] on iterators that yield batches, in terms
    of the validation loss [v] that [validate] returns after the training
    of the epoch. *)
Lemma solver_epoch_step best be epoch s :
  Solver.train_iterator s <> [] ->
  Solver.val_iterator s <> [] ->
  exists v,
    snd (validate (Solver.val_iterator s) (fst (train_epoch s))) = Ok v /\
    let saves := PyFloat.lt v best in
    let s' := fst (train_body (best, be) epoch s) in
    snd (train_body (best, be) epoch s)
    = Ok (if saves then v else best, if saves then epoch else be, Continue) /\
    Solver.fs s'
    = Solver.fs s
      ++ (if saves
          then [WriteFile (path_join (Solver.ckp_path (Solver.args s))
                                     "model.pth")
                          (StateDict (Solver.params s'))]
          else []) /\
    Solver.history s'
    = Solver.history s
      ++ [{| ep := epoch + 1; vloss := v; persisted := saves;
             best_after := if saves then v else best |}] /\
    Solver.ops s' = Solver.ops s ++ solver_epoch_ops s /\
    solver_setting s s'.
Proof.
  intros Hti Hvi.
  destruct (solver_train_epoch forward gradient s) as [r1 [He Hr1]].
  destruct (solver_after_steps_frame gradient (Solver.train_iterator s)
                                     (Solver.set_training true s))
    as [[Ha [Hc [Ht [Hv [Hf Hh]]]]] [Htr Ho]].
  simpl in Ha, Hc, Ht, Hv, Hf, Hh, Htr, Ho.
  set (s1 := solver_after_steps gradient (Solver.train_iterator s)
                                (Solver.set_training true s)) in *.
  clearbody s1.
  destruct (Solver.train_iterator s) as [|tb tbs] eqn:Eti; [congruence|].
  destruct Hr1 as [l Hl]. subst r1.
  assert (Hval : exists v,
             validate (Solver.val_iterator s) s1
             = (solver_after_validate (Solver.val_iterator s)
                                      (Solver.set_training false s1), Ok v)).
  { rewrite (solver_validate forward). unfold validation_value.
    destruct (Solver.val_iterator s) as [|vb vbs]; [congruence|].
    eexists. reflexivity. }
  destruct Hval as [v Hval].
  exists v. split; [rewrite He; cbn [fst]; rewrite Hval; reflexivity|].
  set (s2 := solver_after_validate (Solver.val_iterator s)
                                   (Solver.set_training false s1)) in *.
  assert (Hs2 : solver_setting s s2 /\ Solver.history s2 = Solver.history s /\
                Solver.fs s2 = Solver.fs s /\
                Solver.ops s2 = Solver.ops s ++ solver_epoch_ops s).
  { subst s2. unfold solver_setting, solver_epoch_ops. simpl.
    rewrite Ho, Ha, Eti, <- app_assoc. simpl.
    repeat split; congruence. }
  clearbody s2. destruct Hs2 as [[Ha2 [Hc2 [Ht2 Hv2]]] [Hh2 [Hf2 Ho2]]].
  assert (Hbody :
    train_body (best, be) epoch s
    = if PyFloat.lt v best
      then (Solver.log_epoch
              {| ep := epoch + 1; vloss := v; persisted := true;
                 best_after := v |}
              (Solver.log_fs
                 (WriteFile (path_join (Solver.ckp_path (Solver.args s2))
                                       "model.pth")
                            (StateDict (Solver.params s2))) s2),
            Ok (v, epoch, Continue))
      else (Solver.log_epoch
              {| ep := epoch + 1; vloss := v; persisted := false;
                 best_after := best |} s2,
            Ok (best, be, Continue))).
  { unfold Solver.train_body. cbv zeta.
    unfold bind at 1. rewrite He.
    unfold bind at 1, get at 1. unfold bind at 1.
    rewrite Hv, Hval.
    destruct (PyFloat.lt v best); unfold bind, modify, ret; reflexivity. }
  cbv zeta. rewrite Hbody.
  destruct (PyFloat.lt v best); cbn [fst snd]; simpl;
    rewrite Hh2, Hf2, Ho2, ?Ha2, ?app_nil_r;
    repeat split; assumption.
Qed.

(** The loop of [Solver.train]: the two locals it carries are the best loss
    after the last entry, and the epoch, counted from 0, of the last entry
    that saved. *)
Lemma solver_loop_value n : forall a best be s,
  Solver.train_iterator s <> [] ->
  Solver.val_iterator s <> [] ->
  exists h,
    length h = n /\
    Solver.history (fst (for_acc (seq a n) (best, be) train_body s))
    = Solver.history s ++ h /\
    snd (for_acc (seq a n) (best, be) train_body s)
    = Ok (last (map best_after h) best,
          last (map (fun r => ep r - 1) (filter persisted h)) be).
Proof.
  induction n as [|n IH]; intros a best be s Hti Hvi.
  - exists []. simpl. rewrite app_nil_r. repeat split.
  - destruct (@solver_epoch_step best be a s Hti Hvi)
      as [v [_ [Hr [_ [Hh [_ Hset]]]]]].
    cbv zeta in Hr, Hh.
    assert (Ht1 : Solver.train_iterator
                    (fst (train_body (best, be) a s)) <> []).
    { destruct Hset as [_ [_ [H _]]]. rewrite H. exact Hti. }
    assert (Hv1 : Solver.val_iterator
                    (fst (train_body (best, be) a s)) <> []).
    { destruct Hset as [_ [_ [_ H]]]. rewrite H. exact Hvi. }
    destruct (IH (S a) (if PyFloat.lt v best then v else best)
                 (if PyFloat.lt v best then a else be)
                 (fst (train_body (best, be) a s)) Ht1 Hv1)
      as [h [Hlen [Hh2 Hr2]]].
    cbn [seq for_acc]. unfold bind.
    rewrite (surjective_pairing (train_body (best, be) a s)), Hr.
    eexists (_ :: h). split; [simpl; rewrite Hlen; reflexivity|].
    split.
    + rewrite Hh2, Hh, <- app_assoc. reflexivity.
    + rewrite Hr2. cbn [map filter persisted best_after].
      rewrite last_cons_default.
      destruct (PyFloat.lt v best); [|reflexivity].
      cbn [map ep]. rewrite last_cons_default, Nat.add_sub. reflexivity.
Qed.

Lemma solver_train_value s :
  Solver.train_iterator s <> [] ->
  Solver.val_iterator s <> [] ->
  exists h,
    length h = Z.to_nat (Solver.n_epochs (Solver.args s)) /\
    Solver.history (fst (train s)) = Solver.history s ++ h /\
    snd (train s)
    = Ok (last (map best_after h) inf,
          last (map (fun r => ep r - 1) (filter persisted h)) 0).
Proof.
  intros Hti Hvi. rewrite (solver_train_unfold forward gradient).
  apply solver_loop_value; assumption.
Qed.
End SolverEpoch.

(** ** train.py: the checkpoint policy on the variables of the script *)

Section TrainPolicy.
Variable B : Backend.
Variable new_model : string -> nat -> nat -> Params B.
Variable forward_train : bool -> Params B -> Train.batch -> scores.
Variable forward_infer :
  bool -> Params B -> Train.batch -> nat -> Z -> ids * scores.
Variable gradient : bool -> Params B -> Train.batch -> Grads B.
Variable model_loss :
  scores -> ids -> (list (list float) -> list nat -> float) -> float.
Variable nll : list float -> nat -> float.
Variable load_data :
  Train.Args -> Field * Field * list Train.batch * list Train.batch.

Local Abbreviation script := (Train.script B).
Local Abbreviation checkpoint := (@Train.checkpoint B).
Local Abbreviation epoch_body :=
  (@Train.epoch_body B forward_train forward_infer gradient model_loss).
Local Abbreviation main :=
  (@Train.main B new_model forward_train forward_infer gradient model_loss nll
               load_data).
Local Abbreviation setup := (@Train.setup B new_model nll load_data).

(** The files a run writes in its epochs: the model file, once for each
    entry that saved. *)
Lemma main_writes a fs0 :
  exists ws,
    Train.fs (fst (main a fs0)) = Train.fs (setup a fs0) ++ ws /\
    forallb (@is_model_write B) ws = true /\
    length ws = length (filter persisted (Train.history (fst (main a fs0)))).
Proof.
  unfold Train.main, Train.epoch_loop, bind, get, range.
  destruct (@setup_fields B new_model nll load_data a fs0)
    as [Ha [_ [_ [Hh _]]]].
  rewrite Ha.
  replace (Z.to_nat (Train.n_epochs a + 1 - 1)) with (Z.to_nat (Train.n_epochs a))
    by (f_equal; lia).
  change (Z.to_nat 1) with 1.
  pose proof (epoch_loop_replay forward_train forward_infer gradient
                                model_loss
                                (Z.to_nat (Train.n_epochs a))
                                1 (setup a fs0)) as [_ [vs H]].
  cbv zeta in H.
  destruct H as [_ [_ [Hhist [_ [[ws [Hws [Hall Hlen]]] _]]]]].
  rewrite Hh in Hhist. simpl in Hhist.
  exists ws. rewrite Hhist. repeat split; assumption.
Qed.

(** The run whose validation losses are 5.0, 3.0, 4.0 and 2.0. *)
Lemma run_5342 a fs0 :
  map vloss (Train.history (fst (main a fs0)))
  = map PyFloat.of_Z [5; 3; 4; 2]%Z ->
  Train.history (fst (main a fs0))
  = [{| ep := 1; vloss := PyFloat.of_Z 5; persisted := true;
        best_after := PyFloat.of_Z 5 |};
     {| ep := 2; vloss := PyFloat.of_Z 3; persisted := true;
        best_after := PyFloat.of_Z 3 |};
     {| ep := 3; vloss := PyFloat.of_Z 4; persisted := false;
        best_after := PyFloat.of_Z 3 |};
     {| ep := 4; vloss := PyFloat.of_Z 2; persisted := true;
        best_after := PyFloat.of_Z 2 |}] /\
  Train.patience_log (fst (main a fs0)) = [0; 0; 1; 1].
Proof.
  intros Hrun.
  pose proof (@main_replay B new_model forward_train forward_infer gradient
                           model_loss nll load_data a fs0) as Hm.
  cbv zeta in Hm. rewrite Hrun in Hm. destruct Hm as [Hh [Hpl [Hlen _]]].
  rewrite Hh, Hpl. clear Hh Hpl Hrun.
  simpl in Hlen |- *.
  destruct (Z.leb _ _); simpl in Hlen |- *; [discriminate|].
  split; reflexivity.
Qed.

(** C1, as amended.  When the validation loss of an epoch is at most the
    best loss recorded, [train.py] writes the model file, records the loss
    as the best one and leaves the patience counter as it is: the counter
    is never reset.  This holds of the decision itself, in any state, and
    of every whole epoch that comes to it.  Over a run whose validation
    losses are 5.0, 3.0, 4.0 and 2.0 the model is saved at the epochs 1, 2
    and 4 exactly (the model file is written three times), the counter
    after each epoch is 0, 0, 1, 1, and at the end the counter is 1 and the
    best loss 2.0. *)
Theorem C1_checkpoint_policy :
  (forall s : script,
      PyFloat.le (Train.val_loss s) (Train.best_val_loss s) = true ->
      Train.fs (fst (checkpoint s))
      = Train.fs s ++ [WriteFile "experiments/test/model.pkl"
                                 (WholeModel (Train.params s))] /\
      Train.best_val_loss (fst (checkpoint s)) = Train.val_loss s /\
      Train.patience (fst (checkpoint s)) = Train.patience s) /\
  (forall (e : nat) (s : script),
      Train.val_iterator s <> [] ->
      first_batch_empty (Train.train_iterator s) = false ->
      let s' := fst (epoch_body e s) in
      PyFloat.le (Train.val_loss s') (Train.best_val_loss s) = true ->
      Train.fs s'
      = Train.fs s ++ [WriteFile "experiments/test/model.pkl"
                                 (WholeModel (Train.params s'))] /\
      Train.best_val_loss s' = Train.val_loss s' /\
      Train.patience s' = Train.patience s) /\
  (forall (a : Train.Args) (fs0 : files (Params B)),
      let s' := fst (main a fs0) in
      map vloss (Train.history s') = map PyFloat.of_Z [5; 3; 4; 2]%Z ->
      persisted_epochs (Train.history s') = [1; 2; 4] /\
      Train.patience_log s' = [0; 0; 1; 1] /\
      Train.patience s' = 1 /\
      Train.best_val_loss s' = PyFloat.of_Z 2 /\
      exists ws,
        Train.fs s' = Train.fs (setup a fs0) ++ ws /\
        forallb (@is_model_write B) ws = true /\
        length ws = 3).
Proof.
  split; [|split].
  - intros s Hle. rewrite checkpoint_state, Hle. simpl. repeat split.
  - intros e s Hv Ht. cbv zeta. intros Hle.
    destruct (@epoch_body_step B forward_train forward_infer gradient
                               model_loss e s Hv Ht)
      as [_ [Hb [Hp [Hf _]]]].
    cbv zeta in Hb, Hp, Hf. rewrite Hle in Hb, Hp, Hf.
    repeat split; assumption.
  - intros a fs0. cbv zeta. intros Hrun.
    destruct (run_5342 a fs0 Hrun) as [Hh Hpl].
    destruct (@main_tracks B new_model forward_train forward_infer gradient
                           model_loss nll load_data a fs0) as [Hb Hp].
    destruct (main_writes a fs0) as [ws [Hws [Hall Hlen]]].
    rewrite Hh in Hb, Hp, Hlen.
    split; [rewrite Hh; reflexivity|].
    split; [exact Hpl|].
    split; [exact Hp|].
    split; [exact Hb|].
    exists ws. repeat split; assumption.
Qed.
End TrainPolicy.

Lemma C1_checkpoint_policy_witness :
  let run := Demo.run_train [5; 3; 4; 2]%Z 4 10 in
  let s := @Train.setup Demo.backend Demo.new_model Demo.nll Demo.load_data
                        (Demo.train_args 4 10) [] in
  let s1 := fst (@Train.epoch_body Demo.backend Demo.forward_train
                                   (Demo.forward_infer [5; 3; 4; 2]%Z)
                                   Demo.gradient Demo.model_loss 1 s) in
  (Train.val_loss s1 = PyFloat.of_Z 5 /\
   Train.fs s1
   = Train.fs s ++ [WriteFile "experiments/test/model.pkl" (WholeModel 1)] /\
   Train.best_val_loss s1 = PyFloat.of_Z 5 /\
   Train.patience s1 = 0) /\
  persisted_epochs (Train.history (fst run)) = [1; 2; 4] /\
  Train.patience_log (fst run) = [0; 0; 1; 1] /\
  Train.patience (fst run) = 1 /\
  Train.best_val_loss (fst run) = PyFloat.of_Z 2 /\
  count_writes "experiments/test/model.pkl" (Train.fs (fst run)) = 3.
Proof.
  cbv zeta. unfold Demo.run_train.
  destruct (@C1_checkpoint_policy Demo.backend Demo.new_model
              Demo.forward_train (Demo.forward_infer [5; 3; 4; 2]%Z)
              Demo.gradient Demo.model_loss Demo.nll Demo.load_data)
    as [_ [Hepoch Hrun]].
  split.
  - split; [vm_compute; reflexivity|].
    destruct (Hepoch 1 (@Train.setup Demo.backend Demo.new_model Demo.nll
                                     Demo.load_data (Demo.train_args 4 10) []))
      as [H1 [H2 H3]].
    + vm_compute; discriminate.
    + reflexivity.
    + vm_compute; reflexivity.
    + split; [rewrite H1; vm_compute; reflexivity|].
      split; [rewrite H2; vm_compute; reflexivity|].
      rewrite H3. reflexivity.
  - destruct (Hrun (Demo.train_args 4 10) []) as [H1 [H2 [H3 [H4 _]]]].
    + vm_compute; reflexivity.
    + split; [exact H1|]. split; [exact H2|]. split; [exact H3|].
      split; [exact H4|]. vm_compute. reflexivity.
Defined.

(** ** Both drivers: the best loss and the decision to save *)

Section PoliciesOnState.
Variable BS : Backend.
Variable lstm2lstm_baseline : nat -> nat -> Params BS.
Variable forward : bool -> Params BS -> ids -> ids -> scores.
Variable solver_gradient : bool -> Params BS -> Solver.batch -> Grads BS.
Variable train_data_loader :
  string -> string -> string -> nat -> nat ->
  Field * Field * list Solver.batch * list Solver.batch.

Variable BT : Backend.
Variable new_model : string -> nat -> nat -> Params BT.
Variable forward_train : bool -> Params BT -> Train.batch -> scores.
Variable forward_infer :
  bool -> Params BT -> Train.batch -> nat -> Z -> ids * scores.
Variable gradient : bool -> Params BT -> Train.batch -> Grads BT.
Variable model_loss :
  scores -> ids -> (list (list float) -> list nat -> float) -> float.
Variable load_data :
  Train.Args -> Field * Field * list Train.batch * list Train.batch.

Variable nll : list float -> nat -> float.

Local Abbreviation train_epoch_S :=
  (@Solver.train_epoch BS forward solver_gradient).
Local Abbreviation validate_S := (@Solver.validate BS forward).
Local Abbreviation train_body_S :=
  (@Solver.train_body BS forward solver_gradient).
Local Abbreviation train_S := (@Solver.train BS forward solver_gradient).
Local Abbreviation init_S :=
  (@Solver.init_training BS lstm2lstm_baseline train_data_loader nll).
Local Abbreviation epoch_T :=
  (@Train.epoch_body BT forward_train forward_infer gradient model_loss).
Local Abbreviation main_T :=
  (@Train.main BT new_model forward_train forward_infer gradient model_loss
               nll load_data).
Local Abbreviation setup_T := (@Train.setup BT new_model nll load_data).

Lemma min_le_step (v b : float) :
  is_nan b = false ->
  PyFloat.le (if PyFloat.le v b then v else b) b = true /\
  is_nan (if PyFloat.le v b then v else b) = false.
Proof.
  intros Hb. destruct (PyFloat.le v b) eqn:E.
  - split; [exact E|]. apply (le_not_nan _ _ E).
  - split; [apply le_refl; exact Hb|exact Hb].
Qed.

Lemma min_lt_step (v b : float) :
  is_nan b = false ->
  PyFloat.le (if PyFloat.lt v b then v else b) b = true /\
  is_nan (if PyFloat.lt v b then v else b) = false.
Proof.
  intros Hb. destruct (PyFloat.lt v b) eqn:E.
  - pose proof (lt_le _ _ E) as Ele.
    split; [exact Ele|]. apply (le_not_nan _ _ Ele).
  - split; [apply le_refl; exact Hb|exact Hb].
Qed.

(** The run of [Solver.train] on iterators that yield batches. *)
Lemma solver_run (s : Solver.solver BS) :
  Solver.train_iterator s <> [] ->
  Solver.val_iterator s <> [] ->
  exists h,
    length h = Z.to_nat (Solver.n_epochs (Solver.args s)) /\
    Solver.history (fst (train_S s)) = Solver.history s ++ h /\
    snd (train_S s)
    = Ok (last (map best_after h) inf,
          last (map (fun r => ep r - 1) (filter persisted h)) 0) /\
    best_tracks_min inf [] h /\
    h = solver_replay inf 1 (map vloss h) /\
    Solver.ops (fst (train_S s))
    = Solver.ops s ++ concat (repeat (solver_epoch_ops s) (length h)) /\
    exists ws,
      Solver.fs (fst (train_S s)) = Solver.fs s ++ ws /\
      forallb (@is_param_write BS (Solver.ckp_path (Solver.args s))) ws
      = true /\
      length ws = length (filter persisted h).
Proof.
  intros Hti Hvi.
  destruct (solver_train_value forward solver_gradient s Hti Hvi)
    as [h [Hlen [Hh Hr]]].
  revert Hh Hr. rewrite (solver_train_unfold forward solver_gradient).
  intros Hh Hr.
  destruct (solver_loop_replay forward solver_gradient
              (Z.to_nat (Solver.n_epochs (Solver.args s))) 0 inf 0 s Hti Hvi)
    as [s1 [res [vs [Hl [_ [Hlv [Hh1 [Hws Ho]]]]]]]].
  rewrite Hl in Hh, Hr |- *. cbn [fst snd] in Hh, Hr |- *.
  rewrite Hh1 in Hh. apply app_inv_head in Hh.
  change (0 + 1) with 1 in Hh, Hws, Hh1. subst h.
  exists (solver_replay inf 1 vs).
  split; [exact Hlen|]. split; [exact Hh1|].
  split; [exact Hr|].
  split.
  { apply solver_replay_tracks; [reflexivity|left; reflexivity|reflexivity]. }
  split; [rewrite solver_replay_vloss; reflexivity|].
  split; [rewrite Ho, Hlen; reflexivity|].
  exact Hws.
Qed.

(** C9.  In both training loops the best validation loss is the running
    minimum of the validation losses.  In every epoch that comes to its
    decision the variable that holds the best loss becomes the smaller of
    its value and the validation loss of the epoch, so that it never goes
    up, and the entry of the epoch records that loss and the new best loss.
    Over a run, from the best loss [inf], the best loss at the end is that
    of the last entry (the value [Solver.train] holds at the end, the
    variable [best_val_loss] of [train.py]); the best loss of every entry
    is [inf] or one of the losses met so far and is at most each of them;
    and there is one entry for each whole epoch run. *)
Theorem C9_best_is_running_minimum :
  (forall (e : nat) (s : Train.script BT),
      Train.val_iterator s <> [] ->
      first_batch_empty (Train.train_iterator s) = false ->
      let s' := fst (epoch_T e s) in
      let v := Train.val_loss s' in
      Train.best_val_loss s'
      = (if PyFloat.le v (Train.best_val_loss s)
         then v else Train.best_val_loss s) /\
      Train.history s'
      = Train.history s
        ++ [{| ep := e; vloss := v;
               persisted := PyFloat.le v (Train.best_val_loss s);
               best_after := Train.best_val_loss s' |}] /\
      (is_nan (Train.best_val_loss s) = false ->
       PyFloat.le (Train.best_val_loss s') (Train.best_val_loss s) = true /\
       is_nan (Train.best_val_loss s') = false)) /\
  (forall (a : Train.Args) (fs0 : files (Params BT)),
      let s' := fst (main_T a fs0) in
      Train.best_val_loss s' = last (map best_after (Train.history s')) inf /\
      best_tracks_min inf [] (Train.history s') /\
      (snd (main_T a fs0) = Ok tt ->
       Train.ops s'
       = concat (repeat (epoch_ops (setup_T a fs0))
                        (length (Train.history s'))))) /\
  (forall (best : float) (be epoch : nat) (s : Solver.solver BS),
      Solver.train_iterator s <> [] ->
      Solver.val_iterator s <> [] ->
      exists v,
        snd (validate_S (Solver.val_iterator s) (fst (train_epoch_S s)))
        = Ok v /\
        snd (train_body_S (best, be) epoch s)
        = Ok (if PyFloat.lt v best then v else best,
              if PyFloat.lt v best then epoch else be, Continue) /\
        Solver.history (fst (train_body_S (best, be) epoch s))
        = Solver.history s
          ++ [{| ep := epoch + 1; vloss := v;
                 persisted := PyFloat.lt v best;
                 best_after := if PyFloat.lt v best then v else best |}] /\
        (is_nan best = false ->
         PyFloat.le (if PyFloat.lt v best then v else best) best = true /\
         is_nan (if PyFloat.lt v best then v else best) = false)) /\
  (forall s : Solver.solver BS,
      Solver.train_iterator s <> [] ->
      Solver.val_iterator s <> [] ->
      exists h,
        length h = Z.to_nat (Solver.n_epochs (Solver.args s)) /\
        Solver.history (fst (train_S s)) = Solver.history s ++ h /\
        (exists e, snd (train_S s) = Ok (last (map best_after h) inf, e)) /\
        best_tracks_min inf [] h /\
        Solver.ops (fst (train_S s))
        = Solver.ops s ++ concat (repeat (solver_epoch_ops s) (length h))).
Proof.
  split; [|split; [|split]].
  - intros e s Hv Ht. cbv zeta.
    destruct (epoch_body_step forward_train forward_infer gradient
                              model_loss e s Hv Ht)
      as [_ [Hb [_ [_ [Hh _]]]]].
    cbv zeta in Hb, Hh.
    split; [exact Hb|]. split; [exact Hh|].
    intros Hn. rewrite Hb. apply min_le_step. exact Hn.
  - intros a fs0. cbv zeta.
    destruct (@main_tracks BT new_model forward_train forward_infer gradient
                           model_loss nll load_data a fs0) as [Hb _].
    destruct (@main_replay BT new_model forward_train forward_infer gradient
                           model_loss nll load_data a fs0)
      as [Hh [_ [_ [_ [Hops _]]]]].
    split; [exact Hb|]. split.
    + rewrite Hh.
      apply replay_tracks; [reflexivity|left; reflexivity|reflexivity].
    + intros Hok. rewrite (Hops Hok), length_map. reflexivity.
  - intros best be epoch s Hti Hvi.
    destruct (solver_epoch_step forward solver_gradient best be epoch s
                                Hti Hvi)
      as [v [Hval [Hr [_ [Hh _]]]]].
    exists v. split; [exact Hval|]. split; [exact Hr|].
    split; [exact Hh|]. apply min_lt_step.
  - intros s Hti Hvi.
    destruct (solver_run s Hti Hvi)
      as [h [Hlen [Hh [Hr [Htr [_ [Ho _]]]]]]].
    exists h. split; [exact Hlen|]. split; [exact Hh|].
    split; [eexists; exact Hr|].
    split; [exact Htr|exact Ho].
Qed.

(** C4.  The two drivers decide alike but for ties.  In every epoch that
    comes to its decision, [Solver.train] writes its parameter file when
    the validation loss of the epoch is less than the best loss, and writes
    nothing otherwise; [train.py] writes its model file when the loss is
    less than or equal to the best loss, and writes nothing otherwise; and
    the two comparisons differ exactly when the loss equals the best one.
    On the same validation losses, with no loss equal to the best loss
    before it, the entries of [train.py] are the entries of [Solver.train]
    for the epochs that [train.py] runs, so that both save in the same
    epochs; each driver has written its file once for each of its epochs
    that saved. *)
Theorem C4_policies_differ_on_ties_only :
  (forall (best : float) (be epoch : nat) (s : Solver.solver BS),
      Solver.train_iterator s <> [] ->
      Solver.val_iterator s <> [] ->
      exists v,
        snd (validate_S (Solver.val_iterator s) (fst (train_epoch_S s)))
        = Ok v /\
        let s' := fst (train_body_S (best, be) epoch s) in
        Solver.fs s'
        = Solver.fs s
          ++ (if PyFloat.lt v best
              then [WriteFile (path_join (Solver.ckp_path (Solver.args s))
                                         "model.pth")
                              (StateDict (Solver.params s'))]
              else []) /\
        exists r,
          Solver.history s' = Solver.history s ++ [r] /\
          ep r = epoch + 1 /\ vloss r = v /\ persisted r = PyFloat.lt v best) /\
  (forall (e : nat) (s : Train.script BT),
      Train.val_iterator s <> [] ->
      first_batch_empty (Train.train_iterator s) = false ->
      let s' := fst (epoch_T e s) in
      let v := Train.val_loss s' in
      Train.fs s'
      = Train.fs s
        ++ (if PyFloat.le v (Train.best_val_loss s)
            then [WriteFile "experiments/test/model.pkl"
                            (WholeModel (Train.params s'))]
            else []) /\
      exists r,
        Train.history s' = Train.history s ++ [r] /\
        ep r = e /\ vloss r = v /\
        persisted r = PyFloat.le v (Train.best_val_loss s)) /\
  (forall v b : float,
      xorb (PyFloat.le v b) (PyFloat.lt v b) = PyFloat.eq v b) /\
  (forall (a' : Solver.Args) (fs0' : files (Params BS))
          (a : Train.Args) (fs0 : files (Params BT)),
      let s0 := init_S a' fs0' in
      let s1 := fst (train_S s0) in
      let t1 := fst (main_T a fs0) in
      let hS := Solver.history s1 in
      let hT := Train.history t1 in
      no_tie inf (map vloss hT) = true ->
      map vloss hT = firstn (length hT) (map vloss hS) ->
      hT = firstn (length hT) hS /\
      persisted_epochs hT = persisted_epochs (firstn (length hT) hS) /\
      (exists wsT wsS,
          Train.fs t1 = Train.fs (setup_T a fs0) ++ wsT /\
          forallb (@is_model_write BT) wsT = true /\
          length wsT = length (persisted_epochs hT) /\
          Solver.fs s1 = Solver.fs s0 ++ wsS /\
          forallb (@is_param_write BS (Solver.ckp_path a')) wsS = true /\
          length wsS = length (persisted_epochs hS)) /\
      (snd (main_T a fs0) = Ok tt ->
       Train.ops t1
       = concat (repeat (epoch_ops (setup_T a fs0)) (length hT))) /\
      (Solver.train_iterator s0 <> [] ->
       Solver.val_iterator s0 <> [] ->
       length hS = Z.to_nat (Solver.n_epochs a') /\
       Solver.ops s1
       = Solver.ops s0 ++ concat (repeat (solver_epoch_ops s0) (length hS)))).
Proof.
  split; [|split; [|split]].
  - intros best be epoch s Hti Hvi.
    destruct (solver_epoch_step forward solver_gradient best be epoch s
                                Hti Hvi)
      as [v [Hval [_ [Hf [Hh _]]]]].
    exists v. split; [exact Hval|]. cbv zeta. split; [exact Hf|].
    eexists. split; [exact Hh|]. repeat split.
  - intros e s Hv Ht. cbv zeta.
    destruct (epoch_body_step forward_train forward_infer gradient
                              model_loss e s Hv Ht)
      as [_ [_ [_ [Hf [Hh _]]]]].
    cbv zeta in Hf, Hh. split; [exact Hf|].
    eexists. split; [exact Hh|]. repeat split.
  - intros v b. rewrite le_lt_or_eq.
    destruct (PyFloat.lt v b) eqn:E; simpl.
    + rewrite (lt_not_eq _ _ E). reflexivity.
    + destruct (PyFloat.eq v b); reflexivity.
  - intros a' fs0' a fs0 s0 s1 t1 hS hT Hno Hsame.
    assert (Hepochs :
      (snd (main_T a fs0) = Ok tt ->
       Train.ops t1
       = concat (repeat (epoch_ops (setup_T a fs0)) (length hT))) /\
      (Solver.train_iterator s0 <> [] ->
       Solver.val_iterator s0 <> [] ->
       length hS = Z.to_nat (Solver.n_epochs a') /\
       Solver.ops s1
       = Solver.ops s0
         ++ concat (repeat (solver_epoch_ops s0) (length hS)))).
    { split.
      - intros Hok.
        destruct (@main_replay BT new_model forward_train forward_infer
                               gradient model_loss nll load_data a fs0)
          as [_ [_ [_ [_ [Hops _]]]]].
        subst hT t1. rewrite (Hops Hok), length_map. reflexivity.
      - intros Hti Hvi.
        destruct (solver_run s0 Hti Hvi)
          as [h [Hlen [Hh [_ [_ [_ [Ho _]]]]]]].
        destruct (@init_training_fields BS lstm2lstm_baseline
                                        train_data_loader nll a' fs0')
          as [Ha [_ [Hnil _]]].
        subst hS s1. fold s0 in Ha, Hnil.
        rewrite Hnil in Hh. simpl in Hh. rewrite Hh.
        rewrite Ha in Hlen. split; [exact Hlen|exact Ho]. }
    destruct (@solver_train_history BS forward solver_gradient
                                    (init_S a' fs0'))
      as [vs [Hh [wsS [HwsS [HallS HlenS]]]]].
    destruct (@init_training_fields BS lstm2lstm_baseline train_data_loader
                                    nll a' fs0') as [Ha [_ [Hnil _]]].
    rewrite Hnil in Hh. simpl in Hh. rewrite Ha in HallS.
    assert (HS : hS = solver_replay inf 1 (map vloss hS)).
    { subst hS s1 s0. rewrite Hh, solver_replay_vloss. reflexivity. }
    destruct (@main_replay BT new_model forward_train forward_infer gradient
                           model_loss nll load_data a fs0)
      as [HT [_ [Hlen _]]].
    destruct (@main_writes BT new_model forward_train forward_infer gradient
                           model_loss nll load_data a fs0)
      as [wsT [HwsT [HallT HlenT]]].
    fold t1 in HT, Hlen, HwsT, HlenT. fold hT in HT, Hlen, HlenT.
    fold s0 in HwsS. fold s1 in HwsS.
    assert (HlenS' : length wsS = length (filter persisted hS)).
    { subst hS s1 s0. rewrite Hh. exact HlenS. }
    clear Hh HlenS.
    clearbody hS hT.
    assert (Heq : hT = firstn (length hT) hS).
    { transitivity (solver_replay inf 1 (map vloss hT)).
      - rewrite HT at 1.
        rewrite (@replay_no_tie (Train.patience_limit a) (map vloss hT)
                                inf 0 1 Hno), Hlen.
        apply firstn_all2. rewrite solver_replay_length. apply Nat.le_refl.
      - rewrite Hsame, <- firstn_solver_replay, <- HS. reflexivity. }
    split; [exact Heq|].
    split; [rewrite <- Heq; reflexivity|].
    split; [|exact Hepochs].
    exists wsT, wsS. unfold persisted_epochs. rewrite !length_map.
    repeat split; assumption.
Qed.
End PoliciesOnState.

Lemma C9_best_is_running_minimum_witness :
  let run := Demo.run_train [5; 3; 4; 2]%Z 4 10 in
  let sol := Demo.run_solver [5; 3; 4; 2]%Z 4 in
  let t0 := @Train.setup Demo.backend Demo.new_model Demo.nll Demo.load_data
                         (Demo.train_args 4 10) [] in
  let t1 := fst (@Train.epoch_body Demo.backend Demo.forward_train
                                   (Demo.forward_infer [5; 3; 4; 2]%Z)
                                   Demo.gradient Demo.model_loss 1 t0) in
  (Train.best_val_loss t0 = inf /\ Train.val_loss t1 = PyFloat.of_Z 5 /\
   Train.best_val_loss t1 = PyFloat.of_Z 5) /\
  (map best_after (Train.history (fst run))
   = map PyFloat.of_Z [5; 3; 3; 2]%Z /\
   Train.best_val_loss (fst run) = PyFloat.of_Z 2 /\
   length (Train.ops (fst run)) = 24) /\
  (map best_after (Solver.history (fst sol))
   = map PyFloat.of_Z [5; 3; 3; 2]%Z /\
   snd sol = Ok (PyFloat.of_Z 2, 3)).
Proof.
  cbv zeta. unfold Demo.run_train, Demo.run_solver.
  destruct (@C9_best_is_running_minimum
              Demo.backend (Demo.forward [5; 3; 4; 2]%Z) Demo.solver_gradient
              Demo.backend Demo.new_model Demo.forward_train
              (Demo.forward_infer [5; 3; 4; 2]%Z) Demo.gradient
              Demo.model_loss Demo.load_data Demo.nll)
    as [HepT [HrunT [_ HrunS]]].
  split; [|split].
  - destruct (HepT 1 (@Train.setup Demo.backend Demo.new_model Demo.nll
                                   Demo.load_data (Demo.train_args 4 10) []))
      as [Hb _].
    + vm_compute; discriminate.
    + reflexivity.
    + split; [reflexivity|]. split; [vm_compute; reflexivity|].
      rewrite Hb. vm_compute. reflexivity.
  - destruct (HrunT (Demo.train_args 4 10) []) as [Hb [_ Hops]].
    split; [vm_compute; reflexivity|].
    split; [rewrite Hb; vm_compute; reflexivity|].
    rewrite Hops; [vm_compute; reflexivity|vm_compute; reflexivity].
  - destruct (HrunS (Demo.solver_init 4)) as [h [Hlen [Hh [[e Hr] _]]]].
    + vm_compute; discriminate.
    + vm_compute; discriminate.
    + split; vm_compute; reflexivity.
Defined.

Lemma C4_policies_differ_on_ties_only_witness :
  let s1 := fst (Demo.run_solver [5; 3; 4; 2]%Z 4) in
  let t1 := fst (Demo.run_train [5; 3; 4; 2]%Z 4 10) in
  let hS := Solver.history s1 in
  let hT := Train.history t1 in
  no_tie inf (map vloss hT) = true /\
  map vloss hT = map PyFloat.of_Z [5; 3; 4; 2]%Z /\
  hT = firstn (length hT) hS /\
  persisted_epochs hT = [1; 2; 4] /\
  persisted_epochs hS = [1; 2; 4] /\
  count_writes "experiments/test/model.pkl" (Train.fs t1) = 3 /\
  count_writes "ckp/model.pth" (Solver.fs s1) = 3.
Proof.
  cbv zeta. unfold Demo.run_solver, Demo.run_train, Demo.solver_init.
  split; [vm_compute; reflexivity|].
  split; [vm_compute; reflexivity|].
  destruct (@C4_policies_differ_on_ties_only
              Demo.backend Demo.lstm2lstm_baseline
              (Demo.forward [5; 3; 4; 2]%Z) Demo.solver_gradient
              Demo.train_data_loader
              Demo.backend Demo.new_model Demo.forward_train
              (Demo.forward_infer [5; 3; 4; 2]%Z) Demo.gradient
              Demo.model_loss Demo.load_data Demo.nll)
    as [_ [_ [_ Hrun]]].
  destruct (Hrun (Demo.solver_args 4) [] (Demo.train_args 4 10) [])
    as [H1 [H2 _]].
  - vm_compute; reflexivity.
  - vm_compute; reflexivity.
  - split; [exact H1|].
    repeat split; vm_compute; reflexivity.
Defined.

(** ** The start of a run, and the bundle of the vocabularies *)

Section StartOfRun.
Variable BS : Backend.
Variable lstm2lstm_baseline : nat -> nat -> Params BS.
Variable forward : bool -> Params BS -> ids -> ids -> scores.
Variable solver_gradient : bool -> Params BS -> Solver.batch -> Grads BS.
Variable train_data_loader :
  string -> string -> string -> nat -> nat ->
  Field * Field * list Solver.batch * list Solver.batch.

Variable BT : Backend.
Variable new_model : string -> nat -> nat -> Params BT.
Variable load_data :
  Train.Args -> Field * Field * list Train.batch * list Train.batch.

Variable nll : list float -> nat -> float.

Local Abbreviation train_body_S :=
  (@Solver.train_body BS forward solver_gradient).
Local Abbreviation train_S := (@Solver.train BS forward solver_gradient).
Local Abbreviation init_S :=
  (@Solver.init_training BS lstm2lstm_baseline train_data_loader nll).
Local Abbreviation setup_T := (@Train.setup BT new_model nll load_data).

End StartOfRun.


(** ** train.py: the counter and the files, on the variables of the script *)

Section TrainCounter.
Variable B : Backend.
Variable new_model : string -> nat -> nat -> Params B.
Variable forward_train : bool -> Params B -> Train.batch -> scores.
Variable forward_infer :
  bool -> Params B -> Train.batch -> nat -> Z -> ids * scores.
Variable gradient : bool -> Params B -> Train.batch -> Grads B.
Variable model_loss :
  scores -> ids -> (list (list float) -> list nat -> float) -> float.
Variable nll : list float -> nat -> float.
Variable load_data :
  Train.Args -> Field * Field * list Train.batch * list Train.batch.

Local Abbreviation script := (Train.script B).
Local Abbreviation epoch_body :=
  (@Train.epoch_body B forward_train forward_infer gradient model_loss).
Local Abbreviation epoch_loop :=
  (@Train.epoch_loop B forward_train forward_infer gradient model_loss).
Local Abbreviation main :=
  (@Train.main B new_model forward_train forward_infer gradient model_loss nll
               load_data).
Local Abbreviation setup := (@Train.setup B new_model nll load_data).

(** X9.  The patience counter of [train.py] is never set back.  An epoch
    that comes to its decision leaves the variable [patience] as it is
    when it saves, and adds one to it when it does not.  So at the end of
    a run the counter is the number of the epochs decided that did not
    save: the epochs decided are as many as the writes of the model file
    and the counter together, and when the run ends without an exception
    they are the whole epochs run. *)
Theorem patience_counts_every_miss :
  (forall (e : nat) (s : script),
      Train.val_iterator s <> [] ->
      first_batch_empty (Train.train_iterator s) = false ->
      let s' := fst (epoch_body e s) in
      Train.patience s'
      = (if PyFloat.le (Train.val_loss s') (Train.best_val_loss s)
         then Train.patience s else Train.patience s + 1) /\
      Train.patience_log s' = Train.patience_log s ++ [Train.patience s']) /\
  (forall (a : Train.Args) (fs0 : files (Params B)),
      let s' := fst (main a fs0) in
      Train.patience s' = misses (Train.history s') /\
      Train.patience_log s'
      = map (fun k => misses (firstn (S k) (Train.history s')))
            (seq 0 (length (Train.history s'))) /\
      (exists ws,
          Train.fs s' = Train.fs (setup a fs0) ++ ws /\
          forallb (@is_model_write B) ws = true /\
          length ws + Train.patience s' = length (Train.history s')) /\
      (snd (main a fs0) = Ok tt ->
       Train.ops s'
       = concat (repeat (epoch_ops (setup a fs0))
                        (length (Train.history s'))))).
Proof.
  split.
  - intros e s Hv Ht. cbv zeta.
    destruct (epoch_body_step forward_train forward_infer gradient model_loss
                              e s Hv Ht)
      as [_ [_ [Hp [_ [_ [Hpl _]]]]]].
    cbv zeta in Hp, Hpl. split; assumption.
  - intros a fs0. cbv zeta.
    destruct (@main_tracks B new_model forward_train forward_infer gradient
                           model_loss nll load_data a fs0) as [_ Hp].
    destruct (@main_writes B new_model forward_train forward_infer gradient
                           model_loss nll load_data a fs0)
      as [ws [Hws [Hall Hlen]]].
    destruct (@main_replay B new_model forward_train forward_infer gradient
                           model_loss nll load_data a fs0)
      as [_ [_ [_ [_ [Hops _]]]]].
    split; [exact Hp|].
    split; [apply (@main_counter B new_model forward_train forward_infer
                                 gradient model_loss nll load_data a fs0)|].
    split.
    + exists ws. split; [exact Hws|]. split; [exact Hall|].
      rewrite Hlen, Hp. unfold misses. apply filter_length.
    + intros Hok. rewrite (Hops Hok), length_map. reflexivity.
Qed.

Lemma model_writes_read (ws : files (Params B)) (path : string) :
  forallb (@is_model_write B) ws = true ->
  path <> "experiments/test/model.pkl"%string ->
  read_file ws path = None.
Proof.
  intros Hall Hpath. unfold read_file.
  induction ws as [|w ws IH] using rev_ind; [reflexivity|].
  rewrite forallb_app in Hall. apply andb_prop in Hall.
  destruct Hall as [Hall Hw]. rewrite fold_left_app. simpl.
  destruct w as [d|p c]; [apply IH; exact Hall|].
  simpl in Hw. destruct c; try discriminate.
  rewrite Bool.andb_true_r in Hw. apply String.eqb_eq in Hw. subst p.
  destruct (String.eqb_spec "experiments/test/model.pkl" path) as [E|_];
    [congruence|].
  apply IH; exact Hall.
Qed.

(** X14.  The epoch loop of [train.py] writes the model file only.  An
    epoch that comes to its decision writes [experiments/test/model.pkl],
    with the parameters the network then has, when its validation loss is
    at most the best loss, and writes nothing otherwise.  From any state,
    whatever way the loop ends, the files at its end are those at its
    start followed by writes of the model file, one for each entry made
    that saved, so that every other file reads as it did before the
    loop. *)
Theorem epoch_loop_writes_the_model_file_only (s : script) :
  (forall e : nat,
      Train.val_iterator s <> [] ->
      first_batch_empty (Train.train_iterator s) = false ->
      let s1 := fst (epoch_body e s) in
      Train.fs s1
      = Train.fs s
        ++ (if PyFloat.le (Train.val_loss s1) (Train.best_val_loss s)
            then [WriteFile "experiments/test/model.pkl"
                            (WholeModel (Train.params s1))]
            else [])) /\
  let s' := fst (epoch_loop s) in
  exists ws h,
    Train.fs s' = Train.fs s ++ ws /\
    forallb (@is_model_write B) ws = true /\
    Train.history s' = Train.history s ++ h /\
    length ws = length (filter persisted h) /\
    forall path : string,
      path <> "experiments/test/model.pkl"%string ->
      read_file (Train.fs s') path = read_file (Train.fs s) path.
Proof.
  split.
  { intros e Hv Ht. cbv zeta.
    destruct (epoch_body_step forward_train forward_infer gradient model_loss
                              e s Hv Ht)
      as [_ [_ [_ [Hf _]]]].
    exact Hf. }
  cbv zeta. unfold Train.epoch_loop, bind, get, range.
  pose proof (epoch_loop_replay forward_train forward_infer gradient
                                model_loss
                                (Z.to_nat (Train.n_epochs (Train.args s) + 1 - 1))
                                (Z.to_nat 1) s) as [_ [vs H]].
  cbv zeta in H.
  destruct H as [_ [_ [Hhist [_ [[ws [Hws [Hall Hlen]]] _]]]]].
  exists ws. eexists. split; [exact Hws|]. split; [exact Hall|].
  split; [exact Hhist|]. split; [exact Hlen|].
  intros path Hpath.
  rewrite Hws, read_file_app, (model_writes_read ws Hall Hpath). reflexivity.
Qed.
End TrainCounter.

Lemma patience_counts_every_miss_witness :
  let run := Demo.run_train [5; 3; 4; 2]%Z 4 10 in
  let t0 := @Train.setup Demo.backend Demo.new_model Demo.nll Demo.load_data
                         (Demo.train_args 4 10) [] in
  let t3 := fst (@Train.epoch_body Demo.backend Demo.forward_train
                                   (Demo.forward_infer [5; 6]%Z)
                                   Demo.gradient Demo.model_loss 2
                                   (fst (@Train.epoch_body
                                           Demo.backend Demo.forward_train
                                           (Demo.forward_infer [5; 6]%Z)
                                           Demo.gradient Demo.model_loss 1
                                           t0))) in
  Train.patience t3 = 1 /\
  Train.patience (fst run) = 1 /\
  length (Train.history (fst run)) = 4 /\
  count_writes "experiments/test/model.pkl" (Train.fs (fst run)) = 3 /\
  length (Train.ops (fst run)) = 24.
Proof.
  cbv zeta. unfold Demo.run_train.
  split.
  - destruct (@patience_counts_every_miss
                Demo.backend Demo.new_model Demo.forward_train
                (Demo.forward_infer [5; 6]%Z) Demo.gradient Demo.model_loss
                Demo.nll Demo.load_data) as [Hep _].
    match goal with
    | |- Train.patience (fst (Train.epoch_body _ _ _ _ 2 ?s)) = 1 =>
        destruct (Hep 2 s) as [Hp _];
          [vm_compute; discriminate|reflexivity|rewrite Hp]
    end.
    vm_compute. reflexivity.
  - destruct (@patience_counts_every_miss
                Demo.backend Demo.new_model Demo.forward_train
                (Demo.forward_infer [5; 3; 4; 2]%Z) Demo.gradient
                Demo.model_loss Demo.nll Demo.load_data) as [_ Hrun].
    destruct (Hrun (Demo.train_args 4 10) []) as [Hp [_ [_ Hops]]].
    split; [rewrite Hp; vm_compute; reflexivity|].
    split; [vm_compute; reflexivity|].
    split; [vm_compute; reflexivity|].
    rewrite Hops; vm_compute; reflexivity.
Defined.
